(** * BigQuery AI orchestration layer: a shallow embedding.

    The Python sources under [src/] wrap a warehouse client: each feature
    class builds a SQL string, submits it, shapes the rows that come back and
    writes a best-effort audit row.  This development embeds the parts of
    those classes whose behaviour is specified, and proves (or refutes) the
    specified properties on the embedding.

    Conventions.
    - Python values are the inductive [PyVal]; a [dict] is an association
      list in insertion order, looked up by first match.
    - A method that can raise returns in the monad [M]: a state-passing
      computation over the history of client calls, with result
      [Ok v] or [Raise e].
    - The warehouse client, [uuid.uuid4] and the clock are outside the
      repository: they are an oracle ([Client]) that answers each call from
      the history of the calls made so far.
    - [logger.*] calls have no effect on control flow and are left out,
      except where evaluating one of their arguments can raise. *)

From Stdlib Require Import List String Ascii ZArith Bool Lia.
From Stdlib Require Import Floats.
Import ListNotations.
Open Scope string_scope.

Set Implicit Arguments.
Set Warnings "-register-all,-inexact-float".

(** ** Python values *)

Module Py.

Inductive PyVal : Type :=
| VNone
| VBool (b : bool)
| VInt (z : Z)
| VFloat (f : float)
| VStr (s : string)
| VDatetime (iso : string)      (* a datetime, kept as its isoformat() *)
| VList (l : list PyVal)
| VDict (d : list (string * PyVal)).

Definition Dict := list (string * PyVal).

(** Exceptions the embedded code raises or receives.  [ClientError] stands
    for any exception coming out of the warehouse client. *)
Inductive PyExc : Type :=
| ValueError (msg : string)
| TypeError (msg : string)
| AttributeError (msg : string)
| IndexError (msg : string)
| KeyError (key : string)
| ClientError (msg : string).

Inductive Result (A : Type) : Type :=
| Ok (a : A)
| Raise (e : PyExc).
Arguments Ok {A} a.
Arguments Raise {A} e.

Definition nl : string := String (ascii_of_nat 10) EmptyString.
Definition squote : string := String (ascii_of_nat 39) EmptyString.

(** What CPython itself supplies and the repository only calls. *)
Class Runtime : Type := {
  float_repr : float -> string;          (* repr / str / format of a float *)
  str_repr : string -> string;           (* repr of a str object *)
  datetime_str : string -> string;       (* str of the datetime with this isoformat *)
  datetime_repr : string -> string;      (* repr of the datetime with this isoformat *)
  sha256_hexdigest : string -> string    (* hashlib.sha256(s.encode()).hexdigest() *)
}.

(** *** Dictionaries *)

Fixpoint dict_get (d : Dict) (k : string) : option PyVal :=
  match d with
  | [] => None
  | (k', v) :: d' => if String.eqb k' k then Some v else dict_get d' k
  end.

Definition dict_has (d : Dict) (k : string) : bool :=
  match dict_get d k with Some _ => true | None => false end.

(** [d.get(k, default)] *)
Definition dict_get_default (d : Dict) (k : string) (default : PyVal) : PyVal :=
  match dict_get d k with Some v => v | None => default end.

Fixpoint dict_remove (d : Dict) (k : string) : Dict :=
  match d with
  | [] => []
  | (k', v) :: d' => if String.eqb k' k then dict_remove d' k else (k', v) :: dict_remove d' k
  end.

(** [d[k] = v]: an existing key keeps its position. *)
Fixpoint dict_set (d : Dict) (k : string) (v : PyVal) : Dict :=
  match d with
  | [] => [(k, v)]
  | (k', v') :: d' => if String.eqb k' k then (k, v) :: d' else (k', v') :: dict_set d' k v
  end.

(** [{**a, **b}] and [a.update(b)] *)
Definition dict_update (a b : Dict) : Dict :=
  fold_left (fun acc kv => dict_set acc (fst kv) (snd kv)) b a.

(** A dict display [{k1: v1, ..., kn: vn}] evaluated left to right. *)
Definition dict_of (items : list (string * PyVal)) : Dict := dict_update [] items.

Definition dict_keys (d : Dict) : list string := map fst d.

(** *** Builtins *)

Definition type_name (v : PyVal) : string :=
  match v with
  | VNone => "NoneType"
  | VBool _ => "bool"
  | VInt _ => "int"
  | VFloat _ => "float"
  | VStr _ => "str"
  | VDatetime _ => "datetime"
  | VList _ => "list"
  | VDict _ => "dict"
  end.

Definition truthy (v : PyVal) : bool :=
  match v with
  | VNone => false
  | VBool b => b
  | VInt z => negb (Z.eqb z 0)
  | VFloat f => negb (PrimFloat.eqb f PrimFloat.zero)
  | VStr s => negb (String.eqb s EmptyString)
  | VDatetime _ => true
  | VList l => match l with [] => false | _ => true end
  | VDict d => match d with [] => false | _ => true end
  end.

Definition py_len (v : PyVal) : Result Z :=
  match v with
  | VStr s => Ok (Z.of_nat (String.length s))
  | VList l => Ok (Z.of_nat (List.length l))
  | VDict d => Ok (Z.of_nat (List.length d))
  | _ => Raise (TypeError ("object of type " ++ squote ++ type_name v ++ squote ++ " has no len()"))
  end.

(** [v.get(k, default)]: defined on dicts (and on warehouse rows, which are
    modelled as dicts); any other object has no attribute [get]. *)
Definition py_get (v : PyVal) (k : string) (default : PyVal) : Result PyVal :=
  match v with
  | VDict d => Ok (dict_get_default d k default)
  | _ => Raise (AttributeError (squote ++ type_name v ++ squote ++ " object has no attribute " ++ squote ++ "get" ++ squote))
  end.

(** Decimal text of an integer, as [str] prints it. *)
Fixpoint digits_of_pos (fuel : nat) (n : N) (acc : string) : string :=
  match fuel with
  | O => acc
  | S fuel' =>
      let d := N.modulo n 10 in
      let acc' := String (ascii_of_N (48 + d)) acc in
      let q := N.div n 10 in
      if N.eqb q 0 then acc' else digits_of_pos fuel' q acc'
  end.

Definition int_str (z : Z) : string :=
  match z with
  | Z0 => "0"
  | Zpos p => digits_of_pos (S (N.to_nat (N.log2 (Npos p)))) (Npos p) EmptyString
  | Zneg p => "-" ++ digits_of_pos (S (N.to_nat (N.log2 (Npos p)))) (Npos p) EmptyString
  end.

Definition join (sep : string) (l : list string) : string := String.concat sep l.

Section WithRuntime.
Context {RT : Runtime}.

(** [repr(v)].  The recursion through lists and dicts is written with local
    fixpoints so that it is structural. *)
Fixpoint py_repr (v : PyVal) : string :=
  match v with
  | VNone => "None"
  | VBool true => "True"
  | VBool false => "False"
  | VInt z => int_str z
  | VFloat f => float_repr f
  | VStr s => str_repr s
  | VDatetime iso => datetime_repr iso
  | VList l =>
      "[" ++ join ", " ((fix reprs (l : list PyVal) : list string :=
                           match l with
                           | [] => []
                           | x :: l' => py_repr x :: reprs l'
                           end) l) ++ "]"
  | VDict d =>
      "{" ++ join ", " ((fix items (d : list (string * PyVal)) : list string :=
                           match d with
                           | [] => []
                           | (k, x) :: d' => (str_repr k ++ ": " ++ py_repr x) :: items d'
                           end) d) ++ "}"
  end.

(** [str(v)], which is also what an f-string field [{v}] inserts. *)
Definition py_str (v : PyVal) : string :=
  match v with
  | VStr s => s
  | VDatetime iso => datetime_str iso
  | _ => py_repr v
  end.

End WithRuntime.

Definition exc_str (e : PyExc) : string :=
  match e with
  | ValueError m | TypeError m | AttributeError m | IndexError m | ClientError m => m
  | KeyError k => squote ++ k ++ squote
  end.

End Py.

(** ** Effects: the warehouse client and the exception monad *)

Module Eff.
Import Py.

(** One entry per call to something outside the repository. *)
Inductive Event : Type :=
| EvUuid4
| EvNow
| EvQuery (sql : string)
| EvInsertRowsJson (table_id : string) (rows : list PyVal)
| EvCreateTable (table_id : string) (schema : list (string * string))
| EvDeleteTable (table_id : string).

(** The history of calls, oldest first. *)
Definition Trace := list Event.

(** [client.query(q)] followed by [list(query_job.result())]: the rows (each
    a mapping from column name to value) and the job's [ended] timestamp,
    already in isoformat. *)
Record QueryJob : Type := {
  job_rows : list Dict;
  job_ended : option string
}.

(** The collaborators of the repository.  Every answer may depend on the
    whole history, so a client can fail on its second call only, return
    different rows to the same query, and so on. *)
Record Client : Type := {
  uuid4_hex : Trace -> string;                                   (* uuid.uuid4().hex *)
  utc_now : Trace -> Result string;                              (* bigquery.datetime.datetime.now(utc) *)
  query : Trace -> string -> Result QueryJob;
  insert_rows_json : Trace -> string -> list PyVal -> Result (list PyVal);
  create_table : Trace -> string -> list (string * string) -> Result unit;
  delete_table : Trace -> string -> Result unit
}.

(** [self.config].  [get_bigquery_config()] returns a [BigQueryConfig]
    object: it has attributes and [get_full_table_id], and is not
    subscriptable.  Half of the feature classes subscript it
    ([self.config['project_id']]); that only works when the attribute holds a
    mapping, which is the second constructor. *)
Inductive Config : Type :=
| BigQueryConfig (project_id location dataset_id : string)
| MappingConfig (d : Dict).

Definition config_getitem (c : Config) (k : string) : Result PyVal :=
  match c with
  | BigQueryConfig _ _ _ =>
      Raise (TypeError (squote ++ "BigQueryConfig" ++ squote ++ " object is not subscriptable"))
  | MappingConfig d =>
      match dict_get d k with
      | Some v => Ok v
      | None => Raise (KeyError k)
      end
  end.

Definition get_full_table_id (c : Config) (table_id : string) : Result string :=
  match c with
  | BigQueryConfig project_id _ dataset_id =>
      Ok (project_id ++ "." ++ dataset_id ++ "." ++ table_id)
  | MappingConfig _ =>
      Raise (AttributeError (squote ++ "dict" ++ squote ++ " object has no attribute "
                             ++ squote ++ "get_full_table_id" ++ squote))
  end.

(** The two attributes every feature class sets in [__init__]. *)
Record Self : Type := {
  client : Client;
  config : Config
}.

Definition record (t : Trace) (e : Event) : Trace := (t ++ [e])%list.

(** Computations: read and extend the history, return or raise. *)
Definition M (A : Type) : Type := Trace -> Result A * Trace.

Definition ret {A} (a : A) : M A := fun t => (Ok a, t).
Definition raise {A} (e : PyExc) : M A := fun t => (Raise e, t).
Definition lift {A} (r : Result A) : M A := fun t => (r, t).

Definition bind {A B} (m : M A) (k : A -> M B) : M B :=
  fun t =>
    match m t with
    | (Ok a, t') => k a t'
    | (Raise e, t') => (Raise e, t')
    end.

(** [try: m  except Exception as e: h e] *)
Definition try_except {A} (m : M A) (h : PyExc -> M A) : M A :=
  fun t =>
    match m t with
    | (Ok a, t') => (Ok a, t')
    | (Raise e, t') => h e t'
    end.

(** A try block whose handler asks whether a local was bound:
    [try: x = m; k x  except Exception as e: ...'x' in locals()...].
    [unbound] handles an exception raised before [x] was assigned, [bound]
    one raised after. *)
Definition try_bind {A B} (m : M A) (k : A -> M B)
    (unbound : PyExc -> M B) (bound : A -> PyExc -> M B) : M B :=
  fun t =>
    match m t with
    | (Raise e, t') => unbound e t'
    | (Ok a, t') =>
        match k a t' with
        | (Ok b, t'') => (Ok b, t'')
        | (Raise e, t'') => bound a e t''
        end
    end.

Declare Scope py_scope.
Delimit Scope py_scope with py.
Notation "x <- m ;; k" := (bind m (fun x => k))
  (at level 61, m at next level, right associativity) : py_scope.
Notation "m ;;; k" := (bind m (fun _ => k))
  (at level 61, right associativity) : py_scope.
Open Scope py_scope.

(** Calls out of the process: ask the oracle, then record the call. *)
Definition call_uuid4_hex (self : Self) : M string :=
  fun t => (Ok (uuid4_hex (client self) t), record t (EvUuid4)).

Definition call_utc_now (self : Self) : M string :=
  fun t => (utc_now (client self) t, record t (EvNow)).

Definition call_query (self : Self) (sql : string) : M QueryJob :=
  fun t => (query (client self) t sql, record t (EvQuery sql)).

Definition call_insert_rows_json (self : Self) (table_id : string) (rows : list PyVal)
  : M (list PyVal) :=
  fun t => (insert_rows_json (client self) t table_id rows, record t (EvInsertRowsJson table_id rows)).

Definition call_create_table (self : Self) (table_id : string) (schema : list (string * string))
  : M unit :=
  fun t => (create_table (client self) t table_id schema, record t (EvCreateTable table_id schema)).

Definition call_delete_table (self : Self) (table_id : string) : M unit :=
  fun t => (delete_table (client self) t table_id, record t (EvDeleteTable table_id)).

(** [results = []; for x in xs: results.append(body(x)); return results],
    with [results] as the accumulator. *)
Fixpoint for_append {A} (body : A -> M PyVal) (xs : list A) (results : list PyVal)
  : M (list PyVal) :=
  match xs with
  | [] => ret results
  | x :: rest =>
      entry <- body x ;;
      for_append body rest (results ++ [entry])%list
  end.

(** [str(uuid.uuid4())]: the 32 hex digits grouped 8-4-4-4-12. *)
Definition uuid_str (hex : string) : string :=
  substring 0 8 hex ++ "-" ++ substring 8 4 hex ++ "-" ++ substring 12 4 hex ++ "-"
  ++ substring 16 4 hex ++ "-" ++ substring 20 12 hex.

Definition new_id (self : Self) : M string :=
  hex <- call_uuid4_hex self ;; ret (uuid_str hex).

(** [bigquery.ScalarQueryParameter(name, type_, value)], an opaque object
    as far as this code is concerned; kept as a tagged dict. *)
Definition ScalarQueryParameter (name type_ : string) (value : PyVal) : PyVal :=
  VDict [("__class__", VStr "ScalarQueryParameter"); ("name", VStr name);
         ("type_", VStr type_); ("value", value)].

Definition unlines (l : list string) : string := join nl l.

(** How many times [client.delete_table] was issued. *)
Definition is_delete (e : Event) : bool :=
  match e with EvDeleteTable _ => true | _ => false end.
Definition is_create (e : Event) : bool :=
  match e with EvCreateTable _ _ => true | _ => false end.
Definition deletions (t : Trace) : nat := List.length (filter is_delete t).
Definition creations (t : Trace) : nat := List.length (filter is_create t).

End Eff.

(** ** generative_ai/forecaster.py *)

Module Forecaster.
Import Py Eff.

Section WithRuntime.
Context {RT : Runtime}.

(** [Forecaster._build_forecast_query] *)
Definition _build_forecast_query (temp_table_id target_column time_column : string)
    (forecast_horizon : Z) (model_name : string) (kwargs : Dict) : string :=
  let params : list string :=
    List.concat [
      match dict_get kwargs "seasonality" with
      | Some v => [py_str v ++ " as seasonality"]
      | None => []
      end;
      match dict_get kwargs "trend" with
      | Some v => [squote ++ py_str v ++ squote ++ " as trend"]
      | None => []
      end;
      match dict_get kwargs "confidence_level" with
      | Some v => [py_str v ++ " as confidence_level"]
      | None => []
      end] in
  let params_str := match params with [] => EmptyString | _ => join ", " params end in
  let params_struct :=
    if String.eqb params_str EmptyString then EmptyString
    else "STRUCT(" ++ params_str ++ ")" in
  unlines [
    EmptyString;
    "        SELECT ";
    "            AI.FORECAST(";
    "                TABLE `" ++ temp_table_id ++ "`,";
    "                " ++ squote ++ target_column ++ squote ++ ",";
    "                " ++ squote ++ time_column ++ squote ++ ",";
    "                " ++ int_str forecast_horizon ++ ",";
    "                " ++ squote ++ model_name ++ squote;
    "                " ++ (if String.eqb params_struct EmptyString then EmptyString
                           else ", " ++ params_struct);
    "            ) as ai_forecast_result,";
    "            CURRENT_TIMESTAMP() as timestamp,";
    "            AI.FORECAST_METADATA() as ai_forecast_metadata";
    "        "
  ].

(** [Forecaster._create_temp_table] *)
Definition _create_temp_table (self : Self) (time_series_data : list PyVal)
    (target_column time_column : string) : M string :=
  try_except
    (hex <- call_uuid4_hex self ;;
     let temp_table_name := "temp_forecast_" ++ substring 0 8 hex in
     project_id <- lift (config_getitem (config self) "project_id") ;;
     dataset_id <- lift (config_getitem (config self) "dataset_id") ;;
     let temp_table_id :=
       py_str project_id ++ "." ++ py_str dataset_id ++ "." ++ temp_table_name in
     let schema := [(time_column, "TIMESTAMP"); (target_column, "FLOAT64")] in
     call_create_table self temp_table_id schema ;;;
     errors <- call_insert_rows_json self temp_table_id time_series_data ;;
     if truthy (VList errors)
     then raise (ValueError ("Failed to insert data into temp table: " ++ py_str (VList errors)))
     else ret temp_table_id)
    (fun e => raise e).

(** [Forecaster._cleanup_temp_table]: the deletion is issued; whatever it
    raises is logged and dropped. *)
Definition _cleanup_temp_table (self : Self) (temp_table_id : string) : M unit :=
  try_except
    (call_delete_table self temp_table_id)
    (fun _ => ret tt).

(** [Forecaster._store_forecast]; [kwargs] holds [time_series_data] or
    [table_id], whichever the caller passed. *)
Definition _store_forecast (self : Self) (forecast_id target_column time_column : string)
    (forecast_horizon : Z) (model_name : string) (forecast_result : PyVal)
    (parameters : Dict) (kwargs : Dict) : M unit :=
  try_except
    (project_id <- lift (config_getitem (config self) "project_id") ;;
     dataset_id <- lift (config_getitem (config self) "dataset_id") ;;
     let table_id := py_str project_id ++ "." ++ py_str dataset_id ++ ".forecasts" in
     let row := dict_of [
       ("forecast_id", VStr forecast_id);
       ("target_column", VStr target_column);
       ("time_column", VStr time_column);
       ("forecast_horizon", VInt forecast_horizon);
       ("model_name", VStr model_name);
       ("forecast_result", VStr (py_str forecast_result));
       ("parameters", VStr (py_str (VDict parameters)));
       ("timestamp", ScalarQueryParameter "timestamp" "TIMESTAMP" VNone)] in
     row <- match dict_get kwargs "time_series_data" with
            | Some data => n <- lift (py_len data) ;; ret (dict_set row "data_points" (VInt n))
            | None => ret row
            end ;;
     let row := match dict_get kwargs "table_id" with
                | Some t => dict_set row "source_table" t
                | None => row
                end in
     errors <- call_insert_rows_json self table_id [VDict row] ;;
     ret tt)
    (fun _ => ret tt).

(** [Forecaster.forecast].  The handler's test ['temp_table_id' in locals()]
    is [try_bind]: the name is bound exactly when [_create_temp_table] has
    returned. *)
Definition forecast (self : Self) (time_series_data : list PyVal)
    (target_column time_column : string) (forecast_horizon : Z) (model_name : string)
    (kwargs : Dict) : M PyVal :=
  try_bind
    (forecast_id <- new_id self ;;
     temp_table_id <- _create_temp_table self time_series_data target_column time_column ;;
     ret (forecast_id, temp_table_id))
    (fun ids =>
       let forecast_id := fst ids in
       let temp_table_id := snd ids in
       (* **kwargs cannot repeat a keyword that the call already passes *)
       (if dict_has kwargs "temp_table_id"
        then raise (TypeError "_build_forecast_query() got multiple values for keyword argument")
        else ret tt) ;;;
       let query := _build_forecast_query temp_table_id target_column time_column
                      forecast_horizon model_name kwargs in
       query_job <- call_query self query ;;
       match job_rows query_job with
       | [] => raise (ValueError "No results returned from AI.FORECAST")
       | row0 :: _ =>
           let forecast_result := dict_get_default row0 "ai_forecast_result" (VDict []) in
           _cleanup_temp_table self temp_table_id ;;;
           _store_forecast self forecast_id target_column time_column forecast_horizon
             model_name forecast_result kwargs
             [("time_series_data", VList time_series_data)] ;;;
           (* logger.info(..., forecast_periods=len(forecast_result.get('forecast_values', []))) *)
           forecast_values <- lift (py_get forecast_result "forecast_values" (VList [])) ;;
           _ <- lift (py_len forecast_values) ;;
           (* the returned record evaluates the same expression again *)
           forecast_values <- lift (py_get forecast_result "forecast_values" (VList [])) ;;
           forecast_periods <- lift (py_len forecast_values) ;;
           ret (VDict (dict_of [
             ("id", VStr forecast_id);
             ("forecast_result", forecast_result);
             ("model_name", VStr model_name);
             ("parameters", VDict (dict_update (dict_of [
                 ("target_column", VStr target_column);
                 ("time_column", VStr time_column);
                 ("forecast_horizon", VInt forecast_horizon)]) kwargs));
             ("metadata", VDict (dict_of [
                 ("data_points", VInt (Z.of_nat (List.length time_series_data)));
                 ("forecast_periods", VInt forecast_periods);
                 ("timestamp", dict_get_default row0 "timestamp" (VStr EmptyString));
                 ("model_metadata", dict_get_default row0 "ai_forecast_metadata" (VDict []))]))]))
       end)
    (fun e => raise e)
    (fun ids e => _cleanup_temp_table self (snd ids) ;;; raise e).

(** The statements of [forecast] that run before [temp_table_id] is bound. *)
Definition forecast_prologue (self : Self) (time_series_data : list PyVal)
    (target_column time_column : string) : M (string * string) :=
  forecast_id <- new_id self ;;
  temp_table_id <- _create_temp_table self time_series_data target_column time_column ;;
  ret (forecast_id, temp_table_id).

End WithRuntime.

End Forecaster.

(** ** generative_ai/text_generator.py *)

Module TextGenerator.
Import Py Eff.

Section WithRuntime.
Context {RT : Runtime}.

(** The loop over [kwargs.items()] that both query builders share:
    numbers (bools included, as [isinstance(True, int)] holds) are inserted
    bare, strings quoted, anything else is skipped. *)
Definition extra_param (kv : string * PyVal) : option string :=
  match snd kv with
  | VBool _ | VInt _ | VFloat _ => Some (py_str (snd kv) ++ " as " ++ fst kv)
  | VStr value => Some (squote ++ value ++ squote ++ " as " ++ fst kv)
  | _ => None
  end.

(** [TextGenerator._build_generate_text_query] *)
Definition _build_generate_text_query (prompt model_name : string)
    (temperature max_tokens top_p top_k : PyVal) (kwargs : Dict) : string :=
  let query := unlines [
    EmptyString;
    "        SELECT ";
    "            ml_generate_text_result as generated_text,";
    "            ml_generate_text_metadata as metadata";
    "        FROM ML.GENERATE_TEXT(";
    "            MODEL `" ++ model_name ++ "`,";
    "            (SELECT " ++ squote ++ prompt ++ squote ++ " as prompt),";
    "            STRUCT(";
    "                " ++ py_str temperature ++ " as temperature,";
    "                " ++ py_str max_tokens ++ " as max_output_tokens,";
    "                " ++ py_str top_p ++ " as top_p,";
    "                " ++ py_str top_k ++ " as top_k";
    "        "
  ] in
  let query :=
    fold_left
      (fun query kv =>
         match extra_param kv with
         | Some p => query ++ "," ++ nl ++ "                " ++ p
         | None => query
         end)
      kwargs query in
  query ++ nl ++ "            ) as options" ++ nl ++ "        )".

(** The [parameters] dict that [generate_text] builds twice. *)
Definition parameters_of (temperature max_tokens top_p top_k : PyVal) (kwargs : Dict) : Dict :=
  dict_update
    (dict_of [("temperature", temperature); ("max_tokens", max_tokens);
              ("top_p", top_p); ("top_k", top_k)])
    kwargs.

(** [TextGenerator._store_generation] *)
Definition _store_generation (self : Self) (generation_id prompt : string)
    (generated_text : PyVal) (model_name : string) (parameters : Dict) : M unit :=
  try_except
    (table_id <- lift (get_full_table_id (config self) "generated_content") ;;
     now <- call_utc_now self ;;
     let row := dict_of [
       ("id", VStr generation_id);
       ("content_type", VStr "text_generation");
       ("input_data", VDict (dict_of [
           ("prompt", VStr prompt);
           ("model_name", VStr model_name);
           ("parameters", VDict parameters)]));
       ("generated_content", generated_text);
       ("model_name", VStr model_name);
       ("model_parameters", VDict parameters);
       ("status", VStr "success");
       ("created_at", ScalarQueryParameter "timestamp" "TIMESTAMP" (VDatetime now))] in
     errors <- call_insert_rows_json self table_id [VDict row] ;;
     (* both branches only log *)
     ret tt)
    (fun _ => ret tt).

(** [TextGenerator.generate_text] *)
Definition generate_text (self : Self) (prompt model_name : string)
    (temperature max_tokens top_p top_k : PyVal) (kwargs : Dict) : M PyVal :=
  try_except
    (generation_id <- new_id self ;;
     let query := _build_generate_text_query prompt model_name
                    temperature max_tokens top_p top_k kwargs in
     query_job <- call_query self query ;;
     match job_rows query_job with
     | [] => raise (ValueError "No results returned from ML.GENERATE_TEXT")
     | row0 :: _ =>
         let generated_text := dict_get_default row0 "generated_text" (VStr EmptyString) in
         _store_generation self generation_id prompt generated_text model_name
           (parameters_of temperature max_tokens top_p top_k kwargs) ;;;
         (* logger.info(..., output_length=len(generated_text)) *)
         _ <- lift (py_len generated_text) ;;
         output_length <- lift (py_len generated_text) ;;
         ret (VDict (dict_of [
           ("id", VStr generation_id);
           ("generated_text", generated_text);
           ("model_name", VStr model_name);
           ("parameters", VDict (parameters_of temperature max_tokens top_p top_k kwargs));
           ("metadata", VDict (dict_of [
               ("input_length", VInt (Z.of_nat (String.length prompt)));
               ("output_length", VInt output_length);
               ("timestamp", match job_ended query_job with
                             | Some iso => VStr iso
                             | None => VNone
                             end)]))]))
     end)
    (fun e => raise e).

(** The call [self.generate_text(prompt, model_name, **kwargs)]: keywords
    are bound to the named parameters, defaults fill the gaps, the rest
    stays in [**kwargs]; a keyword that repeats a positional argument is a
    [TypeError]. *)
Definition generate_text_kw (self : Self) (prompt model_name : string) (kwargs : Dict)
  : M PyVal :=
  if dict_has kwargs "self" || dict_has kwargs "prompt" || dict_has kwargs "model_name"
  then raise (TypeError "generate_text() got multiple values for argument")
  else
    generate_text self prompt model_name
      (dict_get_default kwargs "temperature" (VFloat 0.7))
      (dict_get_default kwargs "max_tokens" (VInt 1024))
      (dict_get_default kwargs "top_p" (VFloat 0.9))
      (dict_get_default kwargs "top_k" (VInt 40))
      (dict_remove (dict_remove (dict_remove (dict_remove kwargs
         "temperature") "max_tokens") "top_p") "top_k").

(** The record appended for an item whose generation raised. *)
Definition failed_record (e : PyExc) (prompt : string) : PyVal :=
  VDict (dict_of [("error", VStr (exc_str e)); ("prompt", VStr prompt);
                  ("status", VStr "failed")]).

(** The body of the loop in [batch_generate_text]: the entry appended for
    [prompt]. *)
Definition batch_item (self : Self) (model_name : string) (kwargs : Dict) (prompt : string)
  : M PyVal :=
  try_except
    (generate_text_kw self prompt model_name kwargs)
    (fun e => ret (failed_record e prompt)).

(** [TextGenerator.batch_generate_text] *)
Definition batch_generate_text (self : Self) (prompts : list string) (model_name : string)
    (kwargs : Dict) : M (list PyVal) :=
  for_append (batch_item self model_name kwargs) prompts [].

End WithRuntime.
End TextGenerator.

(** ** vector_search/embeddings.py *)

Module EmbeddingGenerator.
Import Py Eff.

Section WithRuntime.
Context {RT : Runtime}.

(** [EmbeddingGenerator._build_generate_embedding_query] *)
Definition _build_generate_embedding_query (content model_name : string) (kwargs : Dict)
  : string :=
  let query := unlines [
    EmptyString;
    "        SELECT ";
    "            ml_generate_embedding_result,";
    "            ml_generate_embedding_metadata";
    "        FROM ML.GENERATE_EMBEDDING(";
    "            MODEL `" ++ model_name ++ "`,";
    "            (SELECT " ++ squote ++ content ++ squote ++ " as content)";
    "        "
  ] in
  let query :=
    match kwargs with
    | [] => query
    | _ =>
        let param_list :=
          flat_map (fun kv => match TextGenerator.extra_param kv with
                              | Some p => [p]
                              | None => []
                              end) kwargs in
        query ++ ", STRUCT(" ++ join ", " param_list ++ ")"
    end in
  query ++ ")".

(** [EmbeddingGenerator._store_embedding] *)
Definition _store_embedding (self : Self) (embedding_id content content_type content_hash : string)
    (embedding_vector : PyVal) (model_name : string) (metadata : PyVal) : M unit :=
  try_except
    (table_id <- lift (get_full_table_id (config self) "embeddings") ;;
     dimensions <- lift (py_len embedding_vector) ;;
     created <- call_utc_now self ;;
     updated <- call_utc_now self ;;
     let row := dict_of [
       ("id", VStr embedding_id);
       ("content_type", VStr content_type);
       ("content_hash", VStr content_hash);
       ("embedding_vector", embedding_vector);
       ("model_name", VStr model_name);
       ("dimensions", VInt dimensions);
       ("metadata", metadata);
       ("created_at", ScalarQueryParameter "timestamp" "TIMESTAMP" (VDatetime created));
       ("updated_at", ScalarQueryParameter "timestamp" "TIMESTAMP" (VDatetime updated))] in
     errors <- call_insert_rows_json self table_id [VDict row] ;;
     ret tt)
    (fun _ => ret tt).

(** [EmbeddingGenerator.generate_embedding] *)
Definition generate_embedding (self : Self) (content content_type model_name : string)
    (kwargs : Dict) : M PyVal :=
  try_except
    (embedding_id <- new_id self ;;
     let content_hash := sha256_hexdigest content in
     let query := _build_generate_embedding_query content model_name kwargs in
     query_job <- call_query self query ;;
     match job_rows query_job with
     | [] => raise (ValueError "No results returned from ML.GENERATE_EMBEDDING")
     | embedding_result :: _ =>
         let embedding_vector :=
           dict_get_default embedding_result "ml_generate_embedding_result" (VList []) in
         let metadata :=
           dict_get_default embedding_result "ml_generate_embedding_metadata" (VDict []) in
         _store_embedding self embedding_id content content_type content_hash
           embedding_vector model_name metadata ;;;
         (* logger.info(..., vector_dimensions=len(embedding_vector)) *)
         _ <- lift (py_len embedding_vector) ;;
         dimensions <- lift (py_len embedding_vector) ;;
         ret (VDict (dict_of [
           ("id", VStr embedding_id);
           ("content_type", VStr content_type);
           ("content_hash", VStr content_hash);
           ("embedding_vector", embedding_vector);
           ("model_name", VStr model_name);
           ("dimensions", VInt dimensions);
           ("metadata", metadata);
           ("created_at", match job_ended query_job with
                          | Some iso => VStr iso
                          | None => VNone
                          end)]))
     end)
    (fun e => raise e).

(** The call [self.generate_embedding(content, content_type, model_name,
    **kwargs)] made by the batch loop. *)
Definition generate_embedding_kw (self : Self) (content content_type model_name : string)
    (kwargs : Dict) : M PyVal :=
  if dict_has kwargs "self" || dict_has kwargs "content"
     || dict_has kwargs "content_type" || dict_has kwargs "model_name"
  then raise (TypeError "generate_embedding() got multiple values for argument")
  else generate_embedding self content content_type model_name kwargs.

Definition failed_record (e : PyExc) (content : string) : PyVal :=
  VDict (dict_of [("error", VStr (exc_str e)); ("content", VStr content);
                  ("status", VStr "failed")]).

Definition batch_item (self : Self) (content_type model_name : string) (kwargs : Dict)
    (content : string) : M PyVal :=
  try_except
    (generate_embedding_kw self content content_type model_name kwargs)
    (fun e => ret (failed_record e content)).

(** [EmbeddingGenerator.batch_generate_embeddings] *)
Definition batch_generate_embeddings (self : Self) (contents : list string)
    (content_type model_name : string) (kwargs : Dict) : M (list PyVal) :=
  for_append (batch_item self content_type model_name kwargs) contents [].

(** [row.name] on a warehouse row: a column that is not there is an
    [AttributeError]. *)
Definition row_attr (row : Dict) (name : string) : Result PyVal :=
  match dict_get row name with
  | Some v => Ok v
  | None => Raise (AttributeError name)
  end.

(** [v.isoformat() if v else None] *)
Definition isoformat_or_none (v : PyVal) : Result PyVal :=
  if truthy v then
    match v with
    | VDatetime iso => Ok (VStr iso)
    | _ => Raise (AttributeError (squote ++ type_name v ++ squote
                                  ++ " object has no attribute " ++ squote ++ "isoformat" ++ squote))
    end
  else Ok VNone.

(** [EmbeddingGenerator.get_embedding_by_hash]; [VNone] is Python's [None]. *)
Definition get_embedding_by_hash (self : Self) (content_hash : string) : M PyVal :=
  try_except
    (table_id <- lift (get_full_table_id (config self) "embeddings") ;;
     let query := unlines [
       EmptyString;
       "            SELECT ";
       "                id,";
       "                content_type,";
       "                content_hash,";
       "                embedding_vector,";
       "                model_name,";
       "                dimensions,";
       "                metadata,";
       "                created_at,";
       "                updated_at";
       "            FROM `" ++ table_id ++ "`";
       "            WHERE content_hash = " ++ squote ++ content_hash ++ squote;
       "            LIMIT 1";
       "            "
     ] in
     query_job <- call_query self query ;;
     match job_rows query_job with
     | row :: _ =>
         id <- lift (row_attr row "id") ;;
         content_type <- lift (row_attr row "content_type") ;;
         content_hash' <- lift (row_attr row "content_hash") ;;
         embedding_vector <- lift (row_attr row "embedding_vector") ;;
         model_name <- lift (row_attr row "model_name") ;;
         dimensions <- lift (row_attr row "dimensions") ;;
         metadata <- lift (row_attr row "metadata") ;;
         created_at <- lift (row_attr row "created_at") ;;
         created_at <- lift (isoformat_or_none created_at) ;;
         updated_at <- lift (row_attr row "updated_at") ;;
         updated_at <- lift (isoformat_or_none updated_at) ;;
         ret (VDict (dict_of [
           ("id", id);
           ("content_type", content_type);
           ("content_hash", content_hash');
           ("embedding_vector", embedding_vector);
           ("model_name", model_name);
           ("dimensions", dimensions);
           ("metadata", metadata);
           ("created_at", created_at);
           ("updated_at", updated_at)]))
     | [] => ret VNone
     end)
    (fun _ => ret VNone).

End WithRuntime.
End EmbeddingGenerator.

(** ** vector_search/vector_search.py *)

Module VectorSearch.
Import Py Eff.

Section WithRuntime.
Context {RT : Runtime}.

(** The part of the query text that both builders share, up to and
    including the [FROM] line. *)
Definition select_lines (query_embedding : list PyVal) (table_id embedding_column : string)
    (top_k : Z) (distance_type : string) : list string :=
  let embedding_str := py_str (VList query_embedding) in
  [ EmptyString;
    "        SELECT ";
    "            *,";
    "            VECTOR_SEARCH(";
    "                " ++ embedding_column ++ ",";
    "                " ++ squote ++ embedding_str ++ squote ++ ",";
    "                top_k => " ++ int_str top_k ++ ",";
    "                distance_type => " ++ squote ++ distance_type ++ squote;
    "            ) as similarity_score";
    "        FROM `" ++ table_id ++ "`" ].

Definition order_limit_lines (top_k : Z) : list string :=
  [ "        ORDER BY similarity_score DESC";
    "        LIMIT " ++ int_str top_k;
    "        " ].

(** [VectorSearch._build_vector_search_query] *)
Definition _build_vector_search_query (query_embedding : list PyVal)
    (table_id embedding_column : string) (top_k : Z) (distance_type : string)
    (kwargs : Dict) : string :=
  unlines (List.concat [
    select_lines query_embedding table_id embedding_column top_k distance_type;
    order_limit_lines top_k]).

(** The body of the loop over [filter_conditions.items()]: the conditions
    one entry contributes.  [value[0]] on an empty list is an [IndexError]. *)
Definition where_condition (column : string) (value : PyVal) : Result (list string) :=
  match value with
  | VStr v => Ok ["`" ++ column ++ "` = " ++ squote ++ v ++ squote]
  | VBool _ | VInt _ | VFloat _ => Ok ["`" ++ column ++ "` = " ++ py_str value]
  | VList l =>
      match l with
      | [] => Raise (IndexError "list index out of range")
      | first :: _ =>
          let values_str :=
            match first with
            | VStr _ => join ", " (map (fun v => squote ++ py_str v ++ squote) l)
            | _ => join ", " (map py_str l)
            end in
          Ok ["`" ++ column ++ "` IN (" ++ values_str ++ ")"]
      end
  | _ => Ok []
  end.

Fixpoint where_conditions (filter_conditions : Dict) (acc : list string)
  : Result (list string) :=
  match filter_conditions with
  | [] => Ok acc
  | (column, value) :: rest =>
      match where_condition column value with
      | Ok cs => where_conditions rest (acc ++ cs)%list
      | Raise e => Raise e
      end
  end.

(** [VectorSearch._build_filtered_vector_search_query] *)
Definition _build_filtered_vector_search_query (query_embedding : list PyVal)
    (table_id embedding_column : string) (filter_conditions : Dict) (top_k : Z)
    (distance_type : string) (kwargs : Dict) : Result string :=
  match where_conditions filter_conditions [] with
  | Raise e => Raise e
  | Ok conds =>
      let where_clause := match conds with [] => EmptyString | _ => join " AND " conds end in
      let where_sql :=
        if String.eqb where_clause EmptyString then EmptyString
        else "WHERE " ++ where_clause in
      Ok (unlines (List.concat [
        select_lines query_embedding table_id embedding_column top_k distance_type;
        ["        " ++ where_sql];
        order_limit_lines top_k]))
  end.

(** [VectorSearch._process_search_results] *)
Definition _process_search_results (results : list Dict) (embedding_column : string)
  : list PyVal :=
  map (fun result =>
         let similarity_score := dict_get_default result "similarity_score" VNone in
         let result_dict := dict_remove result "similarity_score" in
         VDict (dict_of [("similarity_score", similarity_score);
                         ("data", VDict result_dict)]))
      results.

(** [VectorSearch._store_search] *)
Definition _store_search (self : Self) (search_id : string) (query_embedding : list PyVal)
    (table_id embedding_column : string) (top_k : Z) (distance_type : string)
    (results_count : Z) (kwargs : Dict) : M unit :=
  try_except
    (project_id <- lift (config_getitem (config self) "project_id") ;;
     dataset_id <- lift (config_getitem (config self) "dataset_id") ;;
     let search_table_id :=
       py_str project_id ++ "." ++ py_str dataset_id ++ ".vector_searches" in
     let row := dict_of [
       ("search_id", VStr search_id);
       ("query_embedding", VStr (py_str (VList query_embedding)));
       ("table_id", VStr table_id);
       ("embedding_column", VStr embedding_column);
       ("top_k", VInt top_k);
       ("distance_type", VStr distance_type);
       ("results_count", VInt results_count);
       ("timestamp", ScalarQueryParameter "timestamp" "TIMESTAMP" VNone)] in
     let row := match dict_get kwargs "filter_conditions" with
                | Some fc => dict_set row "filter_conditions" (VStr (py_str fc))
                | None => row
                end in
     errors <- call_insert_rows_json self search_table_id [VDict row] ;;
     ret tt)
    (fun _ => ret tt).

(** [VectorSearch.search_similar] *)
Definition search_similar (self : Self) (query_embedding : list PyVal)
    (table_id embedding_column : string) (top_k : Z) (distance_type : string)
    (kwargs : Dict) : M PyVal :=
  try_except
    (search_id <- new_id self ;;
     let query := _build_vector_search_query query_embedding table_id embedding_column
                    top_k distance_type kwargs in
     query_job <- call_query self query ;;
     match job_rows query_job with
     | [] =>
         (* logger.warning("No results returned from VECTOR_SEARCH") *)
         ret (VDict (dict_of [
           ("id", VStr search_id);
           ("results", VList []);
           ("total_results", VInt 0);
           ("metadata", VDict (dict_of [
               ("query_vector_dimensions", VInt (Z.of_nat (List.length query_embedding)));
               ("distance_type", VStr distance_type);
               ("top_k", VInt top_k)]))]))
     | results =>
         let processed_results := _process_search_results results embedding_column in
         (* _store_search(search_id=..., ..., results_count=..., **kwargs) *)
         (if dict_has kwargs "search_id" || dict_has kwargs "results_count"
          then raise (TypeError "_store_search() got multiple values for keyword argument")
          else ret tt) ;;;
         _store_search self search_id query_embedding table_id embedding_column top_k
           distance_type (Z.of_nat (List.length processed_results)) kwargs ;;;
         ret (VDict (dict_of [
           ("id", VStr search_id);
           ("results", VList processed_results);
           ("total_results", VInt (Z.of_nat (List.length processed_results)));
           ("metadata", VDict (dict_of [
               ("query_vector_dimensions", VInt (Z.of_nat (List.length query_embedding)));
               ("distance_type", VStr distance_type);
               ("top_k", VInt top_k);
               ("table_id", VStr table_id);
               ("embedding_column", VStr embedding_column)]))]))
     end)
    (fun e => raise e).

(** [VectorSearch.search_with_filter] *)
Definition search_with_filter (self : Self) (query_embedding : list PyVal)
    (table_id embedding_column : string) (filter_conditions : Dict) (top_k : Z)
    (distance_type : string) (kwargs : Dict) : M PyVal :=
  try_except
    (search_id <- new_id self ;;
     query <- lift (_build_filtered_vector_search_query query_embedding table_id
                      embedding_column filter_conditions top_k distance_type kwargs) ;;
     query_job <- call_query self query ;;
     match job_rows query_job with
     | [] =>
         ret (VDict (dict_of [
           ("id", VStr search_id);
           ("results", VList []);
           ("total_results", VInt 0);
           ("metadata", VDict (dict_of [
               ("query_vector_dimensions", VInt (Z.of_nat (List.length query_embedding)));
               ("distance_type", VStr distance_type);
               ("top_k", VInt top_k);
               ("filter_conditions", VDict filter_conditions)]))]))
     | results =>
         let processed_results := _process_search_results results embedding_column in
         (if dict_has kwargs "search_id" || dict_has kwargs "results_count"
          then raise (TypeError "_store_search() got multiple values for keyword argument")
          else ret tt) ;;;
         _store_search self search_id query_embedding table_id embedding_column top_k
           distance_type (Z.of_nat (List.length processed_results))
           (dict_update [("filter_conditions", VDict filter_conditions)] kwargs) ;;;
         ret (VDict (dict_of [
           ("id", VStr search_id);
           ("results", VList processed_results);
           ("total_results", VInt (Z.of_nat (List.length processed_results)));
           ("metadata", VDict (dict_of [
               ("query_vector_dimensions", VInt (Z.of_nat (List.length query_embedding)));
               ("distance_type", VStr distance_type);
               ("top_k", VInt top_k);
               ("table_id", VStr table_id);
               ("embedding_column", VStr embedding_column);
               ("filter_conditions", VDict filter_conditions)]))]))
     end)
    (fun e => raise e).

End WithRuntime.
End VectorSearch.

(** ** generative_ai/content_generator.py *)

Module ContentGenerator.
Import Py.

(** The report dict, whose four keys are fixed. *)
Record Compliance : Type := {
  is_compliant : bool;
  missing_fields : list PyVal;
  extra_fields : list string;
  type_mismatches : list string
}.

Definition rbind {A B} (r : Result A) (k : A -> Result B) : Result B :=
  match r with
  | Ok a => k a
  | Raise e => Raise e
  end.

(** [for x in v] *)
Definition py_iter (v : PyVal) : Result (list PyVal) :=
  match v with
  | VList l => Ok l
  | VDict d => Ok (map (fun kv => VStr (fst kv)) d)
  | VStr s => Ok (map (fun c => VStr (String c EmptyString)) (list_ascii_of_string s))
  | _ => Raise (TypeError (squote ++ type_name v ++ squote ++ " object is not iterable"))
  end.

(** [field in content] for a dict whose keys are strings: an unhashable
    operand is a [TypeError], a hashable one that is not a string is never a
    key. *)
Definition key_in_dict (field : PyVal) (content : Dict) : Result bool :=
  match field with
  | VStr s => Ok (dict_has content s)
  | VList _ | VDict _ =>
      Raise (TypeError ("unhashable type: " ++ squote ++ type_name field ++ squote))
  | _ => Ok false
  end.

(** [field in container] for a string [field]. *)
Definition str_in (field : string) (container : PyVal) : Result bool :=
  match container with
  | VDict d => Ok (dict_has d field)
  | VList l =>
      Ok (existsb (fun x => match x with VStr s => String.eqb s field | _ => false end) l)
  | VStr s => Ok (match String.index 0 field s with Some _ => true | None => false end)
  | _ => Raise (TypeError ("argument of type " ++ squote ++ type_name container ++ squote
                           ++ " is not iterable"))
  end.

(** [v.items()] *)
Definition py_items (v : PyVal) : Result Dict :=
  match v with
  | VDict d => Ok d
  | _ => Raise (AttributeError (squote ++ type_name v ++ squote
                                ++ " object has no attribute " ++ squote ++ "items" ++ squote))
  end.

Definition is_str (v : PyVal) (s : string) : bool :=
  match v with VStr s' => String.eqb s' s | _ => false end.

Definition name_in (name : string) (names : list string) : bool :=
  existsb (String.eqb name) names.

(** The three-way test of the last loop: does [expected_type] reject a
    value whose type is named [actual_type]? *)
Definition mismatch (expected_type : PyVal) (actual_type : string) : bool :=
  if is_str expected_type "string" && negb (String.eqb actual_type "str") then true
  else if is_str expected_type "integer" && negb (name_in actual_type ["int"; "int64"]) then true
  else if is_str expected_type "number" && negb (name_in actual_type ["float"; "int"; "int64"])
  then true
  else false.

Section WithRuntime.
Context {RT : Runtime}.

Definition mismatch_message (field : string) (expected_type : PyVal) (actual_type : string)
  : string :=
  field ++ ": expected " ++ py_str expected_type ++ ", got " ++ actual_type.

(** First loop: required fields that are absent. *)
Fixpoint check_required (content : Dict) (required : list PyVal) (c : Compliance)
  : Result Compliance :=
  match required with
  | [] => Ok c
  | field :: rest =>
      rbind (key_in_dict field content) (fun present =>
        if present then check_required content rest c
        else check_required content rest
               {| is_compliant := false;
                  missing_fields := (missing_fields c ++ [field])%list;
                  extra_fields := extra_fields c;
                  type_mismatches := type_mismatches c |})
  end.

(** Second loop: content fields the schema does not declare. *)
Fixpoint check_extra (properties : PyVal) (fields : list string) (c : Compliance)
  : Result Compliance :=
  match fields with
  | [] => Ok c
  | field :: rest =>
      rbind (str_in field properties) (fun declared =>
        if declared then check_extra properties rest c
        else check_extra properties rest
               {| is_compliant := is_compliant c;
                  missing_fields := missing_fields c;
                  extra_fields := (extra_fields c ++ [field])%list;
                  type_mismatches := type_mismatches c |})
  end.

(** Third loop: declared fields that are present with the wrong type. *)
Fixpoint check_types (content : Dict) (properties : Dict) (c : Compliance)
  : Result Compliance :=
  match properties with
  | [] => Ok c
  | (field, field_schema) :: rest =>
      match dict_get content field with
      | None => check_types content rest c
      | Some value =>
          rbind (py_get field_schema "type" VNone) (fun expected_type =>
            if truthy expected_type then
              let actual_type := type_name value in
              if mismatch expected_type actual_type then
                check_types content rest
                  {| is_compliant := false;
                     missing_fields := missing_fields c;
                     extra_fields := extra_fields c;
                     type_mismatches :=
                       (type_mismatches c
                        ++ [mismatch_message field expected_type actual_type])%list |}
              else check_types content rest c
            else check_types content rest c)
      end
  end.

(** [ContentGenerator._validate_schema_compliance] *)
Definition _validate_schema_compliance (content : Dict) (schema : Dict)
  : Result Compliance :=
  let compliance :=
    {| is_compliant := true; missing_fields := []; extra_fields := [];
       type_mismatches := [] |} in
  rbind (match dict_get schema "required" with
         | Some required =>
             rbind (py_iter required) (fun fields => check_required content fields compliance)
         | None => Ok compliance
         end) (fun compliance =>
  rbind (match dict_get schema "properties" with
         | Some properties => check_extra properties (dict_keys content) compliance
         | None => Ok compliance
         end) (fun compliance =>
  match dict_get schema "properties" with
  | Some properties =>
      rbind (py_items properties) (fun items => check_types content items compliance)
  | None => Ok compliance
  end)).

End WithRuntime.
End ContentGenerator.

(** ** multimodal/object_ref.py *)

Module ObjectRefProcessor.
Import Py Eff.

(** [s.count('/')] *)
Definition count_slash (s : string) : nat :=
  List.length (filter (fun c => Ascii.eqb c "/"%char) (list_ascii_of_string s)).

(** [ObjectRefProcessor._validate_object_ref] *)
Definition _validate_object_ref (object_ref object_type : string) : Result unit :=
  if negb (String.prefix "gs://" object_ref)
  then Raise (ValueError ("ObjectRef must start with " ++ squote ++ "gs://" ++ squote))
  else if negb (2 <=? count_slash object_ref)%nat
  then Raise (ValueError "ObjectRef must have format: gs://bucket/path")
  else Ok tt.

Section WithRuntime.
Context {RT : Runtime}.

(** [ObjectRefProcessor._store_object_ref_metadata] *)
Definition _store_object_ref_metadata (self : Self)
    (object_ref bucket_name file_path object_type : string) (kwargs : Dict) : M unit :=
  try_except
    (project_id <- lift (config_getitem (config self) "project_id") ;;
     dataset_id <- lift (config_getitem (config self) "dataset_id") ;;
     let metadata_table_id :=
       py_str project_id ++ "." ++ py_str dataset_id ++ ".object_refs_metadata" in
     let row := dict_of [
       ("object_ref", VStr object_ref);
       ("bucket_name", VStr bucket_name);
       ("file_path", VStr file_path);
       ("object_type", VStr object_type);
       ("creation_timestamp", ScalarQueryParameter "timestamp" "TIMESTAMP" VNone);
       ("options", match kwargs with
                   | [] => VNone
                   | _ => VStr (py_str (VDict kwargs))
                   end)] in
     errors <- call_insert_rows_json self metadata_table_id [VDict row] ;;
     ret tt)
    (fun _ => ret tt).

(** [ObjectRefProcessor.create_object_ref] *)
Definition create_object_ref (self : Self) (bucket_name file_path object_type : string)
    (kwargs : Dict) : M string :=
  try_except
    (let object_ref := "gs://" ++ bucket_name ++ "/" ++ file_path in
     lift (_validate_object_ref object_ref object_type) ;;;
     (* _store_object_ref_metadata(object_ref=..., ..., **kwargs) *)
     (if dict_has kwargs "object_ref"
      then raise (TypeError "_store_object_ref_metadata() got multiple values for keyword argument")
      else ret tt) ;;;
     _store_object_ref_metadata self object_ref bucket_name file_path object_type kwargs ;;;
     ret object_ref)
    (fun e => raise e).

End WithRuntime.
End ObjectRefProcessor.

(** ** main.py: the batch endpoints *)

Module Main.
Import Py Eff.

(** Request bodies after pydantic validation. *)
Record TextGenerationRequest : Type := {
  prompt : string;
  tg_model_name : string;
  temperature : float;
  max_tokens : Z;
  top_p : float;
  top_k : Z
}.

Record EmbeddingRequest : Type := {
  content : string;
  content_type : string;
  em_model_name : string
}.

(** What a handler hands back to the framework. *)
Inductive HttpOutcome : Type :=
| Response (body : PyVal)
| HTTPException (status_code : Z) (detail : string).

Definition Handler : Type := Trace -> HttpOutcome * Trace.

(** [requests[0]] *)
Definition first {A} (requests : list A) : Result A :=
  match requests with
  | [] => Raise (IndexError "list index out of range")
  | r :: _ => Ok r
  end.

(** ['error' not in r] for the entries of a batch result, which are dicts. *)
Definition no_error (r : PyVal) : bool :=
  match r with
  | VDict d => negb (dict_has d "error")
  | _ => true
  end.

Definition batch_response (result : list PyVal) : PyVal :=
  VDict (dict_of [
    ("results", VList result);
    ("total_processed", VInt (Z.of_nat (List.length result)));
    ("successful", VInt (Z.of_nat (List.length (filter no_error result))))]).

(** [try: body  except Exception as e: raise HTTPException(500, prefix + str(e))] *)
Definition endpoint (prefix : string) (body : M PyVal) : Handler :=
  fun t =>
    match body t with
    | (Ok v, t') => (Response v, t')
    | (Raise e, t') => (HTTPException 500 (prefix ++ exc_str e), t')
    end.

Section WithRuntime.
Context {RT : Runtime}.

(** [POST /api/v1/generate/text/batch] *)
Definition batch_generate_text (text_generator : Self)
    (requests : list TextGenerationRequest) : Handler :=
  endpoint "Batch text generation failed: "
    (let prompts := map prompt requests in
     first_req <- lift (first requests) ;;
     result <- TextGenerator.batch_generate_text text_generator prompts
                 (tg_model_name first_req)
                 (dict_of [("temperature", VFloat (temperature first_req));
                           ("max_tokens", VInt (max_tokens first_req));
                           ("top_p", VFloat (top_p first_req));
                           ("top_k", VInt (top_k first_req))]) ;;
     ret (batch_response result)).

(** [POST /api/v1/embeddings/generate/batch] *)
Definition batch_generate_embeddings (embedding_generator : Self)
    (requests : list EmbeddingRequest) : Handler :=
  endpoint "Batch embedding generation failed: "
    (let contents := map content requests in
     first_req <- lift (first requests) ;;
     result <- EmbeddingGenerator.batch_generate_embeddings embedding_generator contents
                 (content_type first_req) (em_model_name first_req) [] ;;
     ret (batch_response result)).

End WithRuntime.
End Main.

(** ** Concrete runtimes, clients and inputs used to run the embedding *)

Module Examples.
Import Py Eff.

(** A runtime that is good enough to evaluate the embedding: every float
    prints as [0.5], a string's repr is the string in single quotes. *)
Definition runtime : Runtime := {|
  float_repr := fun _ => "0.5";
  str_repr := fun s => squote ++ s ++ squote;
  datetime_str := fun iso => iso;
  datetime_repr := fun iso => "datetime(" ++ iso ++ ")";
  sha256_hexdigest := fun s => "sha256:" ++ s
|}.

Definition hex : string := "0123456789abcdef0123456789abcdef".

(** A client built from its [query] and [insert_rows_json] answers; every
    other call succeeds. *)
Definition make_client (q : Trace -> string -> Result QueryJob)
    (ins : Trace -> string -> list PyVal -> Result (list PyVal)) : Client := {|
  uuid4_hex := fun _ => hex;
  utc_now := fun _ => Ok "2024-01-01T00:00:00+00:00";
  query := q;
  insert_rows_json := ins;
  create_table := fun _ _ _ => Ok tt;
  delete_table := fun _ _ => Ok tt
|}.

Definition job (rows : list Dict) : QueryJob := {| job_rows := rows; job_ended := None |}.

Definition insert_ok : Trace -> string -> list PyVal -> Result (list PyVal) :=
  fun _ _ _ => Ok [].
Definition insert_raises : Trace -> string -> list PyVal -> Result (list PyVal) :=
  fun _ _ _ => Raise (ClientError "streaming insert unavailable").
Definition insert_row_errors : Trace -> string -> list PyVal -> Result (list PyVal) :=
  fun _ _ _ => Ok [VDict [("index", VInt 0); ("errors", VList [VStr "invalid"])]].

(** The configuration as [get_bigquery_config()] builds it, and a mapping
    with the two keys the subscripting code reads. *)
Definition object_config : Config := BigQueryConfig "proj" "US" "ds".
Definition mapping_config : Config :=
  MappingConfig [("project_id", VStr "proj"); ("dataset_id", VStr "ds")].

Definition with_rows (rows : list Dict) (cfg : Config) : Self :=
  {| client := make_client (fun _ _ => Ok (job rows)) insert_ok; config := cfg |}.

(** Inline series of two points. *)
Definition series : list PyVal :=
  [VDict [("t", VStr "2024-01-01"); ("y", VInt 1)];
   VDict [("t", VStr "2024-01-02"); ("y", VInt 2)]].

(** The forecast operator answered with a NULL result column. *)
Definition null_forecast : Self :=
  with_rows [[("ai_forecast_result", VNone); ("timestamp", VStr "now")]] mapping_config.

(** The forecast operator answered normally. *)
Definition good_forecast : Self :=
  with_rows [[("ai_forecast_result", VDict [("forecast_values", VList [VInt 3; VInt 4])]);
              ("timestamp", VStr "now")]] mapping_config.

(** Loading the rows into the temporary table reports per-row errors. *)
Definition load_fails : Self :=
  {| client := make_client (fun _ _ => Ok (job [])) insert_row_errors;
     config := mapping_config |}.

(** The same warehouse behind the configuration object of the source. *)
Definition good_forecast_object_config : Self :=
  with_rows [[("ai_forecast_result", VDict [("forecast_values", VList [VInt 3; VInt 4])]);
              ("timestamp", VStr "now")]] object_config.

(** An embeddings table holding a row whose [dimensions] column disagrees
    with its vector. *)
Definition stale_row : Self :=
  with_rows [[("id", VStr "e1"); ("content_type", VStr "text");
              ("content_hash", VStr "abc");
              ("embedding_vector", VList [VFloat 0.5; VFloat 0.5]);
              ("model_name", VStr "text-embedding-001");
              ("dimensions", VInt 5); ("metadata", VDict []);
              ("created_at", VNone); ("updated_at", VNone)]] object_config.

(** The embedding operator answers with a two-component vector. *)
Definition embeds : Self :=
  with_rows [[("ml_generate_embedding_result", VList [VFloat 0.5; VFloat 0.5])]]
    object_config.


Definition is_query (e : Event) : bool :=
  match e with EvQuery _ => true | _ => false end.

(** A warehouse whose second query, and only that one, fails. *)
Definition second_query_fails : Self :=
  {| client :=
       make_client
         (fun t _ =>
            if (List.length (filter is_query t) =? 1)%nat
            then Raise (ClientError "quota exceeded")
            else Ok (job [[("generated_text", VStr "some text");
                           ("ml_generate_embedding_result", VList [VFloat 0.5; VFloat 0.5])]]))
         insert_ok;
     config := object_config |}.

End Examples.

(** ** Vocabulary of the specification *)

Module Spec.
Import Py Eff.

(** Does a value conform to a declared JSON-schema primitive type? *)
Definition conforms (declared : string) (v : PyVal) : bool :=
  if String.eqb declared "string" then match v with VStr _ => true | _ => false end
  else if String.eqb declared "integer" then match v with VInt _ => true | _ => false end
  else if String.eqb declared "number"
  then match v with VInt _ | VFloat _ => true | _ => false end
  else if String.eqb declared "boolean" then match v with VBool _ => true | _ => false end
  else if String.eqb declared "null" then match v with VNone => true | _ => false end
  else if String.eqb declared "array" then match v with VList _ => true | _ => false end
  else if String.eqb declared "object" then match v with VDict _ => true | _ => false end
  else true.

(** The outcomes of the calls a batch makes, run one after another: each
    call starts from the history its predecessors left. *)
Fixpoint outcomes {A} (call : A -> M PyVal) (xs : list A) (t : Trace)
  : list (Result PyVal) :=
  match xs with
  | [] => []
  | x :: rest => fst (call x t) :: outcomes call rest (snd (call x t))
  end.

(** Call [i] raised [e] and every other call returned. *)
Definition only_failure (os : list (Result PyVal)) (i : nat) (e : PyExc) : Prop :=
  nth_error os i = Some (Raise e)
  /\ forall j r, j <> i -> nth_error os j = Some r -> exists v, r = Ok v.

Definition has_key (k : string) (v : PyVal) : bool :=
  match v with
  | VDict d => dict_has d k
  | _ => false
  end.

Definition has_keys (ks : list string) (v : PyVal) : bool :=
  forallb (fun k => has_key k v) ks.

(** An error-tagged record: it has an ['error'] entry and ['status'] is
    ['failed']. *)
Definition error_tagged (v : PyVal) : bool :=
  has_key "error" v
  && match v with
     | VDict d =>
         match dict_get d "status" with
         | Some (VStr s) => String.eqb s "failed"
         | _ => false
         end
     | _ => false
     end.

(** The success shapes: the keys of the record a generation returns, and
    no ['error'] key. *)
Definition text_success_shape (v : PyVal) : bool :=
  has_keys ["id"; "generated_text"; "model_name"; "parameters"; "metadata"] v
  && negb (has_key "error" v).

Definition embedding_success_shape (v : PyVal) : bool :=
  has_keys ["id"; "content_type"; "content_hash"; "embedding_vector"; "model_name";
            "dimensions"; "metadata"; "created_at"] v
  && negb (has_key "error" v).

(** What a batch result looks like when call [i] was the only one to
    raise: one entry per item in input order, the failed record at [i], the
    returned record everywhere else, and the matching counts. *)
Definition one_failure_isolated (items : list string) (os : list (Result PyVal))
    (failed : PyExc -> string -> PyVal) (shape : PyVal -> bool)
    (i : nat) (e : PyExc) (results : list PyVal) : Prop :=
  List.length results = List.length items
  /\ (exists item, nth_error items i = Some item
                   /\ nth_error results i = Some (failed e item)
                   /\ error_tagged (failed e item) = true)
  /\ (forall j, j <> i -> j < List.length items ->
        exists v, nth_error os j = Some (Ok v)
                  /\ nth_error results j = Some v
                  /\ shape v = true)
  /\ List.length (filter error_tagged results) = 1
  /\ List.length (filter shape results) = List.length items - 1.

(** The loop body both batch methods share: call, and on an exception
    append the failed record instead. *)
Definition batch_body (call : string -> M PyVal) (failed : PyExc -> string -> PyVal)
    (x : string) : M PyVal :=
  try_except (call x) (fun e => ret (failed e x)).

(** The entry a batch appends for item [x] whose call had outcome [o]. *)
Definition entry (failed : PyExc -> string -> PyVal) (x : string) (o : Result PyVal)
  : PyVal :=
  match o with
  | Ok v => v
  | Raise e => failed e x
  end.

Fixpoint entries (failed : PyExc -> string -> PyVal) (xs : list string)
    (os : list (Result PyVal)) : list PyVal :=
  match xs, os with
  | x :: xs', o :: os' => entry failed x o :: entries failed xs' os'
  | _, _ => []
  end.

(** An outcome that returned a record of the given shape. *)
Definition good (shape : PyVal -> bool) (o : Result PyVal) : Prop :=
  exists v, o = Ok v /\ shape v = true.

(** Two warehouses that answer every call alike, except row inserts into
    the tables singled out by [audit]. *)
Definition agree_off (audit : string -> Prop) (c1 c2 : Client) : Prop :=
  (forall t, uuid4_hex c1 t = uuid4_hex c2 t)
  /\ (forall t, utc_now c1 t = utc_now c2 t)
  /\ (forall t sql, query c1 t sql = query c2 t sql)
  /\ (forall t table_id schema, create_table c1 t table_id schema = create_table c2 t table_id schema)
  /\ (forall t table_id, delete_table c1 t table_id = delete_table c2 t table_id)
  /\ (forall t table_id rows, ~ audit table_id ->
        insert_rows_json c1 t table_id rows = insert_rows_json c2 t table_id rows).

(** The same, with every insert allowed to differ. *)
Definition same_but_insert : Client -> Client -> Prop := agree_off (fun _ => True).

(** The audit table of the forecaster under configuration [cfg]. *)
Definition forecasts_table {RT : Runtime} (cfg : Config) (table_id : string) : Prop :=
  exists project_id dataset_id,
    config_getitem cfg "project_id" = Ok project_id
    /\ config_getitem cfg "dataset_id" = Ok dataset_id
    /\ table_id = py_str project_id ++ "." ++ py_str dataset_id ++ ".forecasts".

(** A feature object on warehouse [c] with configuration [cfg]. *)
Definition on (c : Client) (cfg : Config) : Self := {| client := c; config := cfg |}.

(** In a record, ['dimensions'] is the length of ['embedding_vector']. *)
Definition dimensions_match (d : Dict) : Prop :=
  exists vec n,
    dict_get d "embedding_vector" = Some vec
    /\ py_len vec = Ok n
    /\ dict_get d "dimensions" = Some (VInt n).

(** [row] is the first row the warehouse returned to the lookup by hash
    issued from history [t]. *)
Definition looked_up (self : Self) (t : Trace) (row : Dict) : Prop :=
  exists sql job rest,
    query (client self) t sql = Ok job /\ job_rows job = row :: rest.

(** The warehouse answers [sql], asked after history [t], with zero rows. *)
Definition returns_no_rows (self : Self) (t : Trace) (sql : string) : Prop :=
  exists job, query (client self) t sql = Ok job /\ job_rows job = [].

(** A computation that issues no deletion. *)
Definition no_delete {A} (m : M A) : Prop :=
  forall t, deletions (snd (m t)) = deletions t.

(** Well-formed schema parts: a list of names, a dict of dicts. *)
Definition all_strings (l : list PyVal) : Prop := Forall (fun x => exists s, x = VStr s) l.
Definition all_dicts (d : Dict) : Prop := Forall (fun kv => exists fs, snd kv = VDict fs) d.

(** The schema and the content of the specification's example. *)
Definition schema_of (declared : string) : Dict :=
  [("required", VList [VStr "a"]);
   ("properties", VDict [("a", VDict [("type", VStr declared)])])].
Definition content_a5 : Dict := [("a", VInt 5)].

End Spec.

(** ** generative_ai/forecaster.py: forecasting from an existing table *)

Module ForecastFromTable.
Import Py Eff Forecaster.

Section WithRuntime.
Context {RT : Runtime}.

(** [Forecaster._build_forecast_from_table_query]; [where_clause] is
    [Optional[str]], and both [None] and the empty string are falsy. *)
Definition _build_forecast_from_table_query (table_id target_column time_column : string)
    (forecast_horizon : Z) (model_name : string) (where_clause : option string)
    (kwargs : Dict) : string :=
  let params : list string :=
    List.concat [
      match dict_get kwargs "seasonality" with
      | Some v => [py_str v ++ " as seasonality"]
      | None => []
      end;
      match dict_get kwargs "trend" with
      | Some v => [squote ++ py_str v ++ squote ++ " as trend"]
      | None => []
      end;
      match dict_get kwargs "confidence_level" with
      | Some v => [py_str v ++ " as confidence_level"]
      | None => []
      end] in
  let params_str := match params with [] => EmptyString | _ => join ", " params end in
  let params_struct :=
    if String.eqb params_str EmptyString then EmptyString
    else "STRUCT(" ++ params_str ++ ")" in
  let where_sql :=
    match where_clause with
    | Some w => if String.eqb w EmptyString then EmptyString else "WHERE " ++ w
    | None => EmptyString
    end in
  unlines [
    EmptyString;
    "        SELECT ";
    "            AI.FORECAST(";
    "                TABLE `" ++ table_id ++ "` " ++ where_sql ++ ",";
    "                " ++ squote ++ target_column ++ squote ++ ",";
    "                " ++ squote ++ time_column ++ squote ++ ",";
    "                " ++ int_str forecast_horizon ++ ",";
    "                " ++ squote ++ model_name ++ squote;
    "                " ++ (if String.eqb params_struct EmptyString then EmptyString
                           else ", " ++ params_struct);
    "            ) as ai_forecast_result,";
    "            CURRENT_TIMESTAMP() as timestamp,";
    "            AI.FORECAST_METADATA() as ai_forecast_metadata";
    "        "
  ].

(** [Forecaster.forecast_from_table] *)
Definition forecast_from_table (self : Self) (table_id target_column time_column : string)
    (forecast_horizon : Z) (model_name : string) (where_clause : option string)
    (kwargs : Dict) : M PyVal :=
  try_except
    (forecast_id <- new_id self ;;
     let query := _build_forecast_from_table_query table_id target_column time_column
                    forecast_horizon model_name where_clause kwargs in
     query_job <- call_query self query ;;
     match job_rows query_job with
     | [] => raise (ValueError "No results returned from AI.FORECAST")
     | row0 :: _ =>
         let forecast_result := dict_get_default row0 "ai_forecast_result" (VDict []) in
         _store_forecast self forecast_id target_column time_column forecast_horizon
           model_name forecast_result kwargs [("table_id", VStr table_id)] ;;;
         (* logger.info(..., forecast_periods=len(forecast_result.get('forecast_values', []))) *)
         forecast_values <- lift (py_get forecast_result "forecast_values" (VList [])) ;;
         _ <- lift (py_len forecast_values) ;;
         forecast_values <- lift (py_get forecast_result "forecast_values" (VList [])) ;;
         forecast_periods <- lift (py_len forecast_values) ;;
         ret (VDict (dict_of [
           ("id", VStr forecast_id);
           ("forecast_result", forecast_result);
           ("model_name", VStr model_name);
           ("parameters", VDict (dict_update (dict_of [
               ("table_id", VStr table_id);
               ("target_column", VStr target_column);
               ("time_column", VStr time_column);
               ("forecast_horizon", VInt forecast_horizon);
               ("where_clause", match where_clause with
                                | Some w => VStr w
                                | None => VNone
                                end)]) kwargs));
           ("metadata", VDict (dict_of [
               ("forecast_periods", VInt forecast_periods);
               ("timestamp", dict_get_default row0 "timestamp" (VStr EmptyString));
               ("model_metadata", dict_get_default row0 "ai_forecast_metadata" (VDict []))]))]))
     end)
    (fun e => raise e).

End WithRuntime.
End ForecastFromTable.

(** ** The history reads of text_generator.py and embeddings.py *)

Module History.
Import Py Eff.

(** The loop [for row in results: history.append({...})]: the first row
    that fails ends it. *)
Fixpoint collect (shape : Dict -> Result PyVal) (rows : list Dict) (history : list PyVal)
  : Result (list PyVal) :=
  match rows with
  | [] => Ok history
  | row :: rest =>
      match shape row with
      | Ok record => collect shape rest (history ++ [record])%list
      | Raise e => Raise e
      end
  end.

Definition rbind {A B} (r : Result A) (k : A -> Result B) : Result B :=
  match r with
  | Ok a => k a
  | Raise e => Raise e
  end.

(** A filter argument is applied when it is truthy: neither [None] nor
    the empty string. *)
Definition and_equals (column : string) (value : option string) : string :=
  match value with
  | Some v =>
      if String.eqb v EmptyString then EmptyString
      else " AND " ++ column ++ " = " ++ squote ++ v ++ squote
  | None => EmptyString
  end.

Definition order_limit (limit : Z) : string :=
  unlines [
    EmptyString;
    "            ORDER BY created_at DESC";
    "            LIMIT " ++ int_str limit;
    "            "
  ].

(** The query text of [TextGenerator.get_generation_history]. *)
Definition generation_history_query (table_id : string) (limit : Z)
    (model_name : option string) : string :=
  unlines [
    EmptyString;
    "            SELECT ";
    "                id,";
    "                content_type,";
    "                input_data,";
    "                generated_content,";
    "                model_name,";
    "                model_parameters,";
    "                status,";
    "                created_at";
    "            FROM `" ++ table_id ++ "`";
    "            WHERE content_type = 'text_generation'";
    "            "
  ] ++ and_equals "model_name" model_name ++ order_limit limit.

(** The dictionary built from one row of the generation history. *)
Definition generation_record (row : Dict) : Result PyVal :=
  rbind (EmbeddingGenerator.row_attr row "id") (fun id =>
  rbind (EmbeddingGenerator.row_attr row "content_type") (fun content_type =>
  rbind (EmbeddingGenerator.row_attr row "input_data") (fun input_data =>
  rbind (EmbeddingGenerator.row_attr row "generated_content") (fun generated_content =>
  rbind (EmbeddingGenerator.row_attr row "model_name") (fun model_name =>
  rbind (EmbeddingGenerator.row_attr row "model_parameters") (fun model_parameters =>
  rbind (EmbeddingGenerator.row_attr row "status") (fun status =>
  rbind (EmbeddingGenerator.row_attr row "created_at") (fun created_at =>
  rbind (EmbeddingGenerator.isoformat_or_none created_at) (fun created_at =>
  Ok (VDict (dict_of [
    ("id", id);
    ("content_type", content_type);
    ("input_data", input_data);
    ("generated_content", generated_content);
    ("model_name", model_name);
    ("model_parameters", model_parameters);
    ("status", status);
    ("created_at", created_at)]))))))))))).

(** [TextGenerator.get_generation_history] *)
Definition get_generation_history (self : Self) (limit : Z) (model_name : option string)
  : M (list PyVal) :=
  try_except
    (table_id <- lift (get_full_table_id (config self) "generated_content") ;;
     query_job <- call_query self (generation_history_query table_id limit model_name) ;;
     lift (collect generation_record (job_rows query_job) []))
    (fun _ => ret []).

(** The query text of [EmbeddingGenerator.get_embedding_history]. *)
Definition embedding_history_query (table_id : string) (limit : Z)
    (model_name content_type : option string) : string :=
  unlines [
    EmptyString;
    "            SELECT ";
    "                id,";
    "                content_type,";
    "                content_hash,";
    "                embedding_vector,";
    "                model_name,";
    "                dimensions,";
    "                metadata,";
    "                created_at,";
    "                updated_at";
    "            FROM `" ++ table_id ++ "`";
    "            WHERE 1=1";
    "            "
  ] ++ and_equals "model_name" model_name ++ and_equals "content_type" content_type
    ++ order_limit limit.

Definition embedding_record (row : Dict) : Result PyVal :=
  rbind (EmbeddingGenerator.row_attr row "id") (fun id =>
  rbind (EmbeddingGenerator.row_attr row "content_type") (fun content_type =>
  rbind (EmbeddingGenerator.row_attr row "content_hash") (fun content_hash =>
  rbind (EmbeddingGenerator.row_attr row "embedding_vector") (fun embedding_vector =>
  rbind (EmbeddingGenerator.row_attr row "model_name") (fun model_name =>
  rbind (EmbeddingGenerator.row_attr row "dimensions") (fun dimensions =>
  rbind (EmbeddingGenerator.row_attr row "metadata") (fun metadata =>
  rbind (EmbeddingGenerator.row_attr row "created_at") (fun created_at =>
  rbind (EmbeddingGenerator.isoformat_or_none created_at) (fun created_at =>
  rbind (EmbeddingGenerator.row_attr row "updated_at") (fun updated_at =>
  rbind (EmbeddingGenerator.isoformat_or_none updated_at) (fun updated_at =>
  Ok (VDict (dict_of [
    ("id", id);
    ("content_type", content_type);
    ("content_hash", content_hash);
    ("embedding_vector", embedding_vector);
    ("model_name", model_name);
    ("dimensions", dimensions);
    ("metadata", metadata);
    ("created_at", created_at);
    ("updated_at", updated_at)]))))))))))))).

(** [EmbeddingGenerator.get_embedding_history] *)
Definition get_embedding_history (self : Self) (limit : Z)
    (model_name content_type : option string) : M (list PyVal) :=
  try_except
    (table_id <- lift (get_full_table_id (config self) "embeddings") ;;
     query_job <- call_query self
                    (embedding_history_query table_id limit model_name content_type) ;;
     lift (collect embedding_record (job_rows query_job) []))
    (fun _ => ret []).

End History.

(** ** config/bigquery_config.py: the connection provider *)

Module Connection.
Import Py.

(** Calls that leave the process, with their arguments. *)
Inductive Call : Type :=
| CallDefault
| CallClient (project credentials location : string)
| CallListDatasets (handle : string)
| CallClose (handle : string).

Definition Log := list Call.
Definition logged (log : Log) (c : Call) : Log := (log ++ [c])%list.

(** The Google libraries; a credentials object and a client object are
    known by a name. *)
Record Cloud : Type := {
  auth_default : Log -> Result string;                           (* google.auth.default() *)
  bigquery_client : Log -> string -> string -> string -> Result string;
                                                                (* bigquery.Client(project=, credentials=, location=) *)
  client_list_datasets : Log -> string -> Result unit;           (* list(client.list_datasets(max_results=1)) *)
  client_close : Log -> string -> Result unit                    (* client.close() *)
}.

(** The attributes of a [BigQueryConfig] object. *)
Record BigQueryConfig : Type := {
  project_id : string;
  location : string;
  dataset_id : string;
  _client : option string;
  _credentials : option string
}.

Definition set_client (c : BigQueryConfig) (h : option string) : BigQueryConfig :=
  {| project_id := project_id c; location := location c; dataset_id := dataset_id c;
     _client := h; _credentials := _credentials c |}.

Definition set_credentials (c : BigQueryConfig) (cr : option string) : BigQueryConfig :=
  {| project_id := project_id c; location := location c; dataset_id := dataset_id c;
     _client := _client c; _credentials := cr |}.

(** [a or b] on optional strings: [a] unless it is [None] or empty. *)
Definition or_else (a b : option string) : option string :=
  match a with
  | Some s => if String.eqb s EmptyString then b else Some s
  | None => b
  end.

(** [os.getenv(name, default)] *)
Definition getenv_default (getenv : string -> option string) (name default : string)
  : string :=
  match getenv name with
  | Some v => v
  | None => default
  end.

(** [BigQueryConfig.__init__] *)
Definition init (getenv : string -> option string) (project location : option string)
  : Result BigQueryConfig :=
  let project := or_else project (getenv "GOOGLE_CLOUD_PROJECT") in
  let location := or_else location (Some (getenv_default getenv "BIGQUERY_LOCATION" "US")) in
  let dataset := getenv_default getenv "BIGQUERY_DATASET_ID" "bigquery_ai_hackathon" in
  match project with
  | Some p =>
      if String.eqb p EmptyString
      then Raise (ValueError "GOOGLE_CLOUD_PROJECT environment variable is required")
      else Ok {| project_id := p;
                 location := match location with Some l => l | None => EmptyString end;
                 dataset_id := dataset;
                 _client := None; _credentials := None |}
  | None => Raise (ValueError "GOOGLE_CLOUD_PROJECT environment variable is required")
  end.

Section WithCloud.
Variable cloud : Cloud.

(** [BigQueryConfig.get_credentials] *)
Definition get_credentials (self : BigQueryConfig) (log : Log)
  : Result string * BigQueryConfig * Log :=
  match auth_default cloud log with
  | Ok credentials => (Ok credentials, set_credentials self (Some credentials),
                       logged log CallDefault)
  | Raise e => (Raise e, self, logged log CallDefault)
  end.

(** [BigQueryConfig.get_client] *)
Definition get_client (self : BigQueryConfig) (log : Log)
  : Result string * BigQueryConfig * Log :=
  match _client self with
  | Some handle => (Ok handle, self, log)
  | None =>
      match get_credentials self log with
      | (Raise e, self, log) => (Raise e, self, log)
      | (Ok credentials, self, log) =>
          let call := CallClient (project_id self) credentials (location self) in
          match bigquery_client cloud log (project_id self) credentials (location self) with
          | Ok handle => (Ok handle, set_client self (Some handle), logged log call)
          | Raise e => (Raise e, self, logged log call)
          end
      end
  end.

(** [BigQueryConfig.validate_connection] *)
Definition validate_connection (self : BigQueryConfig) (log : Log)
  : bool * BigQueryConfig * Log :=
  match get_client self log with
  | (Raise _, self, log) => (false, self, log)
  | (Ok handle, self, log) =>
      match client_list_datasets cloud log handle with
      | Ok _ => (true, self, logged log (CallListDatasets handle))
      | Raise _ => (false, self, logged log (CallListDatasets handle))
      end
  end.

(** [BigQueryConfig.close_connection] *)
Definition close_connection (self : BigQueryConfig) (log : Log)
  : Result unit * BigQueryConfig * Log :=
  match _client self with
  | Some handle =>
      match client_close cloud log handle with
      | Ok _ => (Ok tt, set_client self None, logged log (CallClose handle))
      | Raise e => (Raise e, self, logged log (CallClose handle))
      end
  | None => (Ok tt, self, log)
  end.

(** [BigQueryConfig.get_full_table_id] *)
Definition get_full_table_id (self : BigQueryConfig) (table_id : string) : string :=
  project_id self ++ "." ++ dataset_id self ++ "." ++ table_id.

(** The module-level [_bigquery_config]: [None] until the first successful
    construction, then the one shared object. *)
Definition Global := option BigQueryConfig.

(** [get_bigquery_config()] *)
Definition get_bigquery_config (getenv : string -> option string) (g : Global)
  : Result BigQueryConfig * Global :=
  match g with
  | Some c => (Ok c, g)
  | None =>
      match init getenv None None with
      | Ok c => (Ok c, Some c)
      | Raise e => (Raise e, None)
      end
  end.

(** [get_bigquery_client()]: the shared object is updated in place. *)
Definition get_bigquery_client (getenv : string -> option string) (g : Global) (log : Log)
  : Result string * Global * Log :=
  match get_bigquery_config getenv g with
  | (Raise e, g) => (Raise e, g, log)
  | (Ok c, _) =>
      match get_client c log with
      | (r, c, log) => (r, Some c, log)
      end
  end.

(** [validate_bigquery_setup()] *)
Definition validate_bigquery_setup (getenv : string -> option string) (g : Global) (log : Log)
  : bool * Global * Log :=
  match get_bigquery_config getenv g with
  | (Raise _, g) => (false, g, log)
  | (Ok c, _) =>
      match validate_connection c log with
      | (b, c, log) => (b, Some c, log)
      end
  end.

End WithCloud.
End Connection.

(** ** config/config.py and main.py: configuration check and health endpoint *)

Module Health.
Import Py Connection.

(** The [Config] settings object, reduced to the attributes that
    [validate_config] reads. *)
Record AppConfig : Type := {
  app_project_id : string;
  app_bucket_name : string;
  app_secret_key : string
}.

(** What has been handed to [print] so far, oldest first. *)
Definition Out := list string.

(** What the process finds around it.  [print] writes to the standard
    output, which can refuse a line: it may be closed, or unable to encode
    the text. *)
Record Host : Type := {
  getenv : string -> option string;       (* os.getenv *)
  get_config : Result AppConfig;          (* config.get_config(): Config() may raise *)
  stdout_write : Out -> string -> Result unit;   (* print(text) *)
  strftime_now : string;                  (* time.strftime("%Y-%m-%dT%H:%M:%SZ") *)
  cloud : Cloud
}.

Definition nonempty (s : string) : bool := negb (String.eqb s EmptyString).

(** [print(text)]: the line is handed over, and the write may raise. *)
Definition print (host : Host) (text : string) (out : Out) : Result unit * Out :=
  (stdout_write host out text, (out ++ [text])%list).

(** The first of the required fields whose value is falsy. *)
Definition missing_field (config : AppConfig) : option string :=
  if negb (nonempty (app_project_id config)) then Some "project_id"
  else if negb (nonempty (app_bucket_name config)) then Some "bucket_name"
  else if negb (nonempty (app_secret_key config)) then Some "secret_key"
  else None.

(** The literal of the success line, as the bytes of the source file: the
    seven bytes before the space are not ASCII. *)
Definition success_line : string :=
  String (ascii_of_nat 195) (String (ascii_of_nat 162) (String (ascii_of_nat 197)
  (String (ascii_of_nat 147) (String (ascii_of_nat 226) (String (ascii_of_nat 128)
  (String (ascii_of_nat 166) " Configuration validation passed")))))).

(** The statements inside the [try] of [validate_config]. *)
Definition validate_config_body (host : Host) (out : Out) : Result bool * Out :=
  match get_config host with
  | Raise e => (Raise e, out)
  | Ok config =>
      match missing_field config with
      | Some field =>
          match print host ("ERROR: Missing required configuration: " ++ field) out with
          | (Ok _, out) => (Ok false, out)
          | (Raise e, out) => (Raise e, out)
          end
      | None =>
          match print host success_line out with
          | (Ok _, out) => (Ok true, out)
          | (Raise e, out) => (Raise e, out)
          end
      end
  end.

(** [validate_config()]: the [except] clause prints too, outside the [try],
    so what that [print] raises leaves the function. *)
Definition validate_config (host : Host) (out : Out) : Result bool * Out :=
  match validate_config_body host out with
  | (Ok valid, out) => (Ok valid, out)
  | (Raise e, out) =>
      match print host ("ERROR: Configuration validation failed: " ++ exc_str e) out with
      | (Ok _, out) => (Ok false, out)
      | (Raise e', out) => (Raise e', out)
      end
  end.

Record HealthResponse : Type := {
  status : string;
  timestamp : string;
  version : string;
  bigquery_status : string;
  environment : string
}.

(** What the handler hands back to the framework. *)
Inductive Outcome : Type :=
| Answer (response : HealthResponse)
| HTTPException (status_code : Z) (detail : string).

(** [GET /health]: an exception out of [validate_config] is turned into
    status 500 before [validate_bigquery_setup] is called. *)
Definition health_check (host : Host) (g : Global) (log : Log) (out : Out)
  : Outcome * Global * Log * Out :=
  match validate_config host out with
  | (Raise _, out) => (HTTPException 500 "Health check failed", g, log, out)
  | (Ok config_valid, out) =>
      match validate_bigquery_setup (cloud host) (getenv host) g log with
      | (probe, g, log) =>
          let bigquery_status := if probe then "healthy" else "unhealthy" in
          (Answer
             {| status := if config_valid && String.eqb bigquery_status "healthy"
                          then "healthy" else "unhealthy";
                timestamp := strftime_now host;
                version := "1.0.0";
                bigquery_status := bigquery_status;
                environment := getenv_default (getenv host) "ENVIRONMENT" "dev" |},
           g, log, out)
      end
  end.

(** The projections of a run. *)
Definition outcome_of (run : Outcome * Global * Log * Out) : Outcome := fst (fst (fst run)).
Definition global_of (run : Outcome * Global * Log * Out) : Global := snd (fst (fst run)).
Definition log_of (run : Outcome * Global * Log * Out) : Log := snd (fst run).
Definition out_of (run : Outcome * Global * Log * Out) : Out := snd run.

End Health.

(** ** More vocabulary and inputs *)

Module More.
Import Py Eff.

Definition is_ok {A} (o : Result A) : bool :=
  match o with Ok _ => true | Raise _ => false end.

Definition raised {A} (o : Result A) : bool := negb (is_ok o).

Definition is_insert (e : Event) : bool :=
  match e with EvInsertRowsJson _ _ => true | _ => false end.

(** How many times [client.insert_rows_json] was issued. *)
Definition inserts (t : Trace) : nat := List.length (filter is_insert t).

(** A computation that records no call of the kind [p]. *)
Definition quiet {A} (p : Event -> bool) (m : M A) : Prop :=
  forall t, filter p (snd (m t)) = filter p t.

(** The filter values that [_build_filtered_vector_search_query] turns
    into a condition. *)
Definition filterable (v : PyVal) : bool :=
  match v with
  | VStr _ | VBool _ | VInt _ | VFloat _ | VList _ => true
  | _ => false
  end.

(** The extra parameters that the query builders write out. *)
Definition renderable {RT : Runtime} (kv : string * PyVal) : bool :=
  match TextGenerator.extra_param kv with Some _ => true | None => false end.

(** A row of the history tables carries these columns, and its timestamps
    are datetimes or NULL. *)
Definition timestamp_like (v : PyVal) : bool :=
  match v with
  | VNone | VDatetime _ => true
  | _ => false
  end.

Definition has_columns (columns : list string) (row : Dict) : bool :=
  forallb (dict_has row) columns.

Definition generation_row (row : Dict) : bool :=
  has_columns ["id"; "content_type"; "input_data"; "generated_content"; "model_name";
               "model_parameters"; "status"; "created_at"] row
  && timestamp_like (dict_get_default row "created_at" VNone).

Definition embedding_row (row : Dict) : bool :=
  has_columns ["id"; "content_type"; "content_hash"; "embedding_vector"; "model_name";
               "dimensions"; "metadata"; "created_at"; "updated_at"] row
  && timestamp_like (dict_get_default row "created_at" VNone)
  && timestamp_like (dict_get_default row "updated_at" VNone).

(** The columns of [row] that [record] carries unchanged. *)
Definition carries (columns : list string) (row : Dict) (record : PyVal) : Prop :=
  exists d, record = VDict d /\ forall k, In k columns -> dict_get d k = dict_get row k.

(** The record of a search lists [rows] in full. *)
Definition lists_rows (v : PyVal) (rows : list Dict) (embedding_column : string) : Prop :=
  exists d,
    v = VDict d
    /\ dict_get d "results"
       = Some (VList (VectorSearch._process_search_results rows embedding_column))
    /\ dict_get d "total_results" = Some (VInt (Z.of_nat (List.length rows))).

(** The flag of a compliance report agrees with its lists. *)
Definition flag_agrees (c : ContentGenerator.Compliance) : Prop :=
  ContentGenerator.is_compliant c = true
  <-> ContentGenerator.missing_fields c = [] /\ ContentGenerator.type_mismatches c = [].

(** A required name that the content lacks; a content key that the
    schema's properties do not declare. *)
Definition absent_from (content : Dict) (field : PyVal) : bool :=
  match field with
  | VStr s => negb (dict_has content s)
  | _ => false
  end.

Definition undeclared_in (props : Dict) (field : string) : bool := negb (dict_has props field).

(** Example inputs. *)
Definition history_row (id : string) : Dict :=
  [("id", VStr id); ("content_type", VStr "text_generation"); ("input_data", VDict []);
   ("generated_content", VStr "text"); ("model_name", VStr "gemini-pro");
   ("model_parameters", VDict []); ("status", VStr "success");
   ("created_at", VDatetime "2024-01-01T00:00:00")].

Definition history_table : Self :=
  Examples.with_rows [history_row "g1"; history_row "g2"] Examples.object_config.

Definition search_rows : Self :=
  Examples.with_rows [[("similarity_score", VFloat 0.5); ("id", VStr "a")];
                      [("similarity_score", VFloat 0.5); ("id", VStr "b")];
                      [("id", VStr "c")]] Examples.object_config.

Definition good_cloud : Connection.Cloud := {|
  Connection.auth_default := fun _ => Ok "adc";
  Connection.bigquery_client := fun _ project _ _ => Ok ("client:" ++ project);
  Connection.client_list_datasets := fun _ _ => Ok tt;
  Connection.client_close := fun _ _ => Ok tt
|}.

Definition env_with_project (name : string) : option string :=
  if String.eqb name "GOOGLE_CLOUD_PROJECT" then Some "proj" else None.

Definition good_host : Health.Host := {|
  Health.getenv := env_with_project;
  Health.get_config := Ok {| Health.app_project_id := "proj";
                             Health.app_bucket_name := "bucket";
                             Health.app_secret_key := "secret" |};
  Health.stdout_write := fun _ _ => Ok tt;
  Health.strftime_now := "2024-01-01T00:00:00Z";
  Health.cloud := good_cloud
|}.

(** The line the [try] block of [validate_config] prints for a loaded
    configuration, and the ways the block fails: raising [e] with [out1]
    handed to [print] by then. *)
Definition first_line (config : Health.AppConfig) : string :=
  match Health.missing_field config with
  | Some field => "ERROR: Missing required configuration: " ++ field
  | None => Health.success_line
  end.

Definition try_fails (host : Health.Host) (out : Health.Out) (e : PyExc)
    (out1 : Health.Out) : Prop :=
  (Health.get_config host = Raise e /\ out1 = out)
  \/ (exists config,
        Health.get_config host = Ok config
        /\ Health.stdout_write host out (first_line config) = Raise e
        /\ out1 = (out ++ [first_line config])%list).

(** The same host behind a standard output that takes ASCII only. *)
Definition is_ascii (text : string) : bool :=
  forallb (fun c => (nat_of_ascii c <? 128)%nat) (list_ascii_of_string text).

Definition ascii_host : Health.Host := {|
  Health.getenv := env_with_project;
  Health.get_config := Health.get_config good_host;
  Health.stdout_write := fun _ text =>
    if is_ascii text then Ok tt
    else Raise (ValueError "'ascii' codec can't encode characters");
  Health.strftime_now := "2024-01-01T00:00:00Z";
  Health.cloud := good_cloud
|}.

(** A standard output that has been closed. *)
Definition closed_host : Health.Host := {|
  Health.getenv := env_with_project;
  Health.get_config := Health.get_config good_host;
  Health.stdout_write := fun _ _ => Raise (ValueError "I/O operation on closed file.");
  Health.strftime_now := "2024-01-01T00:00:00Z";
  Health.cloud := good_cloud
|}.

End More.

(** ** multimodal/object_ref.py: analysis and metadata reads *)

Module ObjectRefAnalysis.
Import Py Eff.

(** [s.replace("'", "\\'")]: a backslash goes before every single quote. *)
Fixpoint escape_quotes (s : string) : string :=
  match s with
  | EmptyString => EmptyString
  | String c rest =>
      if Ascii.eqb c (ascii_of_nat 39)
      then String (ascii_of_nat 92) (String c (escape_quotes rest))
      else String c (escape_quotes rest)
  end.

Section WithRuntime.
Context {RT : Runtime}.

(** [ObjectRefProcessor._build_object_ref_analysis_query] *)
Definition _build_object_ref_analysis_query (object_ref analysis_prompt model_name : string)
    (kwargs : Dict) : string :=
  let escaped_prompt := escape_quotes analysis_prompt in
  unlines [
    EmptyString;
    "        SELECT ";
    "            AI.GENERATE(";
    "                " ++ squote ++ escaped_prompt ++ squote ++ ",";
    "                " ++ squote ++ model_name ++ squote ++ ",";
    "                STRUCT(";
    "                    " ++ squote ++ object_ref ++ squote ++ " as object_ref";
    "                )";
    "            ) as analysis_result,";
    "            CURRENT_TIMESTAMP() as timestamp";
    "        "
  ].

(** [ObjectRefProcessor._build_metadata_extraction_query] *)
Definition _build_metadata_extraction_query (self : Self) (object_ref : string)
  : Result string :=
  match config_getitem (config self) "project_id" with
  | Raise e => Raise e
  | Ok project_id =>
      match config_getitem (config self) "dataset_id" with
      | Raise e => Raise e
      | Ok dataset_id =>
          Ok (unlines [
            EmptyString;
            "        SELECT ";
            "            file_name,";
            "            file_size,";
            "            file_type,";
            "            file_last_modified,";
            "            file_metadata";
            "        FROM `" ++ py_str project_id ++ "." ++ py_str dataset_id
              ++ ".object_files`";
            "        WHERE gs_uri = " ++ squote ++ object_ref ++ squote;
            "        LIMIT 1";
            "        "
          ])
      end
  end.

(** [ObjectRefProcessor._store_analysis] *)
Definition _store_analysis (self : Self) (analysis_id object_ref analysis_prompt : string)
    (analysis_result : PyVal) (model_name : string) (kwargs : Dict) : M unit :=
  try_except
    (project_id <- lift (config_getitem (config self) "project_id") ;;
     dataset_id <- lift (config_getitem (config self) "dataset_id") ;;
     let analysis_table_id :=
       py_str project_id ++ "." ++ py_str dataset_id ++ ".object_ref_analyses" in
     let row := dict_of [
       ("analysis_id", VStr analysis_id);
       ("object_ref", VStr object_ref);
       ("analysis_prompt", VStr analysis_prompt);
       ("analysis_result", analysis_result);
       ("model_name", VStr model_name);
       ("timestamp", ScalarQueryParameter "timestamp" "TIMESTAMP" VNone);
       ("parameters", match kwargs with
                      | [] => VNone
                      | _ => VStr (py_str (VDict kwargs))
                      end)] in
     errors <- call_insert_rows_json self analysis_table_id [VDict row] ;;
     ret tt)
    (fun _ => ret tt).

(** [ObjectRefProcessor.analyze_with_object_ref] *)
Definition analyze_with_object_ref (self : Self) (object_ref analysis_prompt model_name : string)
    (kwargs : Dict) : M PyVal :=
  try_except
    (analysis_id <- new_id self ;;
     let query := _build_object_ref_analysis_query object_ref analysis_prompt model_name
                    kwargs in
     query_job <- call_query self query ;;
     match job_rows query_job with
     | [] => raise (ValueError "No results returned from ObjectRef analysis")
     | row0 :: _ =>
         let analysis_result := dict_get_default row0 "analysis_result" (VStr EmptyString) in
         (* _store_analysis(analysis_id=..., ..., analysis_result=..., ..., **kwargs) *)
         (if dict_has kwargs "analysis_id" || dict_has kwargs "analysis_result"
          then raise (TypeError "_store_analysis() got multiple values for keyword argument")
          else ret tt) ;;;
         _store_analysis self analysis_id object_ref analysis_prompt analysis_result
           model_name kwargs ;;;
         result_length <- lift (py_len analysis_result) ;;
         ret (VDict (dict_of [
           ("id", VStr analysis_id);
           ("object_ref", VStr object_ref);
           ("analysis_result", analysis_result);
           ("model_name", VStr model_name);
           ("metadata", VDict (dict_of [
               ("prompt_length", VInt (Z.of_nat (String.length analysis_prompt)));
               ("result_length", VInt result_length);
               ("timestamp", dict_get_default row0 "timestamp" (VStr EmptyString))]))]))
     end)
    (fun e => raise e).

(** The record appended for an object whose analysis raised. *)
Definition failed_record (e : PyExc) (object_ref : string) : PyVal :=
  VDict (dict_of [("object_ref", VStr object_ref); ("error", VStr (exc_str e));
                  ("status", VStr "failed")]).

(** The call [self.analyze_with_object_ref(object_ref=object_ref,
    analysis_prompt=analysis_prompt, model_name=model_name, **kwargs)] made
    by the batch loop.  The batch takes [object_refs], [analysis_prompt] and
    [model_name] by name, so of the keywords of the call only [object_ref]
    can also come in [**kwargs]; the call then is a [TypeError]. *)
Definition analyze_with_object_ref_kw (self : Self)
    (object_ref analysis_prompt model_name : string) (kwargs : Dict) : M PyVal :=
  if dict_has kwargs "object_ref"
  then raise (TypeError ("ObjectRefProcessor.analyze_with_object_ref() got multiple values "
                         ++ "for keyword argument " ++ squote ++ "object_ref" ++ squote))
  else analyze_with_object_ref self object_ref analysis_prompt model_name kwargs.

Definition batch_item (self : Self) (analysis_prompt model_name : string) (kwargs : Dict)
    (object_ref : string) : M PyVal :=
  try_except
    (analyze_with_object_ref_kw self object_ref analysis_prompt model_name kwargs)
    (fun e => ret (failed_record e object_ref)).

(** [ObjectRefProcessor.batch_analyze_with_object_refs] *)
Definition batch_analyze_with_object_refs (self : Self) (object_refs : list string)
    (analysis_prompt model_name : string) (kwargs : Dict) : M (list PyVal) :=
  try_except
    (for_append (batch_item self analysis_prompt model_name kwargs) object_refs [])
    (fun e => raise e).

(** The dict returned in place of an exception. *)
Definition error_dict (message : string) : PyVal := VDict (dict_of [("error", VStr message)]).

(** [ObjectRefProcessor.extract_metadata_from_object_ref] *)
Definition extract_metadata_from_object_ref (self : Self) (object_ref : string) : M PyVal :=
  try_except
    (query <- lift (_build_metadata_extraction_query self object_ref) ;;
     query_job <- call_query self query ;;
     match job_rows query_job with
     | [] => ret (error_dict "No metadata found")
     | row0 :: _ => ret (VDict row0)
     end)
    (fun e => ret (error_dict (exc_str e))).

(** The two query texts of [get_object_ref_usage_stats]. *)
Definition usage_query (project_id dataset_id : PyVal) : string :=
  unlines [
    EmptyString;
    "            SELECT ";
    "                COUNT(*) as total_object_refs,";
    "                COUNT(DISTINCT bucket_name) as unique_buckets,";
    "                COUNT(DISTINCT object_type) as unique_object_types,";
    "                MIN(creation_timestamp) as first_usage,";
    "                MAX(creation_timestamp) as last_usage";
    "            FROM `" ++ py_str project_id ++ "." ++ py_str dataset_id
      ++ ".object_refs_metadata`";
    "            "
  ].

Definition analysis_usage_query (project_id dataset_id : PyVal) : string :=
  unlines [
    EmptyString;
    "            SELECT ";
    "                COUNT(*) as total_analyses,";
    "                COUNT(DISTINCT model_name) as unique_models,";
    "                AVG(LENGTH(analysis_prompt)) as avg_prompt_length,";
    "                AVG(LENGTH(analysis_result)) as avg_result_length";
    "            FROM `" ++ py_str project_id ++ "." ++ py_str dataset_id
      ++ ".object_ref_analyses`";
    "            "
  ].

(** [ObjectRefProcessor.get_object_ref_usage_stats] *)
Definition get_object_ref_usage_stats (self : Self) : M PyVal :=
  try_except
    (project_id <- lift (config_getitem (config self) "project_id") ;;
     dataset_id <- lift (config_getitem (config self) "dataset_id") ;;
     query_job <- call_query self (usage_query project_id dataset_id) ;;
     match job_rows query_job with
     | [] => ret (error_dict "No usage data found")
     | row0 :: _ =>
         let stats := row0 in
         project_id <- lift (config_getitem (config self) "project_id") ;;
         dataset_id <- lift (config_getitem (config self) "dataset_id") ;;
         analysis_job <- call_query self (analysis_usage_query project_id dataset_id) ;;
         match job_rows analysis_job with
         | [] => ret (VDict stats)
         | analysis_row0 :: _ => ret (VDict (dict_update stats analysis_row0))
         end
     end)
    (fun e => ret (error_dict (exc_str e))).

End WithRuntime.

(** The keys of the record an analysis returns, and no ['error'] key. *)
Definition analysis_success_shape (v : PyVal) : bool :=
  Spec.has_keys ["id"; "object_ref"; "analysis_result"; "model_name"; "metadata"] v
  && negb (Spec.has_key "error" v).

(** The message of subscripting the configuration object. *)
Definition not_subscriptable : string :=
  squote ++ "BigQueryConfig" ++ squote ++ " object is not subscriptable".

End ObjectRefAnalysis.

Unset Implicit Arguments.

(** * Properties *)

(** ** ObjectRefProcessor._validate_object_ref *)

Module ObjectRefValidation.
Import Py Eff ObjectRefProcessor.

Lemma prefix_cons (a : ascii) (s1 r : string) :
  String.prefix (String a s1) r = true ->
  exists r', r = String a r' /\ String.prefix s1 r' = true.
Proof.
  destruct r as [| c r]; simpl; [discriminate |].
  destruct (ascii_dec a c) as [<- | _]; [| discriminate].
  intros H. now exists r.
Qed.

Lemma prefix_gs (r : string) :
  String.prefix "gs://" r = true -> exists rest, r = "gs://" ++ rest.
Proof.
  intros H.
  do 5 (apply prefix_cons in H; destruct H as (? & -> & H)).
  eexists. reflexivity.
Qed.

Lemma count_slash_gs (rest : string) :
  count_slash ("gs://" ++ rest) = S (S (count_slash rest)).
Proof. reflexivity. Qed.

(** The validator accepts a reference exactly when it starts with the
    scheme: once the prefix is there, the separator count is at least two
    whatever follows. *)
Lemma validate_iff_prefix (r ty : string) :
  _validate_object_ref r ty = Ok tt <-> String.prefix "gs://" r = true.
Proof.
  unfold _validate_object_ref.
  destruct (String.prefix "gs://" r) eqn:Hp; simpl.
  - destruct (prefix_gs r Hp) as [rest ->].
    rewrite count_slash_gs. simpl. tauto.
  - split; discriminate.
Qed.

(** The second [ValueError] is never raised. *)
Lemma format_error_unreachable (r ty : string) :
  _validate_object_ref r ty <> Raise (ValueError "ObjectRef must have format: gs://bucket/path").
Proof.
  unfold _validate_object_ref.
  destruct (String.prefix "gs://" r) eqn:Hp; simpl.
  - destruct (prefix_gs r Hp) as [rest ->].
    rewrite count_slash_gs. simpl. discriminate.
  - discriminate.
Qed.

(** Whatever the bucket and the path, the reference that
    [create_object_ref] builds passes validation. *)
Lemma built_reference_accepted (bucket_name file_path ty : string) :
  _validate_object_ref ("gs://" ++ bucket_name ++ "/" ++ file_path) ty = Ok tt.
Proof. apply validate_iff_prefix. simpl. now destruct bucket_name. Qed.

(** Validation is a pure function of the string: it makes no client call,
    so it cannot look the object up. *)
Lemma validation_leaves_no_trace (r ty : string) (t : Trace) :
  snd (lift (_validate_object_ref r ty) t) = t.
Proof. reflexivity. Qed.

(** C9.  The validator accepts references that have no bucket and no path:
    the bare scheme [gs://], a bucket without a path, and the reference
    [create_object_ref] builds from an empty bucket and an empty path. *)
Theorem validate_accepts_bare_scheme :
  _validate_object_ref "gs://" "auto" = Ok tt
  /\ _validate_object_ref "gs://bucket" "auto" = Ok tt
  /\ fst (create_object_ref (RT := Examples.runtime)
            (Examples.with_rows [] Examples.mapping_config)
            EmptyString EmptyString "auto" [] [])
     = Ok "gs:///".
Proof. repeat split. Qed.

End ObjectRefValidation.

(** ** VectorSearch._build_filtered_vector_search_query *)

Module FilteredQuery.
Import Py Eff VectorSearch.

Section WithRuntime.
Context {RT : Runtime}.

Lemma string_condition (column v : string) :
  where_condition column (VStr v) = Ok ["`" ++ column ++ "` = '" ++ v ++ "'"].
Proof. reflexivity. Qed.

Lemma int_condition (column : string) (n : Z) :
  where_condition column (VInt n) = Ok ["`" ++ column ++ "` = " ++ int_str n].
Proof. reflexivity. Qed.

Lemma float_condition (column : string) (x : float) :
  where_condition column (VFloat x) = Ok ["`" ++ column ++ "` = " ++ float_repr x].
Proof. reflexivity. Qed.

Lemma string_list_condition (column v : string) (vs : list PyVal) :
  where_condition column (VList (VStr v :: vs)) =
    Ok ["`" ++ column ++ "` IN ("
        ++ join ", " (map (fun x => "'" ++ py_str x ++ "'") (VStr v :: vs)) ++ ")"].
Proof. reflexivity. Qed.

Lemma int_list_condition (column : string) (n : Z) (vs : list PyVal) :
  where_condition column (VList (VInt n :: vs)) =
    Ok ["`" ++ column ++ "` IN (" ++ join ", " (map py_str (VInt n :: vs)) ++ ")"].
Proof. reflexivity. Qed.

(** C5.  For the filter map [{"category": "doc", "score": 5}] the query
    has the line [WHERE `category` = 'doc' AND `score` = 5] between the
    [FROM] line and [ORDER BY similarity_score DESC], and ends with
    [LIMIT top_k]; a string value is compared quoted, a number bare, and a
    list becomes an [IN] test. *)
Theorem filtered_query_where_clause
    (query_embedding : list PyVal) (table_id embedding_column : string) (top_k : Z)
    (distance_type : string) (kwargs : Dict) :
  _build_filtered_vector_search_query query_embedding table_id embedding_column
    [("category", VStr "doc"); ("score", VInt 5)] top_k distance_type kwargs
  = Ok (unlines [
      EmptyString;
      "        SELECT ";
      "            *,";
      "            VECTOR_SEARCH(";
      "                " ++ embedding_column ++ ",";
      "                '" ++ py_str (VList query_embedding) ++ "',";
      "                top_k => " ++ int_str top_k ++ ",";
      "                distance_type => '" ++ distance_type ++ "'";
      "            ) as similarity_score";
      "        FROM `" ++ table_id ++ "`";
      "        WHERE `category` = 'doc' AND `score` = 5";
      "        ORDER BY similarity_score DESC";
      "        LIMIT " ++ int_str top_k;
      "        "])
  /\ where_condition "category" (VStr "doc") = Ok ["`category` = 'doc'"]
  /\ where_condition "score" (VInt 5) = Ok ["`score` = 5"]
  /\ where_condition "tag" (VList [VStr "a"; VStr "b"]) = Ok ["`tag` IN ('a', 'b')"]
  /\ where_condition "year" (VList [VInt 2023; VInt 2024]) = Ok ["`year` IN (2023, 2024)"].
Proof. repeat split. Qed.

End WithRuntime.
End FilteredQuery.

(** ** ContentGenerator._validate_schema_compliance *)

Module SchemaCompliance.
Import Py ContentGenerator Spec.

(** For the three declared types the check knows, its test is the negation
    of conformance. *)
Lemma mismatch_conforms (declared : string) (v : PyVal) :
  In declared ["string"; "integer"; "number"] ->
  mismatch (VStr declared) (type_name v) = negb (conforms declared v).
Proof.
  intros [<- | [<- | [<- | []]]]; destruct v; reflexivity.
Qed.

(** Any other declared type is never reported. *)
Lemma mismatch_unchecked (declared actual : string) :
  ~ In declared ["string"; "integer"; "number"] ->
  mismatch (VStr declared) actual = false.
Proof.
  intros H. unfold mismatch, is_str.
  destruct (String.eqb_spec declared "string") as [-> | _]; [exfalso; apply H; simpl; auto |].
  destruct (String.eqb_spec declared "integer") as [-> | _]; [exfalso; apply H; simpl; auto |].
  destruct (String.eqb_spec declared "number") as [-> | _]; [exfalso; apply H; simpl; auto |].
  reflexivity.
Qed.

Section WithRuntime.
Context {RT : Runtime}.

Lemma check_required_ok (content : Dict) (required : list PyVal) :
  all_strings required ->
  forall c, exists c',
    check_required content required c = Ok c'
    /\ type_mismatches c' = type_mismatches c
    /\ extra_fields c' = extra_fields c
    /\ (forall s, In (VStr s) (missing_fields c') ->
          In (VStr s) (missing_fields c) \/ dict_has content s = false).
Proof.
  induction 1 as [| x required [s ->] _ IH]; intros c; simpl.
  - exists c. auto.
  - destruct (dict_has content s) eqn:Hs.
    + apply IH.
    + destruct (IH {| is_compliant := false;
                      missing_fields := (missing_fields c ++ [VStr s])%list;
                      extra_fields := extra_fields c;
                      type_mismatches := type_mismatches c |})
        as (c' & Hc' & Ht & He & Hm).
      exists c'. repeat split; auto.
      intros s' Hin. destruct (Hm s' Hin) as [Hold | Habs]; [| now right].
      simpl in Hold. apply in_app_or in Hold as [Hold | [Heq | []]]; [now left |].
      injection Heq as <-. now right.
Qed.

Lemma check_extra_ok (props : Dict) (fields : list string) :
  forall c, exists c',
    check_extra (VDict props) fields c = Ok c'
    /\ is_compliant c' = is_compliant c
    /\ type_mismatches c' = type_mismatches c
    /\ missing_fields c' = missing_fields c.
Proof.
  induction fields as [| field fields IH]; intros c; simpl.
  - exists c. auto.
  - destruct (dict_has props field).
    + apply IH.
    + destruct (IH {| is_compliant := is_compliant c;
                      missing_fields := missing_fields c;
                      extra_fields := (extra_fields c ++ [field])%list;
                      type_mismatches := type_mismatches c |})
        as (c' & Hc' & Hi & Ht & Hm).
      exists c'. auto.
Qed.

(** The third loop only ever adds mismatches and lowers the flag. *)
Lemma check_types_ok (content props : Dict) :
  all_dicts props ->
  forall c, exists c',
    check_types content props c = Ok c'
    /\ missing_fields c' = missing_fields c
    /\ (is_compliant c = false -> is_compliant c' = false)
    /\ incl (type_mismatches c) (type_mismatches c')
    /\ (forall field fs declared v,
          In (field, VDict fs) props ->
          dict_get fs "type" = Some (VStr declared) ->
          dict_get content field = Some v ->
          mismatch (VStr declared) (type_name v) = true ->
          is_compliant c' = false
          /\ In (mismatch_message field (VStr declared) (type_name v)) (type_mismatches c')).
Proof.
  induction 1 as [| [field field_schema] props [fs Hfs] _ IH]; intros c.
  - exists c. simpl. split; [reflexivity |]. split; [reflexivity |].
    split; [auto |]. split; [apply incl_refl |]. intros ? ? ? ? [].
  - simpl in Hfs. subst field_schema. simpl.
    destruct (dict_get content field) as [value |] eqn:Hvalue.
    + set (expected := dict_get_default fs "type" VNone).
      destruct (truthy expected && mismatch expected (type_name value)) eqn:Hreport.
      * apply andb_prop in Hreport as [Htruthy Hmis]. rewrite Htruthy, Hmis.
        destruct (IH {| is_compliant := false;
                        missing_fields := missing_fields c;
                        extra_fields := extra_fields c;
                        type_mismatches :=
                          (type_mismatches c
                           ++ [mismatch_message field expected (type_name value)])%list |})
          as (c' & Hc' & Hm & Hflag & Hincl & Hall).
        simpl in Hm, Hflag, Hincl.
        exists c'. split; [exact Hc' |]. split; [exact Hm |].
        split; [auto |]. split.
        { intros x Hx. apply Hincl. apply in_or_app. now left. }
        intros f fs' declared v [Heq | Hin] Hty Hv Hmm; [| eapply Hall; eauto].
        injection Heq as <- <-. split; [now apply Hflag |].
        apply Hincl. apply in_or_app. right. left.
        unfold expected, dict_get_default. rewrite Hty.
        rewrite Hvalue in Hv. now injection Hv as <-.
      * assert (Hsame :
          (if truthy expected
           then if mismatch expected (type_name value)
                then check_types content props
                       {| is_compliant := false;
                          missing_fields := missing_fields c;
                          extra_fields := extra_fields c;
                          type_mismatches :=
                            (type_mismatches c
                             ++ [mismatch_message field expected (type_name value)])%list |}
                else check_types content props c
           else check_types content props c) = check_types content props c).
        { destruct (truthy expected); [| reflexivity].
          simpl in Hreport. now rewrite Hreport. }
        rewrite Hsame.
        destruct (IH c) as (c' & Hc' & Hm & Hflag & Hincl & Hall).
        exists c'. split; [exact Hc' |]. split; [exact Hm |].
        split; [exact Hflag |]. split; [exact Hincl |].
        intros f fs' declared v [Heq | Hin] Hty Hv Hmm; [| eapply Hall; eauto].
        exfalso. injection Heq as <- <-.
        rewrite Hvalue in Hv. injection Hv as <-.
        unfold expected, dict_get_default in Hreport. rewrite Hty in Hreport.
        rewrite Hmm, andb_true_r in Hreport.
        unfold mismatch, is_str in Hmm. simpl in Hreport.
        destruct declared; [discriminate Hmm | discriminate Hreport].
    + destruct (IH c) as (c' & Hc' & Hm & Hflag & Hincl & Hall).
      exists c'. split; [exact Hc' |]. split; [exact Hm |].
      split; [exact Hflag |]. split; [exact Hincl |].
      intros f fs' declared v [Heq | Hin] Hty Hv Hmm; [| eapply Hall; eauto].
      injection Heq as <- <-. congruence.
Qed.

(** C6 (amended).  On the specification's example (schema requiring [a]
    as a string, content [{"a": 5}]) the report has [is_compliant] false, no
    missing field, and the mismatch [a: expected string, got int].  In
    general a required field that is present, declared [string], [integer]
    or [number], with a value that does not conform, is reported under
    [type_mismatches] and not under [missing_fields], and the report is not
    compliant. *)
Theorem type_mismatch_reported :
  _validate_schema_compliance content_a5 (schema_of "string")
  = Ok {| is_compliant := false; missing_fields := []; extra_fields := [];
          type_mismatches := ["a: expected string, got int"] |}
  /\ forall (content schema : Dict) (required : list PyVal) (props fs : Dict)
            (field declared : string) (v : PyVal),
       dict_get schema "required" = Some (VList required) ->
       all_strings required ->
       In (VStr field) required ->
       dict_get schema "properties" = Some (VDict props) ->
       all_dicts props ->
       In (field, VDict fs) props ->
       dict_get fs "type" = Some (VStr declared) ->
       In declared ["string"; "integer"; "number"] ->
       dict_get content field = Some v ->
       conforms declared v = false ->
       exists report,
         _validate_schema_compliance content schema = Ok report
         /\ is_compliant report = false
         /\ In (field ++ ": expected " ++ declared ++ ", got " ++ type_name v)
               (type_mismatches report)
         /\ ~ In (VStr field) (missing_fields report).
Proof.
  split; [reflexivity |].
  intros content schema required props fs field declared v
         Hreq Hstrings Hrequired Hprops Hdicts Hfield Htype Hchecked Hvalue Hconf.
  unfold _validate_schema_compliance. rewrite Hreq, Hprops. simpl.
  destruct (check_required_ok content required Hstrings
              {| is_compliant := true; missing_fields := []; extra_fields := [];
                 type_mismatches := [] |})
    as (c1 & -> & _ & _ & Hmissing1).
  simpl.
  destruct (check_extra_ok props (dict_keys content) c1) as (c2 & -> & _ & _ & Hmissing2).
  simpl.
  destruct (check_types_ok content props Hdicts c2) as (c3 & -> & Hmissing3 & _ & _ & Hall).
  exists c3. split; [reflexivity |].
  assert (Hmis : mismatch (VStr declared) (type_name v) = true).
  { rewrite mismatch_conforms by assumption. now rewrite Hconf. }
  destruct (Hall field fs declared v Hfield Htype Hvalue Hmis) as [Hflag Hin].
  split; [exact Hflag |]. split; [exact Hin |].
  rewrite Hmissing3, Hmissing2. intros Habs.
  destruct (Hmissing1 field Habs) as [[] | Hno].
  unfold dict_has in Hno. now rewrite Hvalue in Hno.
Qed.

End WithRuntime.

(** A declared type outside those three is not checked: with [a] declared
    [boolean] and holding the integer 5, the report is compliant and lists
    no mismatch. *)
Lemma boolean_mismatch_not_reported :
  conforms "boolean" (VInt 5) = false
  /\ _validate_schema_compliance (RT := Examples.runtime) content_a5 (schema_of "boolean")
     = Ok {| is_compliant := true; missing_fields := []; extra_fields := [];
             type_mismatches := [] |}.
Proof. split; reflexivity. Qed.

(** The general statement applied: [a] declared [integer], holding a string. *)
Lemma type_mismatch_reported_witness :
  exists report,
    _validate_schema_compliance (RT := Examples.runtime) [("a", VStr "five")] (schema_of "integer") = Ok report
    /\ is_compliant report = false
    /\ In "a: expected integer, got str" (type_mismatches report)
    /\ ~ In (VStr "a") (missing_fields report).
Proof.
  apply (proj2 (type_mismatch_reported (RT := Examples.runtime))
           [("a", VStr "five")] (schema_of "integer") [VStr "a"]
           [("a", VDict [("type", VStr "integer")])] [("type", VStr "integer")]
           "a" "integer" (VStr "five")).
  - reflexivity.
  - repeat constructor. now exists "a".
  - simpl. auto.
  - reflexivity.
  - repeat constructor. now eexists.
  - simpl. auto.
  - reflexivity.
  - simpl. auto.
  - reflexivity.
  - reflexivity.
Defined.

End SchemaCompliance.

(** ** Bookkeeping on histories *)

Module TraceFacts.
Import Py Eff Spec.

Lemma deletions_record (t : Trace) (e : Event) :
  deletions (record t e) = deletions t + (if is_delete e then 1 else 0).
Proof.
  unfold deletions, record. rewrite filter_app, length_app. simpl.
  destruct (is_delete e); reflexivity.
Qed.

Lemma creations_record (t : Trace) (e : Event) :
  creations (record t e) = creations t + (if is_create e then 1 else 0).
Proof.
  unfold creations, record. rewrite filter_app, length_app. simpl.
  destruct (is_create e); reflexivity.
Qed.

Lemma no_delete_ret {A} (a : A) : no_delete (ret a).
Proof. intros t. reflexivity. Qed.

Lemma no_delete_raise {A} (e : PyExc) : no_delete (@raise A e).
Proof. intros t. reflexivity. Qed.

Lemma no_delete_lift {A} (r : Result A) : no_delete (lift r).
Proof. intros t. reflexivity. Qed.

Lemma no_delete_bind {A B} (m : M A) (k : A -> M B) :
  no_delete m -> (forall a, no_delete (k a)) -> no_delete (bind m k).
Proof.
  intros Hm Hk t. unfold bind. specialize (Hm t).
  destruct (m t) as [[a | e] t']; simpl in *.
  - now rewrite Hk.
  - exact Hm.
Qed.

Lemma no_delete_try_except {A} (m : M A) (h : PyExc -> M A) :
  no_delete m -> (forall e, no_delete (h e)) -> no_delete (try_except m h).
Proof.
  intros Hm Hh t. unfold try_except. specialize (Hm t).
  destruct (m t) as [[a | e] t']; simpl in *.
  - exact Hm.
  - now rewrite Hh.
Qed.

Lemma no_delete_uuid4 (self : Self) : no_delete (call_uuid4_hex self).
Proof. intros t. simpl. rewrite deletions_record. simpl. lia. Qed.

Lemma no_delete_now (self : Self) : no_delete (call_utc_now self).
Proof. intros t. simpl. rewrite deletions_record. simpl. lia. Qed.

Lemma no_delete_query (self : Self) (sql : string) : no_delete (call_query self sql).
Proof. intros t. simpl. rewrite deletions_record. simpl. lia. Qed.

Lemma no_delete_insert (self : Self) (table_id : string) (rows : list PyVal) :
  no_delete (call_insert_rows_json self table_id rows).
Proof. intros t. simpl. rewrite deletions_record. simpl. lia. Qed.

Lemma no_delete_create (self : Self) (table_id : string) (schema : list (string * string)) :
  no_delete (call_create_table self table_id schema).
Proof. intros t. simpl. rewrite deletions_record. simpl. lia. Qed.

Lemma no_delete_new_id (self : Self) : no_delete (new_id self).
Proof.
  apply no_delete_bind; [apply no_delete_uuid4 | intros; apply no_delete_ret].
Qed.

(** Congruence of the combinators, at a given history. *)
Lemma bind_ext {A B} (m1 m2 : M A) (k1 k2 : A -> M B) (t : Trace) :
  m1 t = m2 t -> (forall a t', k1 a t' = k2 a t') -> bind m1 k1 t = bind m2 k2 t.
Proof.
  intros Hm Hk. unfold bind. rewrite Hm.
  destruct (m2 t) as [[a | e] t']; [apply Hk | reflexivity].
Qed.

Lemma try_except_ext {A} (m1 m2 : M A) (h1 h2 : PyExc -> M A) (t : Trace) :
  m1 t = m2 t -> (forall e t', h1 e t' = h2 e t') ->
  try_except m1 h1 t = try_except m2 h2 t.
Proof.
  intros Hm Hh. unfold try_except. rewrite Hm.
  destruct (m2 t) as [[a | e] t']; [reflexivity | apply Hh].
Qed.

Lemma try_bind_ext {A B} (m1 m2 : M A) (k1 k2 : A -> M B)
    (u1 u2 : PyExc -> M B) (b1 b2 : A -> PyExc -> M B) (t : Trace) :
  m1 t = m2 t ->
  (forall a t', k1 a t' = k2 a t') ->
  (forall e t', u1 e t' = u2 e t') ->
  (forall a e t', b1 a e t' = b2 a e t') ->
  try_bind m1 k1 u1 b1 t = try_bind m2 k2 u2 b2 t.
Proof.
  intros Hm Hk Hu Hb. unfold try_bind. rewrite Hm.
  destruct (m2 t) as [[a | e] t']; [| apply Hu].
  rewrite Hk. destruct (k2 a t') as [[b | e] t'']; [reflexivity | apply Hb].
Qed.

Create HintDb no_delete.
#[export] Hint Resolve no_delete_ret no_delete_raise no_delete_lift no_delete_uuid4
  no_delete_now no_delete_query no_delete_insert no_delete_create no_delete_new_id
  : no_delete.

(** Walks through a computation built from the combinators above. *)
Ltac no_delete_step :=
  match goal with
  | |- no_delete (bind _ _) => apply no_delete_bind; [| intros ?]
  | |- no_delete (try_except _ _) => apply no_delete_try_except; [| intros ?]
  | |- no_delete (match ?x with _ => _ end) => destruct x
  | |- no_delete (if ?b then _ else _) => destruct b
  | |- no_delete _ => solve [auto with no_delete]
  end.
Ltac no_delete_auto := repeat no_delete_step.

(** Takes a run equation apart, one scrutinee at a time. *)
Ltac split_run H :=
  repeat (simpl in H;
          match type of H with
          | context [match ?x with _ => _ end] =>
              lazymatch x with
              | context [match _ with _ => _ end] => fail
              | _ => destruct x eqn:?
              end
          end);
  simpl in H; try discriminate H.

End TraceFacts.

(** ** Forecaster.forecast and the temporary table *)

Module ForecastCleanup.
Import Py Eff Spec Forecaster TraceFacts.

Arguments _cleanup_temp_table : simpl never.
Arguments _store_forecast : simpl never.
Arguments _create_temp_table : simpl never.
Arguments _build_forecast_query : simpl never.
Arguments record : simpl never.
Arguments deletions : simpl never.

Section WithRuntime.
Context {RT : Runtime}.

Lemma create_temp_table_no_delete (self : Self) (data : list PyVal) (target time : string) :
  no_delete (_create_temp_table self data target time).
Proof. unfold _create_temp_table. no_delete_auto. Qed.

Lemma store_forecast_no_delete (self : Self) (fid target time : string) (h : Z)
    (model : string) (res : PyVal) (params kwargs : Dict) :
  no_delete (_store_forecast self fid target time h model res params kwargs).
Proof. unfold _store_forecast. no_delete_auto. Qed.

(** The audit write never raises. *)
Lemma store_forecast_returns (self : Self) (fid target time : string) (h : Z)
    (model : string) (res : PyVal) (params kwargs : Dict) (t : Trace) :
  fst (_store_forecast self fid target time h model res params kwargs t) = Ok tt.
Proof.
  unfold _store_forecast, try_except.
  match goal with |- context [match ?m t with _ => _ end] => destruct (m t) as [[[] | e] t'] end;
    reflexivity.
Qed.

(** Cleanup issues one deletion and returns, whatever the deletion did. *)
Lemma cleanup_run (self : Self) (temp_table_id : string) (t : Trace) :
  _cleanup_temp_table self temp_table_id t = (Ok tt, record t (EvDeleteTable temp_table_id)).
Proof.
  unfold _cleanup_temp_table, try_except, call_delete_table.
  destruct (delete_table (client self) t temp_table_id) as [[] | e]; reflexivity.
Qed.

Lemma prologue_no_delete (self : Self) (data : list PyVal) (target time : string) :
  no_delete (forecast_prologue self data target time).
Proof. unfold forecast_prologue. no_delete_auto. apply create_temp_table_no_delete. Qed.

(** When [_create_temp_table] raises, the handler finds no
    [temp_table_id] and re-raises without a deletion. *)
Lemma forecast_unbound (self : Self) (data : list PyVal) (target time : string) (h : Z)
    (model : string) (kwargs : Dict) (t t1 : Trace) (e : PyExc) :
  forecast_prologue self data target time t = (Raise e, t1) ->
  forecast self data target time h model kwargs t = (Raise e, t1)
  /\ deletions t1 = deletions t.
Proof.
  intros H1. split.
  - unfold forecast, try_bind. fold (forecast_prologue self data target time).
    now rewrite H1.
  - pose proof (prologue_no_delete self data target time t) as Hn. now rewrite H1 in Hn.
Qed.

(** Once the temporary table exists, [forecast] deletes it once when it
    returns, and once or twice when it raises. *)
Lemma forecast_after_creation (self : Self) (data : list PyVal) (target time : string)
    (h : Z) (model : string) (kwargs : Dict) (t t1 t' : Trace) (ids : string * string)
    (r : Result PyVal) :
  forecast_prologue self data target time t = (Ok ids, t1) ->
  forecast self data target time h model kwargs t = (r, t') ->
  (forall v, r = Ok v -> deletions t' = deletions t + 1)
  /\ (deletions t' = deletions t + 1 \/ deletions t' = deletions t + 2).
Proof.
  intros H1 H.
  assert (Hd1 : deletions t1 = deletions t).
  { pose proof (prologue_no_delete self data target time t) as Hn. now rewrite H1 in Hn. }
  unfold forecast, try_bind in H. fold (forecast_prologue self data target time) in H.
  rewrite H1 in H.
  unfold bind at 1 in H.
  destruct (dict_has kwargs "temp_table_id").
  - simpl in H. unfold bind in H. rewrite cleanup_run in H. simpl in H.
    injection H as <- <-. rewrite deletions_record. simpl.
    split; [discriminate | left; lia].
  - simpl in H. unfold bind at 1 in H. simpl in H.
    destruct (query (client self) t1 _) as [job | e].
    + destruct (job_rows job) as [| row0 rows].
      * simpl in H. unfold bind in H. rewrite cleanup_run in H. simpl in H.
        injection H as <- <-. rewrite !deletions_record. simpl.
        split; [discriminate | left; lia].
      * unfold bind at 1 in H. rewrite cleanup_run in H.
        unfold bind at 1 in H.
        match type of H with context [_store_forecast ?a ?b ?c ?d ?e ?f ?g ?h ?i ?tt] =>
          pose proof (store_forecast_returns a b c d e f g h i tt) as Hs;
          pose proof (store_forecast_no_delete a b c d e f g h i tt) as Hn;
          destruct (_store_forecast a b c d e f g h i tt) as [rs ts]
        end.
        simpl in Hs, Hn. subst rs. rewrite !deletions_record in Hn. simpl in Hn.
        unfold bind, lift, ret in H.
        destruct (py_get _ _ _) as [fv | e]; simpl in H.
        -- destruct (py_len fv) as [n | e]; simpl in H.
           ++ injection H as <- <-. split; [intros; lia | left; lia].
           ++ rewrite cleanup_run in H. injection H as <- <-.
              rewrite deletions_record. simpl.
              split; [discriminate | right; lia].
        -- rewrite cleanup_run in H. injection H as <- <-.
           rewrite deletions_record. simpl.
           split; [discriminate | right; lia].
    + simpl in H. unfold bind in H. rewrite cleanup_run in H. simpl in H.
      injection H as <- <-. rewrite !deletions_record. simpl.
      split; [discriminate | left; lia].
Qed.

(** With the configuration object that [get_bigquery_config()] returns,
    the subscript in [_create_temp_table] raises before any table call. *)
Lemma forecast_object_config (c : Client) (project_id location dataset_id : string)
    (data : list PyVal) (target time : string) (h : Z) (model : string) (kwargs : Dict)
    (t : Trace) :
  forecast {| client := c; config := BigQueryConfig project_id location dataset_id |}
    data target time h model kwargs t
  = (Raise (TypeError "'BigQueryConfig' object is not subscriptable"),
     record (record t EvUuid4) EvUuid4).
Proof. reflexivity. Qed.

End WithRuntime.

(** C1.  The deletion is not issued exactly once on every inline forecast.
    - The forecast operator answers with a NULL result: the table is
      deleted on the normal path, the expression
      [forecast_result.get(...)] then raises, and the handler deletes it a
      second time.
    - Loading the rows reports errors: the table has been created, the
      handler finds no [temp_table_id] and issues no deletion.
    - With the configuration object of the source, [_create_temp_table]
      raises on its subscript: no creation and no deletion.
    On the normal path there is one creation and one deletion. *)
Theorem forecast_cleanup_not_exactly_once :
  let run self :=
    forecast (RT := Examples.runtime) self Examples.series "y" "t" 12 "auto" [] [] in
  (fst (run Examples.null_forecast)
     = Raise (AttributeError "'NoneType' object has no attribute 'get'")
   /\ creations (snd (run Examples.null_forecast)) = 1
   /\ deletions (snd (run Examples.null_forecast)) = 2)
  /\ ((exists e, fst (run Examples.load_fails) = Raise e)
      /\ creations (snd (run Examples.load_fails)) = 1
      /\ deletions (snd (run Examples.load_fails)) = 0)
  /\ (fst (run Examples.good_forecast_object_config)
        = Raise (TypeError "'BigQueryConfig' object is not subscriptable")
      /\ creations (snd (run Examples.good_forecast_object_config)) = 0
      /\ deletions (snd (run Examples.good_forecast_object_config)) = 0)
  /\ ((exists v, fst (run Examples.good_forecast) = Ok v)
      /\ creations (snd (run Examples.good_forecast)) = 1
      /\ deletions (snd (run Examples.good_forecast)) = 1).
Proof.
  cbv zeta. repeat split; try reflexivity; eexists; vm_compute; reflexivity.
Qed.

End ForecastCleanup.

(** ** Zero result rows *)

Module ZeroRows.
Import Py Eff Spec.

Section WithRuntime.
Context {RT : Runtime}.

(** C2 (amended).  When the warehouse answers with zero rows, text
    generation and embedding generation raise a [ValueError] that reaches
    the caller; vector similarity search does not raise: it returns a
    record with an empty result list and [total_results] 0. *)
Theorem zero_rows_outcomes (self : Self) (t : Trace) :
  (forall prompt model_name temperature max_tokens top_p top_k kwargs,
     returns_no_rows self (record t EvUuid4)
       (TextGenerator._build_generate_text_query prompt model_name
          temperature max_tokens top_p top_k kwargs) ->
     fst (TextGenerator.generate_text self prompt model_name
            temperature max_tokens top_p top_k kwargs t)
     = Raise (ValueError "No results returned from ML.GENERATE_TEXT"))
  /\ (forall content content_type model_name kwargs,
        returns_no_rows self (record t EvUuid4)
          (EmbeddingGenerator._build_generate_embedding_query content model_name kwargs) ->
        fst (EmbeddingGenerator.generate_embedding self content content_type model_name
               kwargs t)
        = Raise (ValueError "No results returned from ML.GENERATE_EMBEDDING"))
  /\ (forall query_embedding table_id embedding_column top_k distance_type kwargs,
        returns_no_rows self (record t EvUuid4)
          (VectorSearch._build_vector_search_query query_embedding table_id
             embedding_column top_k distance_type kwargs) ->
        fst (VectorSearch.search_similar self query_embedding table_id embedding_column
               top_k distance_type kwargs t)
        = Ok (VDict [
            ("id", VStr (uuid_str (uuid4_hex (client self) t)));
            ("results", VList []);
            ("total_results", VInt 0);
            ("metadata", VDict [
                ("query_vector_dimensions", VInt (Z.of_nat (List.length query_embedding)));
                ("distance_type", VStr distance_type);
                ("top_k", VInt top_k)])])).
Proof.
  split; [| split].
  - intros prompt model_name temperature max_tokens top_p top_k kwargs (job & Hq & Hrows).
    unfold TextGenerator.generate_text, try_except, new_id, bind, call_uuid4_hex,
      call_query, ret.
    cbv beta zeta. rewrite Hq, Hrows. reflexivity.
  - intros content content_type model_name kwargs (job & Hq & Hrows).
    unfold EmbeddingGenerator.generate_embedding, try_except, new_id, bind, call_uuid4_hex,
      call_query, ret.
    cbv beta zeta. rewrite Hq, Hrows. reflexivity.
  - intros query_embedding table_id embedding_column top_k distance_type kwargs
           (job & Hq & Hrows).
    unfold VectorSearch.search_similar, try_except, new_id, bind, call_uuid4_hex,
      call_query, ret.
    cbv beta zeta. rewrite Hq, Hrows. reflexivity.
Qed.

End WithRuntime.

(** A search that gets zero rows back returns a result to its caller. *)
Lemma search_similar_zero_rows_returns :
  let self := Examples.with_rows [] Examples.object_config in
  returns_no_rows self (record [] EvUuid4)
    (VectorSearch._build_vector_search_query (RT := Examples.runtime)
       [VFloat 0.5] "proj.ds.embeddings" "embedding_vector" 10 "cosine" [])
  /\ exists v,
       fst (VectorSearch.search_similar (RT := Examples.runtime) self
              [VFloat 0.5] "proj.ds.embeddings" "embedding_vector" 10 "cosine" [] [])
       = Ok v.
Proof.
  split.
  - exists (Examples.job []). split; reflexivity.
  - eexists. vm_compute. reflexivity.
Qed.

Lemma zero_rows_outcomes_witness :
  let self := Examples.with_rows [] Examples.object_config in
  fst (TextGenerator.generate_text (RT := Examples.runtime) self "hello" "gemini-pro"
         (VFloat 0.7) (VInt 1024) (VFloat 0.9) (VInt 40) [] [])
  = Raise (ValueError "No results returned from ML.GENERATE_TEXT")
  /\ fst (EmbeddingGenerator.generate_embedding (RT := Examples.runtime) self
            "hello" "text" "text-embedding-001" [] [])
     = Raise (ValueError "No results returned from ML.GENERATE_EMBEDDING")
  /\ exists v,
       fst (VectorSearch.search_similar (RT := Examples.runtime) self
              [VFloat 0.5] "proj.ds.embeddings" "embedding_vector" 10 "cosine" [] [])
       = Ok v.
Proof.
  intros self.
  destruct (zero_rows_outcomes (RT := Examples.runtime) self []) as (Htext & Hemb & Hsearch).
  split; [| split].
  - apply Htext. exists (Examples.job []). split; reflexivity.
  - apply Hemb. exists (Examples.job []). split; reflexivity.
  - eexists. apply Hsearch. exists (Examples.job []). split; reflexivity.
Defined.

End ZeroRows.

(** ** Batch operations *)

Module BatchIsolation.
Import Py Eff Spec.

Section Generic.
Variable call : string -> M PyVal.
Variable failed : PyExc -> string -> PyVal.
Variable shape : PyVal -> bool.

Hypothesis call_shape : forall x t v, fst (call x t) = Ok v -> shape v = true.
Hypothesis failed_tagged : forall e x, error_tagged (failed e x) = true.
Hypothesis failed_shape : forall e x, shape (failed e x) = false.
Hypothesis shape_untagged : forall v, shape v = true -> error_tagged v = false.

#[local] Abbreviation body := (batch_body call failed).
#[local] Abbreviation entry := (Spec.entry failed).
#[local] Abbreviation entries := (Spec.entries failed).
#[local] Abbreviation good := (Spec.good shape).

Lemma body_run (x : string) (t : Trace) :
  body x t = (Ok (entry x (fst (call x t))), snd (call x t)).
Proof.
  unfold batch_body, try_except. destruct (call x t) as [[v | e] t']; reflexivity.
Qed.

(** The loop never raises, and appends one entry per item, in order. *)
Lemma for_append_run (xs : list string) :
  forall acc t,
    fst (for_append body xs acc t) = Ok (acc ++ entries xs (outcomes call xs t))%list.
Proof.
  induction xs as [| x xs IH]; intros acc t; simpl.
  - now rewrite app_nil_r.
  - unfold bind. rewrite body_run. rewrite IH. now rewrite <- app_assoc.
Qed.

Lemma outcomes_length (xs : list string) :
  forall t, List.length (outcomes call xs t) = List.length xs.
Proof. induction xs as [| x xs IH]; intros t; simpl; [reflexivity | now rewrite IH]. Qed.

Lemma outcomes_shape (xs : list string) :
  forall t j v, nth_error (outcomes call xs t) j = Some (Ok v) -> shape v = true.
Proof.
  induction xs as [| x xs IH]; intros t j v H.
  - destruct j; discriminate.
  - destruct j as [| j]; simpl in H.
    + injection H as H. eapply call_shape; eauto.
    + eapply IH; eauto.
Qed.

Lemma entries_all_good (xs : list string) :
  forall os, List.length os = List.length xs -> Forall good os ->
    List.length (filter error_tagged (entries xs os)) = 0
    /\ List.length (filter shape (entries xs os)) = List.length xs.
Proof.
  induction xs as [| x xs IH]; intros [| o os] Hlen Hgood; try discriminate; simpl.
  - auto.
  - inversion Hgood as [| ? ? (v & -> & Hv) Hrest]; subst.
    simpl. rewrite Hv, (shape_untagged _ Hv). simpl.
    destruct (IH os) as [H1 H2]; [now injection Hlen | assumption |].
    now rewrite H1, H2.
Qed.

Lemma entries_length (xs : list string) :
  forall os, List.length os = List.length xs ->
    List.length (entries xs os) = List.length xs.
Proof.
  induction xs as [| x xs IH]; intros [| o os] Hlen; try discriminate; simpl; auto.
Qed.

Lemma entries_nth (xs : list string) :
  forall os j x o, nth_error xs j = Some x -> nth_error os j = Some o ->
    nth_error (entries xs os) j = Some (entry x o).
Proof.
  induction xs as [| x' xs IH]; intros [| o' os] [| j] x o Hx Ho; try discriminate; simpl in *.
  - now injection Hx as ->; injection Ho as ->.
  - eauto.
Qed.

(** Counting: with one raised outcome there is one tagged entry, and all
    the others have the success shape. *)
Lemma entries_counts (xs : list string) :
  forall os i e, List.length os = List.length xs ->
    nth_error os i = Some (Raise e) ->
    (forall j o, j <> i -> nth_error os j = Some o -> good o) ->
    List.length (filter error_tagged (entries xs os)) = 1
    /\ List.length (filter shape (entries xs os)) = List.length xs - 1.
Proof.
  induction xs as [| x xs IH]; intros [| o os] i e Hlen Hi Hothers; try discriminate.
  - destruct i; discriminate.
  - destruct i as [| i]; simpl in Hi.
    + injection Hi as ->. simpl. rewrite failed_tagged, failed_shape. simpl.
      destruct (entries_all_good xs os) as [H1 H2].
      * now injection Hlen.
      * apply Forall_forall. intros o Ho. apply In_nth_error in Ho as [j Hj].
        apply (Hothers (S j) o); [discriminate | exact Hj].
      * rewrite H1, H2. split; lia.
    + destruct (Hothers 0 o) as (v & -> & Hv); [discriminate | reflexivity |].
      simpl. rewrite Hv, (shape_untagged _ Hv). simpl.
      destruct (IH os i e) as [H1 H2].
      * now injection Hlen.
      * exact Hi.
      * intros j o' Hj Ho'. apply (Hothers (S j) o'); [congruence | exact Ho'].
      * rewrite H1, H2. split; [reflexivity |].
        assert (i < List.length xs).
        { injection Hlen as Hlen. rewrite <- Hlen. apply nth_error_Some. congruence. }
        lia.
Qed.

(** The batch loop isolates a single failure. *)
Lemma single_failure (xs : list string) (t : Trace) (i : nat) (e : PyExc) :
  only_failure (outcomes call xs t) i e ->
  exists results,
    fst (for_append body xs [] t) = Ok results
    /\ one_failure_isolated xs (outcomes call xs t) failed shape i e results.
Proof.
  intros [Hi Hothers].
  exists (entries xs (outcomes call xs t)).
  split; [apply for_append_run |].
  pose proof (outcomes_length xs t) as Hlen.
  assert (Hgood : forall j o, j <> i -> nth_error (outcomes call xs t) j = Some o -> good o).
  { intros j o Hj Ho. destruct (Hothers j o Hj Ho) as [v ->].
    exists v. split; [reflexivity |]. eapply outcomes_shape; eauto. }
  unfold one_failure_isolated.
  split; [now apply entries_length |].
  split; [| split].
  - assert (Hlt : i < List.length xs).
    { rewrite <- Hlen. apply nth_error_Some. congruence. }
    destruct (nth_error xs i) as [item |] eqn:Hitem;
      [| apply nth_error_None in Hitem; lia].
    exists item. split; [reflexivity |]. split; [| apply failed_tagged].
    now rewrite (entries_nth xs _ i _ _ Hitem Hi).
  - intros j Hj Hlt.
    destruct (nth_error (outcomes call xs t) j) as [o |] eqn:Ho;
      [| apply nth_error_None in Ho; lia].
    destruct (Hgood j o Hj Ho) as (v & -> & Hv).
    destruct (nth_error xs j) as [item |] eqn:Hitem;
      [| apply nth_error_None in Hitem; lia].
    exists v. split; [reflexivity |]. split; [| exact Hv].
    now rewrite (entries_nth xs _ j _ _ Hitem Ho).
  - now apply entries_counts with (i := i) (e := e).
Qed.

End Generic.
End BatchIsolation.

Module BatchMethods.
Import Py Eff Spec TraceFacts.

Section WithRuntime.
Context {RT : Runtime}.

Lemma generate_text_shape (self : Self) (prompt model_name : string)
    (temperature max_tokens top_p top_k : PyVal) (kwargs : Dict) (t : Trace) (v : PyVal) :
  fst (TextGenerator.generate_text self prompt model_name temperature max_tokens
         top_p top_k kwargs t) = Ok v ->
  text_success_shape v = true.
Proof.
  intros H.
  unfold TextGenerator.generate_text, try_except, new_id, bind, call_uuid4_hex, call_query,
    lift, ret, raise in H.
  split_run H; injection H as <-; reflexivity.
Qed.

Lemma generate_text_kw_shape (self : Self) (model_name : string) (kwargs : Dict)
    (prompt : string) (t : Trace) (v : PyVal) :
  fst (TextGenerator.generate_text_kw self prompt model_name kwargs t) = Ok v ->
  text_success_shape v = true.
Proof.
  unfold TextGenerator.generate_text_kw.
  destruct (_ || _); [discriminate |].
  apply generate_text_shape.
Qed.

Lemma generate_embedding_shape (self : Self) (content content_type model_name : string)
    (kwargs : Dict) (t : Trace) (v : PyVal) :
  fst (EmbeddingGenerator.generate_embedding self content content_type model_name kwargs t)
  = Ok v ->
  embedding_success_shape v = true.
Proof.
  intros H.
  unfold EmbeddingGenerator.generate_embedding, try_except, new_id, bind, call_uuid4_hex,
    call_query, lift, ret, raise in H.
  split_run H; injection H as <-; reflexivity.
Qed.

Lemma generate_embedding_kw_shape (self : Self) (content_type model_name : string)
    (kwargs : Dict) (content : string) (t : Trace) (v : PyVal) :
  fst (EmbeddingGenerator.generate_embedding_kw self content content_type model_name
         kwargs t) = Ok v ->
  embedding_success_shape v = true.
Proof.
  unfold EmbeddingGenerator.generate_embedding_kw.
  destruct (_ || _); [discriminate |].
  apply generate_embedding_shape.
Qed.

Lemma text_shape_untagged (v : PyVal) :
  text_success_shape v = true -> error_tagged v = false.
Proof.
  unfold text_success_shape, error_tagged. intros H.
  apply andb_prop in H as [_ H]. apply negb_true_iff in H. now rewrite H.
Qed.

Lemma embedding_shape_untagged (v : PyVal) :
  embedding_success_shape v = true -> error_tagged v = false.
Proof.
  unfold embedding_success_shape, error_tagged. intros H.
  apply andb_prop in H as [_ H]. apply negb_true_iff in H. now rewrite H.
Qed.

(** C3.  When exactly one underlying generation call of a batch raises,
    the batch returns one entry per input, in input order: the
    error-tagged record (with ['error'] and ['status': 'failed']) at the
    position of the failing item, and at every other position the record
    its generation call returned, which has the success shape.  This holds
    for [batch_generate_text] and for [batch_generate_embeddings]. *)
Theorem batch_isolates_single_failure (self : Self) (t : Trace) (i : nat) (e : PyExc) :
  (forall prompts model_name kwargs,
     let os := outcomes (fun prompt =>
                           TextGenerator.generate_text_kw self prompt model_name kwargs)
                 prompts t in
     only_failure os i e ->
     exists results,
       fst (TextGenerator.batch_generate_text self prompts model_name kwargs t) = Ok results
       /\ one_failure_isolated prompts os TextGenerator.failed_record
            text_success_shape i e results)
  /\ (forall contents content_type model_name kwargs,
        let os := outcomes (fun content =>
                              EmbeddingGenerator.generate_embedding_kw self content
                                content_type model_name kwargs)
                    contents t in
        only_failure os i e ->
        exists results,
          fst (EmbeddingGenerator.batch_generate_embeddings self contents content_type
                 model_name kwargs t) = Ok results
          /\ one_failure_isolated contents os EmbeddingGenerator.failed_record
               embedding_success_shape i e results).
Proof.
  split.
  - intros prompts model_name kwargs os Hone.
    apply (BatchIsolation.single_failure
             (fun prompt => TextGenerator.generate_text_kw self prompt model_name kwargs)
             TextGenerator.failed_record text_success_shape); auto.
    + intros x t0 v. apply generate_text_kw_shape.
    + apply text_shape_untagged.
  - intros contents content_type model_name kwargs os Hone.
    apply (BatchIsolation.single_failure
             (fun content => EmbeddingGenerator.generate_embedding_kw self content
                               content_type model_name kwargs)
             EmbeddingGenerator.failed_record embedding_success_shape); auto.
    + intros x t0 v. apply generate_embedding_kw_shape.
    + apply embedding_shape_untagged.
Qed.

End WithRuntime.

(** Three items, the second of which fails. *)
Lemma batch_isolates_single_failure_witness :
  let self := Examples.second_query_fails in
  let e := ClientError "quota exceeded" in
  let prompts := ["first"; "second"; "third"] in
  (exists results,
     fst (TextGenerator.batch_generate_text (RT := Examples.runtime) self prompts
            "gemini-pro" [] []) = Ok results
     /\ one_failure_isolated prompts
          (outcomes (fun prompt =>
                       TextGenerator.generate_text_kw (RT := Examples.runtime) self prompt
                         "gemini-pro" [])
             prompts [])
          TextGenerator.failed_record text_success_shape 1 e results)
  /\ (exists results,
        fst (EmbeddingGenerator.batch_generate_embeddings (RT := Examples.runtime) self
               prompts "text" "text-embedding-001" [] []) = Ok results
        /\ one_failure_isolated prompts
             (outcomes (fun content =>
                          EmbeddingGenerator.generate_embedding_kw (RT := Examples.runtime)
                            self content "text" "text-embedding-001" [])
                prompts [])
             EmbeddingGenerator.failed_record embedding_success_shape 1 e results).
Proof.
  intros self e prompts.
  destruct (batch_isolates_single_failure (RT := Examples.runtime) self [] 1 e)
    as [Htext Hemb].
  split.
  - apply Htext. split; [reflexivity |].
    intros j r Hj H.
    destruct j as [| [| [| j]]]; [| congruence | |].
    + vm_compute in H. injection H as <-. eexists. reflexivity.
    + vm_compute in H. injection H as <-. eexists. reflexivity.
    + destruct j; discriminate H.
  - apply Hemb. split; [reflexivity |].
    intros j r Hj H.
    destruct j as [| [| [| j]]]; [| congruence | |].
    + vm_compute in H. injection H as <-. eexists. reflexivity.
    + vm_compute in H. injection H as <-. eexists. reflexivity.
    + destruct j; discriminate H.
Defined.

End BatchMethods.

(** ** Audit writes *)

Module AuditWrites.
Import Py Eff Spec TraceFacts.

Section WithRuntime.
Context {RT : Runtime}.
Variables (c1 c2 : Client) (cfg : Config).
Hypothesis same : same_but_insert c1 c2.

Local Ltac unpack :=
  destruct same as (Huuid & Hnow & Hquery & Hcreate & Hdelete & _).

Lemma store_generation_same (generation_id prompt : string) (generated_text : PyVal)
    (model_name : string) (parameters : Dict) (t : Trace) :
  TextGenerator._store_generation (on c1 cfg) generation_id prompt generated_text
    model_name parameters t
  = TextGenerator._store_generation (on c2 cfg) generation_id prompt generated_text
      model_name parameters t.
Proof.
  unpack.
  unfold TextGenerator._store_generation, try_except, bind, lift, call_utc_now,
    call_insert_rows_json, ret. simpl.
  destruct (get_full_table_id cfg "generated_content") as [table_id | e]; [| reflexivity].
  rewrite Hnow. destruct (utc_now c2 t) as [now | e]; [| reflexivity].
  destruct (insert_rows_json c1 _ _ _), (insert_rows_json c2 _ _ _); reflexivity.
Qed.

Lemma store_embedding_same (embedding_id content content_type content_hash : string)
    (embedding_vector : PyVal) (model_name : string) (metadata : PyVal) (t : Trace) :
  EmbeddingGenerator._store_embedding (on c1 cfg) embedding_id content content_type
    content_hash embedding_vector model_name metadata t
  = EmbeddingGenerator._store_embedding (on c2 cfg) embedding_id content content_type
      content_hash embedding_vector model_name metadata t.
Proof.
  unpack.
  unfold EmbeddingGenerator._store_embedding, try_except, bind, lift, call_utc_now,
    call_insert_rows_json, ret. simpl.
  destruct (get_full_table_id cfg "embeddings") as [table_id | e]; [| reflexivity].
  destruct (py_len embedding_vector) as [n | e]; [| reflexivity].
  rewrite Hnow. destruct (utc_now c2 t) as [created | e]; [| reflexivity].
  rewrite Hnow. destruct (utc_now c2 _) as [updated | e]; [| reflexivity].
  destruct (insert_rows_json c1 _ _ _), (insert_rows_json c2 _ _ _); reflexivity.
Qed.

Lemma store_search_same (search_id : string) (query_embedding : list PyVal)
    (table_id embedding_column : string) (top_k : Z) (distance_type : string)
    (results_count : Z) (kwargs : Dict) (t : Trace) :
  VectorSearch._store_search (on c1 cfg) search_id query_embedding table_id
    embedding_column top_k distance_type results_count kwargs t
  = VectorSearch._store_search (on c2 cfg) search_id query_embedding table_id
      embedding_column top_k distance_type results_count kwargs t.
Proof.
  unfold VectorSearch._store_search, try_except, bind, lift, call_insert_rows_json, ret.
  simpl.
  destruct (config_getitem cfg "project_id") as [project_id | e]; [| reflexivity].
  destruct (config_getitem cfg "dataset_id") as [dataset_id | e]; [| reflexivity].
  destruct (insert_rows_json c1 _ _ _), (insert_rows_json c2 _ _ _); reflexivity.
Qed.

Lemma generate_text_same (prompt model_name : string)
    (temperature max_tokens top_p top_k : PyVal) (kwargs : Dict) (t : Trace) :
  TextGenerator.generate_text (on c1 cfg) prompt model_name temperature max_tokens
    top_p top_k kwargs t
  = TextGenerator.generate_text (on c2 cfg) prompt model_name temperature max_tokens
      top_p top_k kwargs t.
Proof.
  unpack.
  unfold TextGenerator.generate_text, try_except, new_id, bind, call_uuid4_hex, call_query.
  simpl. rewrite Huuid, Hquery.
  destruct (query c2 _ _) as [job | e]; [| reflexivity].
  destruct (job_rows job) as [| row0 rows]; [reflexivity |].
  now rewrite store_generation_same.
Qed.

Lemma generate_embedding_same (content content_type model_name : string) (kwargs : Dict)
    (t : Trace) :
  EmbeddingGenerator.generate_embedding (on c1 cfg) content content_type model_name kwargs t
  = EmbeddingGenerator.generate_embedding (on c2 cfg) content content_type model_name
      kwargs t.
Proof.
  unpack.
  unfold EmbeddingGenerator.generate_embedding, try_except, new_id, bind, call_uuid4_hex,
    call_query.
  simpl. rewrite Huuid, Hquery.
  destruct (query c2 _ _) as [job | e]; [| reflexivity].
  destruct (job_rows job) as [| row0 rows]; [reflexivity |].
  now rewrite store_embedding_same.
Qed.

Lemma search_similar_same (query_embedding : list PyVal) (table_id embedding_column : string)
    (top_k : Z) (distance_type : string) (kwargs : Dict) (t : Trace) :
  VectorSearch.search_similar (on c1 cfg) query_embedding table_id embedding_column top_k
    distance_type kwargs t
  = VectorSearch.search_similar (on c2 cfg) query_embedding table_id embedding_column
      top_k distance_type kwargs t.
Proof.
  unpack.
  unfold VectorSearch.search_similar, try_except, new_id, bind, call_uuid4_hex, call_query.
  simpl. rewrite Huuid, Hquery.
  destruct (query c2 _ _) as [job | e]; [| reflexivity].
  destruct (job_rows job) as [| row0 rows]; [reflexivity |].
  destruct (dict_has kwargs "search_id" || dict_has kwargs "results_count");
    [reflexivity |].
  simpl. now rewrite store_search_same.
Qed.

End WithRuntime.
Section Forecast.
Context {RT : Runtime}.
Variables (c1 c2 : Client) (cfg : Config).
Hypothesis same : agree_off (forecasts_table cfg) c1 c2.

Import Forecaster.

Lemma append_cancel (s a b : string) : s ++ a = s ++ b -> a = b.
Proof.
  induction s as [| c s IH]; simpl; intros H; [exact H |].
  injection H as H. auto.
Qed.

(** The temporary table is never the audit table. *)
Lemma temp_table_not_audit (project_id dataset_id : PyVal) (hex : string) :
  config_getitem cfg "project_id" = Ok project_id ->
  config_getitem cfg "dataset_id" = Ok dataset_id ->
  ~ forecasts_table cfg
      (py_str project_id ++ "." ++ py_str dataset_id ++ "."
       ++ "temp_forecast_" ++ substring 0 8 hex).
Proof.
  intros Hp Hd (p & d & Hp' & Hd' & Heq).
  rewrite Hp in Hp'. injection Hp' as <-.
  rewrite Hd in Hd'. injection Hd' as <-.
  apply append_cancel in Heq. simpl in Heq. injection Heq as Heq.
  apply append_cancel in Heq. discriminate Heq.
Qed.

Lemma create_temp_table_same (data : list PyVal) (target time : string) (t : Trace) :
  _create_temp_table (on c1 cfg) data target time t
  = _create_temp_table (on c2 cfg) data target time t.
Proof.
  destruct same as (Huuid & _ & _ & Hcreate & _ & Hinsert).
  unfold _create_temp_table, try_except, bind, lift, call_uuid4_hex, call_create_table,
    call_insert_rows_json.
  simpl. rewrite Huuid.
  destruct (config_getitem cfg "project_id") as [project_id | e] eqn:Hp; [| reflexivity].
  destruct (config_getitem cfg "dataset_id") as [dataset_id | e] eqn:Hd; [| reflexivity].
  rewrite Hcreate.
  destruct (create_table c2 _ _ _) as [[] | e]; [| reflexivity].
  rewrite Hinsert by (apply temp_table_not_audit; assumption).
  reflexivity.
Qed.

Lemma store_forecast_same (fid target time : string) (h : Z) (model : string)
    (res : PyVal) (params kwargs : Dict) (t : Trace) :
  _store_forecast (on c1 cfg) fid target time h model res params kwargs t
  = _store_forecast (on c2 cfg) fid target time h model res params kwargs t.
Proof.
  unfold _store_forecast, try_except, bind, lift, call_insert_rows_json, ret. simpl.
  destruct (config_getitem cfg "project_id") as [project_id | e]; [| reflexivity].
  destruct (config_getitem cfg "dataset_id") as [dataset_id | e]; [| reflexivity].
  destruct (dict_get kwargs "time_series_data") as [data |].
  - destruct (py_len data) as [n | e]; [| reflexivity].
    destruct (insert_rows_json c1 _ _ _), (insert_rows_json c2 _ _ _); reflexivity.
  - destruct (insert_rows_json c1 _ _ _), (insert_rows_json c2 _ _ _); reflexivity.
Qed.

Lemma cleanup_same (temp_table_id : string) (t : Trace) :
  _cleanup_temp_table (on c1 cfg) temp_table_id t
  = _cleanup_temp_table (on c2 cfg) temp_table_id t.
Proof. now rewrite !ForecastCleanup.cleanup_run. Qed.

Lemma new_id_same (t : Trace) : new_id (on c1 cfg) t = new_id (on c2 cfg) t.
Proof.
  destruct same as (Huuid & _).
  unfold new_id, bind, call_uuid4_hex. simpl. now rewrite Huuid.
Qed.

Lemma call_query_same (sql : string) (t : Trace) :
  call_query (on c1 cfg) sql t = call_query (on c2 cfg) sql t.
Proof.
  destruct same as (_ & _ & Hquery & _).
  unfold call_query. simpl. now rewrite Hquery.
Qed.

(** Walks through two runs of the same code on the two warehouses. *)
Local Ltac same_step :=
  match goal with
  | |- bind _ _ _ = bind _ _ _ => apply bind_ext; [| intros ? ?]
  | |- try_except _ _ _ = try_except _ _ _ => apply try_except_ext; [| intros ? ?]
  | |- try_bind _ _ _ _ _ = try_bind _ _ _ _ _ =>
      apply try_bind_ext; [| intros ? ? | intros ? ? | intros ? ? ?]
  | |- (if ?b then _ else _) _ = (if ?b then _ else _) _ => destruct b
  | |- (match ?x with _ => _ end) _ = (match ?x with _ => _ end) _ => destruct x
  | |- new_id _ _ = new_id _ _ => apply new_id_same
  | |- call_query _ _ _ = call_query _ _ _ => apply call_query_same
  | |- _create_temp_table _ _ _ _ _ = _ => apply create_temp_table_same
  | |- _cleanup_temp_table _ _ _ = _ => apply cleanup_same
  | |- _store_forecast _ _ _ _ _ _ _ _ _ _ = _ => apply store_forecast_same
  | |- ?x = ?x => reflexivity
  end.

Lemma forecast_same (data : list PyVal) (target time : string) (h : Z) (model : string)
    (kwargs : Dict) (t : Trace) :
  forecast (on c1 cfg) data target time h model kwargs t
  = forecast (on c2 cfg) data target time h model kwargs t.
Proof. unfold forecast. repeat same_step. Qed.

End Forecast.
Section Statement.
Context {RT : Runtime}.

Lemma store_generation_returns (self : Self) (generation_id prompt : string)
    (generated_text : PyVal) (model_name : string) (parameters : Dict) (t : Trace) :
  fst (TextGenerator._store_generation self generation_id prompt generated_text
         model_name parameters t) = Ok tt.
Proof.
  unfold TextGenerator._store_generation, try_except.
  match goal with |- context [match ?m t with _ => _ end] => destruct (m t) as [[[] | e] t'] end;
    reflexivity.
Qed.

Lemma store_embedding_returns (self : Self)
    (embedding_id content content_type content_hash : string)
    (embedding_vector : PyVal) (model_name : string) (metadata : PyVal) (t : Trace) :
  fst (EmbeddingGenerator._store_embedding self embedding_id content content_type
         content_hash embedding_vector model_name metadata t) = Ok tt.
Proof.
  unfold EmbeddingGenerator._store_embedding, try_except.
  match goal with |- context [match ?m t with _ => _ end] => destruct (m t) as [[[] | e] t'] end;
    reflexivity.
Qed.

(** C4.  The audit write never raises, and an operation run against two
    warehouses that differ only in what the audit insert does (succeed,
    raise, or report row errors) ends with the same result and the same
    history: the record returned when the insert succeeds is the record
    returned when it fails.  For the forecaster, whose temporary-table load
    also uses the insert call, the two warehouses differ only on inserts
    into the forecasts audit table. *)
Theorem audit_failure_never_propagates (c1 c2 : Client) (cfg : Config) (t : Trace) :
  (same_but_insert c1 c2 ->
     (forall prompt model_name temperature max_tokens top_p top_k kwargs,
        TextGenerator.generate_text (on c1 cfg) prompt model_name temperature
          max_tokens top_p top_k kwargs t
        = TextGenerator.generate_text (on c2 cfg) prompt model_name temperature
            max_tokens top_p top_k kwargs t)
     /\ (forall content content_type model_name kwargs,
           EmbeddingGenerator.generate_embedding (on c1 cfg) content content_type
             model_name kwargs t
           = EmbeddingGenerator.generate_embedding (on c2 cfg) content content_type
               model_name kwargs t)
     /\ (forall query_embedding table_id embedding_column top_k distance_type kwargs,
           VectorSearch.search_similar (on c1 cfg) query_embedding table_id
             embedding_column top_k distance_type kwargs t
           = VectorSearch.search_similar (on c2 cfg) query_embedding table_id
               embedding_column top_k distance_type kwargs t))
  /\ (agree_off (forecasts_table cfg) c1 c2 ->
        forall data target_column time_column forecast_horizon model_name kwargs,
          Forecaster.forecast (on c1 cfg) data target_column time_column
            forecast_horizon model_name kwargs t
          = Forecaster.forecast (on c2 cfg) data target_column time_column
              forecast_horizon model_name kwargs t)
  /\ (forall generation_id prompt generated_text model_name parameters,
        fst (TextGenerator._store_generation (on c1 cfg) generation_id prompt
               generated_text model_name parameters t) = Ok tt)
  /\ (forall embedding_id content content_type content_hash embedding_vector
             model_name metadata,
        fst (EmbeddingGenerator._store_embedding (on c1 cfg) embedding_id content
               content_type content_hash embedding_vector model_name metadata t) = Ok tt).
Proof.
  split; [| split; [| split]].
  - intros Hsame. split; [| split]; intros.
    + now apply generate_text_same.
    + now apply generate_embedding_same.
    + now apply search_similar_same.
  - intros Hsame. intros. now apply forecast_same.
  - intros. apply store_generation_returns.
  - intros. apply store_embedding_returns.
Qed.

End Statement.

(** A warehouse whose audit insert raises, one whose insert reports row
    errors, and one whose insert succeeds: the same generated text comes
    back from all of them. *)
Lemma audit_failure_never_propagates_witness :
  let answer := fun (_ : Trace) (_ : string) =>
    Ok (Examples.job [[("generated_text", VStr "some text")]]) in
  let raising := Examples.make_client answer Examples.insert_raises in
  let erring := Examples.make_client answer Examples.insert_row_errors in
  let working := Examples.make_client answer Examples.insert_ok in
  let run c :=
    TextGenerator.generate_text (RT := Examples.runtime) (on c Examples.object_config)
      "hello" "gemini-pro" (VFloat 0.7) (VInt 1024) (VFloat 0.9) (VInt 40) [] [] in
  (exists v, fst (run working) = Ok v)
  /\ run raising = run working
  /\ run erring = run working.
Proof.
  intros answer raising erring working run.
  assert (Hsame : forall ins,
            same_but_insert (Examples.make_client answer ins) working).
  { intros ins. unfold same_but_insert, agree_off. simpl.
    split; [reflexivity |]. split; [reflexivity |]. split; [reflexivity |].
    split; [reflexivity |]. split; [reflexivity |]. intros ? ? ? H. now destruct H. }
  split; [eexists; vm_compute; reflexivity |].
  split.
  - destruct (audit_failure_never_propagates (RT := Examples.runtime) raising working
                Examples.object_config []) as [Hops _].
    destruct (Hops (Hsame _)) as [Htext _]. exact (Htext _ _ _ _ _ _ _).
  - destruct (audit_failure_never_propagates (RT := Examples.runtime) erring working
                Examples.object_config []) as [Hops _].
    destruct (Hops (Hsame _)) as [Htext _]. exact (Htext _ _ _ _ _ _ _).
Defined.

End AuditWrites.

(** ** Embedding records *)

Module EmbeddingRecords.
Import Py Eff Spec TraceFacts.

Section WithRuntime.
Context {RT : Runtime}.

Lemma generate_embedding_dimensions (self : Self) (content content_type model_name : string)
    (kwargs : Dict) (t : Trace) (v : PyVal) :
  fst (EmbeddingGenerator.generate_embedding self content content_type model_name kwargs t)
  = Ok v ->
  exists d, v = VDict d /\ dimensions_match d.
Proof.
  intros H.
  unfold EmbeddingGenerator.generate_embedding, try_except, new_id, bind, call_uuid4_hex,
    call_query, lift, ret, raise in H.
  split_run H; injection H as <-;
    (eexists; split; [reflexivity |]);
    (eexists _, _; split; [reflexivity |]; split; [eassumption | reflexivity]).
Qed.

(** The lookup never raises. *)
Lemma lookup_returns (self : Self) (content_hash : string) (t : Trace) :
  exists v, fst (EmbeddingGenerator.get_embedding_by_hash self content_hash t) = Ok v.
Proof.
  unfold EmbeddingGenerator.get_embedding_by_hash, try_except.
  match goal with |- context [match ?m t with _ => _ end] => destruct (m t) as [[v | e] t'] end;
    eexists; reflexivity.
Qed.

(** What the lookup returns, when it is not [None], carries the row's
    [dimensions] and [embedding_vector] columns as they are. *)
Lemma lookup_passes_columns (self : Self) (content_hash : string) (t : Trace) (v : PyVal) :
  fst (EmbeddingGenerator.get_embedding_by_hash self content_hash t) = Ok v ->
  v = VNone
  \/ exists d row,
       v = VDict d
       /\ looked_up self t row
       /\ dict_get d "dimensions" = dict_get row "dimensions"
       /\ dict_get d "embedding_vector" = dict_get row "embedding_vector".
Proof.
  intros H.
  unfold EmbeddingGenerator.get_embedding_by_hash, try_except, bind, call_query, lift, ret,
    EmbeddingGenerator.row_attr in H.
  split_run H; injection H as <-; try (now left);
    right; eexists _, _; (split; [reflexivity |]);
    (split; [eexists _, _, _; split; eassumption |]);
    simpl; split; symmetry; eassumption.
Qed.

(** C8 (amended).  A record returned by [generate_embedding] has
    ['dimensions'] equal to the length of its ['embedding_vector'].  The
    lookup by hash always returns; what it returns is [None] or a record
    whose ['dimensions'] and ['embedding_vector'] are the stored row's
    columns, so the equality holds in the returned record exactly when it
    holds in the stored row. *)
Theorem embedding_dimensions (self : Self) (t : Trace) :
  (forall content content_type model_name kwargs v,
     fst (EmbeddingGenerator.generate_embedding self content content_type model_name
            kwargs t) = Ok v ->
     exists d, v = VDict d /\ dimensions_match d)
  /\ (forall content_hash,
        exists v,
          fst (EmbeddingGenerator.get_embedding_by_hash self content_hash t) = Ok v
          /\ (v = VNone
              \/ exists d row,
                   v = VDict d
                   /\ looked_up self t row
                   /\ (dimensions_match d <-> dimensions_match row))).
Proof.
  split.
  - intros content content_type model_name kwargs v. apply generate_embedding_dimensions.
  - intros content_hash.
    destruct (lookup_returns self content_hash t) as [v Hv].
    exists v. split; [exact Hv |].
    destruct (lookup_passes_columns self content_hash t v Hv)
      as [-> | (d & row & -> & Hrow & Hdim & Hvec)]; [now left |].
    right. exists d, row. split; [reflexivity |]. split; [exact Hrow |].
    unfold dimensions_match. rewrite Hdim, Hvec. reflexivity.
Qed.

End WithRuntime.

(** A stored row with [dimensions] 5 and a two-component vector comes back
    from the lookup as it is. *)
Lemma lookup_dimensions_mismatch :
  exists d,
    fst (EmbeddingGenerator.get_embedding_by_hash Examples.stale_row "abc" [])
    = Ok (VDict d)
    /\ dict_get d "dimensions" = Some (VInt 5)
    /\ dict_get d "embedding_vector" = Some (VList [VFloat 0.5; VFloat 0.5])
    /\ ~ dimensions_match d.
Proof.
  eexists. split; [vm_compute; reflexivity |].
  split; [reflexivity |]. split; [reflexivity |].
  intros (vec & n & Hvec & Hlen & Hdim).
  vm_compute in Hvec. injection Hvec as <-.
  vm_compute in Hlen. injection Hlen as <-.
  vm_compute in Hdim. discriminate Hdim.
Qed.

Lemma embedding_dimensions_witness :
  exists d,
    fst (EmbeddingGenerator.generate_embedding (RT := Examples.runtime) Examples.embeds
           "hello" "text" "text-embedding-001" [] []) = Ok (VDict d)
    /\ dimensions_match d.
Proof.
  destruct (proj1 (embedding_dimensions (RT := Examples.runtime) Examples.embeds [])
              "hello" "text" "text-embedding-001" [] _ eq_refl)
    as (d & Heq & Hd).
  exists d. split; [| exact Hd].
  rewrite <- Heq. reflexivity.
Defined.

End EmbeddingRecords.

(** ** The batch endpoints *)

Module BatchEndpoints.
Import Py Eff Spec Main.

Section WithRuntime.
Context {RT : Runtime}.

(** What the text endpoint answers for a non-empty request: every prompt
    is run through [generate_text] with the first item's parameters. *)
Lemma text_batch_runs_first_parameters (generator : Self) (t : Trace)
    (r : TextGenerationRequest) (rest : list TextGenerationRequest) :
  let prompts := map prompt (r :: rest) in
  fst (batch_generate_text generator (r :: rest) t)
  = Response (batch_response
      (entries TextGenerator.failed_record prompts
         (outcomes
            (fun p => TextGenerator.generate_text generator p (tg_model_name r)
                        (VFloat (temperature r)) (VInt (max_tokens r))
                        (VFloat (top_p r)) (VInt (top_k r)) [])
            prompts t))).
Proof.
  intros prompts.
  unfold batch_generate_text, endpoint, bind, lift, first, ret.
  unfold TextGenerator.batch_generate_text.
  pose proof (BatchIsolation.for_append_run
                (fun p => TextGenerator.generate_text generator p (tg_model_name r)
                            (VFloat (temperature r)) (VInt (max_tokens r))
                            (VFloat (top_p r)) (VInt (top_k r)) [])
                TextGenerator.failed_record prompts [] t) as Hrun.
  cbv zeta. fold prompts.
  change (TextGenerator.batch_item generator (tg_model_name r)
            (dict_of [("temperature", VFloat (temperature r));
                      ("max_tokens", VInt (max_tokens r));
                      ("top_p", VFloat (top_p r));
                      ("top_k", VInt (top_k r))]))
    with (batch_body
            (fun p => TextGenerator.generate_text generator p (tg_model_name r)
                        (VFloat (temperature r)) (VInt (max_tokens r))
                        (VFloat (top_p r)) (VInt (top_k r)) [])
            TextGenerator.failed_record).
  destruct (for_append _ prompts [] t) as [res t'].
  simpl in Hrun. subst res. reflexivity.
Qed.

Lemma embedding_batch_runs_first_parameters (generator : Self) (t : Trace)
    (r : EmbeddingRequest) (rest : list EmbeddingRequest) :
  let contents := map content (r :: rest) in
  fst (batch_generate_embeddings generator (r :: rest) t)
  = Response (batch_response
      (entries EmbeddingGenerator.failed_record contents
         (outcomes
            (fun c => EmbeddingGenerator.generate_embedding generator c (content_type r)
                        (em_model_name r) [])
            contents t))).
Proof.
  intros contents.
  unfold batch_generate_embeddings, endpoint, bind, lift, first, ret.
  unfold EmbeddingGenerator.batch_generate_embeddings.
  pose proof (BatchIsolation.for_append_run
                (fun c => EmbeddingGenerator.generate_embedding generator c (content_type r)
                            (em_model_name r) [])
                EmbeddingGenerator.failed_record contents [] t) as Hrun.
  cbv zeta. fold contents.
  change (EmbeddingGenerator.batch_item generator (content_type r) (em_model_name r) [])
    with (batch_body
            (fun c => EmbeddingGenerator.generate_embedding generator c (content_type r)
                        (em_model_name r) [])
            EmbeddingGenerator.failed_record).
  destruct (for_append _ contents [] t) as [res t'].
  simpl in Hrun. subst res. reflexivity.
Qed.


End WithRuntime.


End BatchEndpoints.

(** * Further properties of the embedded code *)

(** ** Computations that leave a kind of call alone *)

Module Quiet.
Import Py Eff More.

Section Kind.
Variable p : Event -> bool.

Lemma filter_record (t : Trace) (e : Event) :
  filter p (record t e) = (filter p t ++ (if p e then [e] else []))%list.
Proof.
  unfold record. rewrite filter_app. simpl. destruct (p e); reflexivity.
Qed.

Lemma quiet_length {A} (m : M A) (t : Trace) :
  quiet p m -> List.length (filter p (snd (m t))) = List.length (filter p t).
Proof. intros H. now rewrite H. Qed.

Lemma quiet_ret {A} (a : A) : quiet p (ret a).
Proof. intros t. reflexivity. Qed.

Lemma quiet_raise {A} (e : PyExc) : quiet p (@raise A e).
Proof. intros t. reflexivity. Qed.

Lemma quiet_lift {A} (r : Result A) : quiet p (lift r).
Proof. intros t. reflexivity. Qed.

Lemma quiet_bind {A B} (m : M A) (k : A -> M B) :
  quiet p m -> (forall a, quiet p (k a)) -> quiet p (bind m k).
Proof.
  intros Hm Hk t. unfold bind. specialize (Hm t).
  destruct (m t) as [[a | e] t']; simpl in *.
  - now rewrite Hk.
  - exact Hm.
Qed.

Lemma quiet_try_except {A} (m : M A) (h : PyExc -> M A) :
  quiet p m -> (forall e, quiet p (h e)) -> quiet p (try_except m h).
Proof.
  intros Hm Hh t. unfold try_except. specialize (Hm t).
  destruct (m t) as [[a | e] t']; simpl in *.
  - exact Hm.
  - now rewrite Hh.
Qed.

Lemma quiet_uuid4 (self : Self) : p EvUuid4 = false -> quiet p (call_uuid4_hex self).
Proof. intros H t. simpl. rewrite filter_record, H. apply app_nil_r. Qed.

Lemma quiet_new_id (self : Self) : p EvUuid4 = false -> quiet p (new_id self).
Proof.
  intros H. apply quiet_bind; [now apply quiet_uuid4 | intros; apply quiet_ret].
Qed.

Lemma quiet_now (self : Self) : p EvNow = false -> quiet p (call_utc_now self).
Proof. intros H t. simpl. rewrite filter_record, H. apply app_nil_r. Qed.

Lemma quiet_query (self : Self) (sql : string) :
  p (EvQuery sql) = false -> quiet p (call_query self sql).
Proof. intros H t. simpl. rewrite filter_record, H. apply app_nil_r. Qed.

Lemma quiet_insert (self : Self) (table_id : string) (rows : list PyVal) :
  p (EvInsertRowsJson table_id rows) = false ->
  quiet p (call_insert_rows_json self table_id rows).
Proof. intros H t. simpl. rewrite filter_record, H. apply app_nil_r. Qed.

Lemma quiet_create (self : Self) (table_id : string) (schema : list (string * string)) :
  p (EvCreateTable table_id schema) = false ->
  quiet p (call_create_table self table_id schema).
Proof. intros H t. simpl. rewrite filter_record, H. apply app_nil_r. Qed.

Lemma quiet_delete (self : Self) (table_id : string) :
  p (EvDeleteTable table_id) = false -> quiet p (call_delete_table self table_id).
Proof. intros H t. simpl. rewrite filter_record, H. apply app_nil_r. Qed.

End Kind.

(** Walks through a computation built from the combinators. *)
Ltac quiet_step :=
  match goal with
  | |- quiet _ (bind _ _) => apply quiet_bind; [| intros ?]
  | |- quiet _ (try_except _ _) => apply quiet_try_except; [| intros ?]
  | |- quiet _ (match ?x with _ => _ end) => destruct x
  | |- quiet _ (if ?b then _ else _) => destruct b
  | |- quiet _ (ret _) => apply quiet_ret
  | |- quiet _ (raise _) => apply quiet_raise
  | |- quiet _ (lift _) => apply quiet_lift
  | |- quiet _ (new_id _) => apply quiet_new_id; reflexivity
  | |- quiet _ (call_uuid4_hex _) => apply quiet_uuid4; reflexivity
  | |- quiet _ (call_utc_now _) => apply quiet_now; reflexivity
  | |- quiet _ (call_query _ _) => apply quiet_query; reflexivity
  | |- quiet _ (call_insert_rows_json _ _ _) => apply quiet_insert; reflexivity
  end.
Ltac quiet_auto := repeat quiet_step.

End Quiet.

(** ** ObjectRefProcessor.create_object_ref *)

Module ObjectRefCreation.
Import Py Eff More ObjectRefProcessor.

Section WithRuntime.
Context {RT : Runtime}.

Lemma store_metadata_returns (self : Self) (object_ref bucket_name file_path ty : string)
    (kwargs : Dict) (t : Trace) :
  fst (_store_object_ref_metadata self object_ref bucket_name file_path ty kwargs t) = Ok tt.
Proof.
  unfold _store_object_ref_metadata, try_except.
  match goal with |- context [match ?m t with _ => _ end] => destruct (m t) as [[[] | e] t'] end;
    reflexivity.
Qed.

(** X1.  [create_object_ref] never rejects a bucket or a path: it
    returns the reference [gs://bucket/path] whatever the two strings are
    and whatever the metadata write does.  The one way to make it raise is
    an extra option named [object_ref], which is a [TypeError]. *)
Theorem create_object_ref_result (self : Self) (bucket_name file_path object_type : string)
    (kwargs : Dict) (t : Trace) :
  let outcome := fst (create_object_ref self bucket_name file_path object_type kwargs t) in
  if dict_has kwargs "object_ref"
  then exists message, outcome = Raise (TypeError message)
  else outcome = Ok ("gs://" ++ bucket_name ++ "/" ++ file_path).
Proof.
  unfold create_object_ref, try_except.
  unfold bind at 1, lift.
  rewrite ObjectRefValidation.built_reference_accepted.
  destruct (dict_has kwargs "object_ref"); [eexists; reflexivity |].
  unfold bind at 1. unfold ret at 1. unfold bind.
  pose proof (store_metadata_returns self ("gs://" ++ bucket_name ++ "/" ++ file_path)
                bucket_name file_path object_type kwargs t) as Hs.
  destruct (_store_object_ref_metadata _ _ _ _ _ _ t) as [r t'].
  simpl in Hs. subst r. reflexivity.
Qed.

End WithRuntime.
End ObjectRefCreation.

(** ** ObjectRefProcessor._validate_object_ref *)

Module ObjectRefOutcome.
Import Py Eff ObjectRefProcessor.

(** X2.  The outcome of [_validate_object_ref] is decided by the [gs://]
    prefix alone: a reference that starts with it is accepted, any other
    raises the first [ValueError]; the second check, on the number of
    separators, never fails. *)
Theorem validate_object_ref_outcome (object_ref object_type : string) :
  _validate_object_ref object_ref object_type
  = if String.prefix "gs://" object_ref
    then Ok tt
    else Raise (ValueError "ObjectRef must start with 'gs://'").
Proof.
  destruct (String.prefix "gs://" object_ref) eqn:Hp.
  - now apply ObjectRefValidation.validate_iff_prefix.
  - unfold _validate_object_ref. now rewrite Hp.
Qed.

End ObjectRefOutcome.

(** ** The configuration object and the audit tables *)

Module ConfigShape.
Import Py Eff Spec More Quiet.

Section WithRuntime.
Context {RT : Runtime}.
Variables (c : Client) (project_id location dataset_id : string).

#[local] Abbreviation self := (on c (BigQueryConfig project_id location dataset_id)).

Lemma store_search_skipped (search_id : string) (query_embedding : list PyVal)
    (table_id embedding_column : string) (top_k : Z) (distance_type : string)
    (results_count : Z) (kwargs : Dict) (t : Trace) :
  VectorSearch._store_search self search_id query_embedding table_id embedding_column
    top_k distance_type results_count kwargs t = (Ok tt, t).
Proof. reflexivity. Qed.

Lemma store_forecast_skipped (fid target time : string) (h : Z) (model : string)
    (res : PyVal) (params kwargs : Dict) (t : Trace) :
  Forecaster._store_forecast self fid target time h model res params kwargs t = (Ok tt, t).
Proof. reflexivity. Qed.

Lemma store_metadata_skipped (object_ref bucket_name file_path ty : string) (kwargs : Dict)
    (t : Trace) :
  ObjectRefProcessor._store_object_ref_metadata self object_ref bucket_name file_path ty
    kwargs t = (Ok tt, t).
Proof. reflexivity. Qed.

(** X3.  With the configuration object that [get_bigquery_config()]
    returns, the operations whose audit write subscripts the configuration
    never send a row: no [insert_rows_json] is issued by [search_similar],
    [search_with_filter], [forecast_from_table] or [create_object_ref],
    whatever the warehouse answers. *)
Theorem object_config_writes_no_audit_row (t : Trace) :
  (forall query_embedding table_id embedding_column top_k distance_type kwargs,
     inserts (snd (VectorSearch.search_similar self query_embedding table_id
                     embedding_column top_k distance_type kwargs t)) = inserts t)
  /\ (forall query_embedding table_id embedding_column filter_conditions top_k
             distance_type kwargs,
        inserts (snd (VectorSearch.search_with_filter self query_embedding table_id
                        embedding_column filter_conditions top_k distance_type kwargs t))
        = inserts t)
  /\ (forall table_id target_column time_column forecast_horizon model_name where_clause
             kwargs,
        inserts (snd (ForecastFromTable.forecast_from_table self table_id target_column
                        time_column forecast_horizon model_name where_clause kwargs t))
        = inserts t)
  /\ (forall bucket_name file_path object_type kwargs,
        inserts (snd (ObjectRefProcessor.create_object_ref self bucket_name file_path
                        object_type kwargs t)) = inserts t).
Proof.
  split; [| split; [| split]].
  - intros query_embedding table_id embedding_column top_k distance_type kwargs.
    apply (quiet_length is_insert (VectorSearch.search_similar self query_embedding
                        table_id embedding_column top_k distance_type kwargs)).
    unfold VectorSearch.search_similar. quiet_auto.
    intros t0. now rewrite store_search_skipped.
  - intros query_embedding table_id embedding_column filter_conditions top_k distance_type
           kwargs.
    apply (quiet_length is_insert (VectorSearch.search_with_filter self query_embedding
                        table_id embedding_column filter_conditions top_k distance_type
                        kwargs)).
    unfold VectorSearch.search_with_filter. quiet_auto.
    intros t0. now rewrite store_search_skipped.
  - intros table_id target_column time_column forecast_horizon model_name where_clause
           kwargs.
    apply (quiet_length is_insert (ForecastFromTable.forecast_from_table self table_id
                        target_column time_column forecast_horizon model_name where_clause
                        kwargs)).
    unfold ForecastFromTable.forecast_from_table. quiet_auto.
    intros t0. now rewrite store_forecast_skipped.
  - intros bucket_name file_path object_type kwargs.
    apply (quiet_length is_insert (ObjectRefProcessor.create_object_ref self bucket_name
                        file_path object_type kwargs)).
    unfold ObjectRefProcessor.create_object_ref. quiet_auto.
    intros t0. now rewrite store_metadata_skipped.
Qed.

End WithRuntime.
End ConfigShape.

(** ** Forecaster.forecast_from_table *)

Module ForecastTable.
Import Py Eff Spec More Quiet Forecaster ForecastFromTable.

Section WithRuntime.
Context {RT : Runtime}.

Lemma store_forecast_quiet (p : Event -> bool) (self : Self) (fid target time : string)
    (h : Z) (model : string) (res : PyVal) (params kwargs : Dict) :
  (forall table rows, p (EvInsertRowsJson table rows) = false) ->
  quiet p (_store_forecast self fid target time h model res params kwargs).
Proof.
  intros Hp. unfold _store_forecast.
  apply quiet_try_except; [| intros; apply quiet_ret].
  repeat (apply quiet_bind; [| intros ?]); try apply quiet_lift; try apply quiet_ret.
  - destruct (dict_get kwargs "time_series_data"); [| apply quiet_ret].
    apply quiet_bind; [apply quiet_lift | intros; apply quiet_ret].
  - apply quiet_insert, Hp.
Qed.

Lemma forecast_from_table_quiet (p : Event -> bool) (self : Self)
    (table_id target_column time_column : string) (forecast_horizon : Z)
    (model_name : string) (where_clause : option string) (kwargs : Dict) :
  p EvUuid4 = false -> (forall sql, p (EvQuery sql) = false) ->
  (forall table rows, p (EvInsertRowsJson table rows) = false) ->
  quiet p (forecast_from_table self table_id target_column time_column forecast_horizon
             model_name where_clause kwargs).
Proof.
  intros Hu Hq Hi. unfold forecast_from_table.
  apply quiet_try_except; [| intros; apply quiet_raise].
  apply quiet_bind; [now apply quiet_new_id | intros forecast_id].
  apply quiet_bind; [apply quiet_query, Hq | intros query_job].
  destruct (job_rows query_job) as [| row0 rows]; [apply quiet_raise |].
  apply quiet_bind; [now apply store_forecast_quiet | intros []].
  repeat (apply quiet_bind; [apply quiet_lift | intros ?]).
  apply quiet_ret.
Qed.

(** X4.  [forecast_from_table] works on the caller's table in place: it
    never creates a table and never deletes one, whatever the warehouse
    answers and whether it returns or raises. *)
Theorem forecast_from_table_no_table_calls (self : Self)
    (table_id target_column time_column : string) (forecast_horizon : Z)
    (model_name : string) (where_clause : option string) (kwargs : Dict) (t : Trace) :
  let t' := snd (forecast_from_table self table_id target_column time_column
                   forecast_horizon model_name where_clause kwargs t) in
  creations t' = creations t /\ deletions t' = deletions t.
Proof.
  split.
  - apply (quiet_length is_create), forecast_from_table_quiet; reflexivity.
  - apply (quiet_length is_delete), forecast_from_table_quiet; reflexivity.
Qed.

(** X5.  What [forecast_from_table] returns or raises depends neither on
    the configuration nor on what the audit insert does: two warehouses
    that agree on everything but [insert_rows_json], behind any two
    configurations, give the caller the same outcome. *)
Theorem forecast_from_table_outcome_independent (c1 c2 : Client) (cfg1 cfg2 : Config)
    (table_id target_column time_column : string) (forecast_horizon : Z)
    (model_name : string) (where_clause : option string) (kwargs : Dict) (t : Trace) :
  same_but_insert c1 c2 ->
  fst (forecast_from_table (on c1 cfg1) table_id target_column time_column
         forecast_horizon model_name where_clause kwargs t)
  = fst (forecast_from_table (on c2 cfg2) table_id target_column time_column
           forecast_horizon model_name where_clause kwargs t).
Proof.
  intros (Huuid & _ & Hquery & _).
  unfold forecast_from_table, try_except, new_id, bind, call_uuid4_hex, call_query, ret,
    lift, raise.
  cbv beta iota zeta. cbn [client on].
  rewrite Huuid, Hquery.
  destruct (query c2 _ _) as [job | e]; [| reflexivity].
  destruct (job_rows job) as [| row0 rows]; [reflexivity |].
  match goal with
  | |- context [_store_forecast (on c1 cfg1) ?b ?c ?d ?e ?f ?g ?h ?i ?tt] =>
      pose proof (ForecastCleanup.store_forecast_returns (on c1 cfg1) b c d e f g h i tt)
        as Hs1;
      destruct (_store_forecast (on c1 cfg1) b c d e f g h i tt) as [r1 t1]
  end.
  match goal with
  | |- context [_store_forecast (on c2 cfg2) ?b ?c ?d ?e ?f ?g ?h ?i ?tt] =>
      pose proof (ForecastCleanup.store_forecast_returns (on c2 cfg2) b c d e f g h i tt)
        as Hs2;
      destruct (_store_forecast (on c2 cfg2) b c d e f g h i tt) as [r2 t2]
  end.
  simpl in Hs1, Hs2. subst r1 r2. cbv beta iota zeta.
  destruct (py_get _ _ _) as [fv | e]; [| reflexivity].
  destruct (py_len fv) as [n | e]; reflexivity.
Qed.

End WithRuntime.

(** A table forecast whose audit insert raises in one warehouse and
    succeeds in the other. *)
Lemma forecast_from_table_outcome_independent_witness :
  let answer := fun (_ : Trace) (_ : string) =>
    Ok (Examples.job [[("ai_forecast_result",
                        VDict [("forecast_values", VList [VInt 3; VInt 4])])]]) in
  let run c cfg :=
    forecast_from_table (RT := Examples.runtime) (on c cfg) "proj.ds.sales" "y" "t" 12
      "auto" None [] [] in
  fst (run (Examples.make_client answer Examples.insert_raises) Examples.mapping_config)
  = fst (run (Examples.make_client answer Examples.insert_ok) Examples.object_config).
Proof.
  intros answer run.
  apply (forecast_from_table_outcome_independent (RT := Examples.runtime)).
  unfold same_but_insert, agree_off. simpl.
  split; [reflexivity |]. split; [reflexivity |]. split; [reflexivity |].
  split; [reflexivity |]. split; [reflexivity |]. intros ? ? ? H. now destruct H.
Defined.

End ForecastTable.

(** ** Batches with any number of failures *)

Module BatchTotals.
Import Py Eff Spec More.

Section Generic.
Variable call : string -> M PyVal.
Variable failed : PyExc -> string -> PyVal.
Variable shape : PyVal -> bool.

Hypothesis call_shape : forall x t v, fst (call x t) = Ok v -> shape v = true.
Hypothesis failed_tagged : forall e x, error_tagged (failed e x) = true.
Hypothesis failed_shape : forall e x, shape (failed e x) = false.
Hypothesis shape_untagged : forall v, shape v = true -> error_tagged v = false.
Hypothesis failed_error : forall e x, Main.no_error (failed e x) = false.
Hypothesis shape_no_error : forall v, shape v = true -> Main.no_error v = true.

(** Every returned call gives one entry of the success shape, every
    raised call one tagged entry. *)
Lemma census (xs : list string) :
  forall t,
    let os := outcomes call xs t in
    let rs := entries failed xs os in
    List.length rs = List.length xs
    /\ List.length (filter error_tagged rs) = List.length (filter raised os)
    /\ List.length (filter shape rs) = List.length (filter is_ok os)
    /\ List.length (filter Main.no_error rs) = List.length (filter is_ok os).
Proof.
  induction xs as [| x xs IH]; intros t; simpl; [auto |].
  specialize (IH (snd (call x t))). simpl in IH.
  destruct IH as (Hlen & Htag & Hshape & Hok).
  destruct (call x t) as [[v | e] t'] eqn:Hcall; simpl.
  - assert (Hv : shape v = true) by (apply (call_shape x t); now rewrite Hcall).
    rewrite Hv, (shape_untagged _ Hv), (shape_no_error _ Hv). simpl in *.
    repeat split; congruence.
  - rewrite failed_tagged, failed_shape, failed_error. simpl in *.
    repeat split; congruence.
Qed.

Lemma position (xs : list string) (t : Trace) (j : nat) (x : string) (o : Result PyVal) :
  nth_error xs j = Some x -> nth_error (outcomes call xs t) j = Some o ->
  nth_error (entries failed xs (outcomes call xs t)) j = Some (entry failed x o).
Proof. apply BatchIsolation.entries_nth. Qed.

End Generic.

Lemma text_shape_no_error (v : PyVal) :
  text_success_shape v = true -> Main.no_error v = true.
Proof.
  unfold text_success_shape, has_key, Main.no_error. intros H.
  apply andb_prop in H as [_ H]. destruct v; auto.
Qed.

Lemma embedding_shape_no_error (v : PyVal) :
  embedding_success_shape v = true -> Main.no_error v = true.
Proof.
  unfold embedding_success_shape, has_key, Main.no_error. intros H.
  apply andb_prop in H as [_ H]. destruct v; auto.
Qed.

Section WithRuntime.
Context {RT : Runtime}.

(** X6.  The batch methods never raise, whatever number of their calls
    fail.  They return one entry per input in input order: at each
    position the record the call returned, or the error-tagged record of
    the exception it raised; the tagged entries are as many as the calls
    that raised, the entries of the success shape as many as the calls
    that returned. *)
Theorem batch_methods_total (self : Self) (t : Trace) :
  (forall prompts model_name kwargs,
     let os := outcomes (fun prompt =>
                           TextGenerator.generate_text_kw self prompt model_name kwargs)
                 prompts t in
     exists results,
       fst (TextGenerator.batch_generate_text self prompts model_name kwargs t) = Ok results
       /\ List.length results = List.length prompts
       /\ (forall j x o, nth_error prompts j = Some x -> nth_error os j = Some o ->
             nth_error results j = Some (entry TextGenerator.failed_record x o))
       /\ List.length (filter error_tagged results) = List.length (filter raised os)
       /\ List.length (filter text_success_shape results) = List.length (filter is_ok os))
  /\ (forall contents content_type model_name kwargs,
        let os := outcomes (fun content =>
                              EmbeddingGenerator.generate_embedding_kw self content
                                content_type model_name kwargs)
                    contents t in
        exists results,
          fst (EmbeddingGenerator.batch_generate_embeddings self contents content_type
                 model_name kwargs t) = Ok results
          /\ List.length results = List.length contents
          /\ (forall j x o, nth_error contents j = Some x -> nth_error os j = Some o ->
                nth_error results j = Some (entry EmbeddingGenerator.failed_record x o))
          /\ List.length (filter error_tagged results) = List.length (filter raised os)
          /\ List.length (filter embedding_success_shape results)
             = List.length (filter is_ok os)).
Proof.
  split.
  - intros prompts model_name kwargs os.
    set (call := fun prompt => TextGenerator.generate_text_kw self prompt model_name kwargs).
    exists (entries TextGenerator.failed_record prompts os).
    split; [apply (BatchIsolation.for_append_run call TextGenerator.failed_record) |].
    destruct (census call TextGenerator.failed_record text_success_shape) with
      (xs := prompts) (t := t) as (Hlen & Htag & Hshape & _); auto.
    + intros x t0 v. apply BatchMethods.generate_text_kw_shape.
    + apply BatchMethods.text_shape_untagged.
    + apply text_shape_no_error.
    + repeat split; auto. intros j x o. apply position.
  - intros contents content_type model_name kwargs os.
    set (call := fun content => EmbeddingGenerator.generate_embedding_kw self content
                                  content_type model_name kwargs).
    exists (entries EmbeddingGenerator.failed_record contents os).
    split; [apply (BatchIsolation.for_append_run call EmbeddingGenerator.failed_record) |].
    destruct (census call EmbeddingGenerator.failed_record embedding_success_shape) with
      (xs := contents) (t := t) as (Hlen & Htag & Hshape & _); auto.
    + intros x t0 v. apply BatchMethods.generate_embedding_kw_shape.
    + apply BatchMethods.embedding_shape_untagged.
    + apply embedding_shape_no_error.
    + repeat split; auto. intros j x o. apply position.
Qed.

(** X7.  The counts in a batch endpoint's response: for a request with at
    least one item, [total_processed] is the number of items and
    [successful] is the number of generation calls that returned. *)
Theorem batch_endpoint_counts (generator : Self) (t : Trace) :
  (forall (r : Main.TextGenerationRequest) (rest : list Main.TextGenerationRequest),
     let prompts := map Main.prompt (r :: rest) in
     let os := outcomes
                 (fun p => TextGenerator.generate_text generator p (Main.tg_model_name r)
                             (VFloat (Main.temperature r)) (VInt (Main.max_tokens r))
                             (VFloat (Main.top_p r)) (VInt (Main.top_k r)) [])
                 prompts t in
     fst (Main.batch_generate_text generator (r :: rest) t)
     = Main.Response (VDict [
         ("results", VList (entries TextGenerator.failed_record prompts os));
         ("total_processed", VInt (Z.of_nat (List.length (r :: rest))));
         ("successful", VInt (Z.of_nat (List.length (filter is_ok os))))]))
  /\ (forall (r : Main.EmbeddingRequest) (rest : list Main.EmbeddingRequest),
        let contents := map Main.content (r :: rest) in
        let os := outcomes
                    (fun c => EmbeddingGenerator.generate_embedding generator c
                                (Main.content_type r) (Main.em_model_name r) [])
                    contents t in
        fst (Main.batch_generate_embeddings generator (r :: rest) t)
        = Main.Response (VDict [
            ("results", VList (entries EmbeddingGenerator.failed_record contents os));
            ("total_processed", VInt (Z.of_nat (List.length (r :: rest))));
            ("successful", VInt (Z.of_nat (List.length (filter is_ok os))))])).
Proof.
  split.
  - intros r rest prompts os.
    rewrite BatchEndpoints.text_batch_runs_first_parameters.
    fold prompts. fold os. unfold Main.batch_response.
    destruct (census
                (fun p => TextGenerator.generate_text generator p (Main.tg_model_name r)
                            (VFloat (Main.temperature r)) (VInt (Main.max_tokens r))
                            (VFloat (Main.top_p r)) (VInt (Main.top_k r)) [])
                TextGenerator.failed_record text_success_shape) with
      (xs := prompts) (t := t) as (Hlen & _ & _ & Hok); auto.
    + intros x t0 v. apply BatchMethods.generate_text_shape.
    + apply BatchMethods.text_shape_untagged.
    + apply text_shape_no_error.
    + fold os in Hlen, Hok. rewrite Hlen, Hok. unfold prompts. rewrite length_map.
      reflexivity.
  - intros r rest contents os.
    rewrite BatchEndpoints.embedding_batch_runs_first_parameters.
    fold contents. fold os. unfold Main.batch_response.
    destruct (census
                (fun c => EmbeddingGenerator.generate_embedding generator c
                            (Main.content_type r) (Main.em_model_name r) [])
                EmbeddingGenerator.failed_record embedding_success_shape) with
      (xs := contents) (t := t) as (Hlen & _ & _ & Hok); auto.
    + intros x t0 v. apply BatchMethods.generate_embedding_shape.
    + apply BatchMethods.embedding_shape_untagged.
    + apply embedding_shape_no_error.
    + fold os in Hlen, Hok. rewrite Hlen, Hok. unfold contents. rewrite length_map.
      reflexivity.
Qed.

End WithRuntime.
End BatchTotals.

(** ** The history reads *)

Module HistoryReads.
Import Py Eff Spec More History.

Lemma collect_length (shape : Dict -> Result PyVal) (rows : list Dict) :
  forall acc l, collect shape rows acc = Ok l ->
    List.length l = List.length acc + List.length rows.
Proof.
  induction rows as [| row rows IH]; intros acc l H; simpl in H.
  - injection H as <-. simpl. lia.
  - destruct (shape row) as [record | e]; [| discriminate].
    apply IH in H. rewrite H, length_app. simpl. lia.
Qed.

Lemma collect_all (shape : Dict -> Result PyVal) (rows : list Dict) :
  forall acc,
    Forall (fun row => exists v, shape row = Ok v) rows ->
    exists l, collect shape rows acc = Ok (acc ++ l)%list
              /\ Forall2 (fun row v => shape row = Ok v) rows l.
Proof.
  induction rows as [| row rows IH]; intros acc Hall; simpl.
  - exists []. split; [now rewrite app_nil_r | constructor].
  - inversion Hall as [| ? ? [v Hv] Hrest]; subst.
    rewrite Hv. destruct (IH (acc ++ [v])%list Hrest) as (l & Hl & Hrows).
    exists (v :: l). split; [now rewrite Hl, <- app_assoc | now constructor].
Qed.

(** What a read gives: nothing, or everything the query returned. *)
Lemma read_all_or_nothing (self : Self) (table : string) (sql : string -> string)
    (shape : Dict -> Result PyVal) (t : Trace) :
  let read :=
    try_except
      (table_id <- lift (get_full_table_id (config self) table) ;;
       query_job <- call_query self (sql table_id) ;;
       lift (collect shape (job_rows query_job) []))
      (fun _ => ret []) in
  exists history,
    fst (read t) = Ok history
    /\ (history = []
        \/ exists table_id job,
             get_full_table_id (config self) table = Ok table_id
             /\ query (client self) t (sql table_id) = Ok job
             /\ collect shape (job_rows job) [] = Ok history
             /\ List.length history = List.length (job_rows job)).
Proof.
  unfold try_except, bind, lift, call_query, ret. cbv beta iota zeta.
  destruct (get_full_table_id (config self) table) as [table_id | e];
    [| exists []; split; [reflexivity | now left]].
  cbv beta iota zeta.
  destruct (query (client self) t (sql table_id)) as [job | e] eqn:Hq;
    [| exists []; split; [reflexivity | now left]].
  cbv beta iota zeta.
  destruct (collect shape (job_rows job) []) as [history | e] eqn:Hc;
    [| exists []; split; [reflexivity | now left]].
  exists history. split; [reflexivity |]. right. exists table_id, job.
  repeat split; auto. now apply collect_length in Hc.
Qed.

(** X8.  The two history reads never raise, and what they return is all
    or nothing: the empty list (which is also the answer when the table
    name cannot be built, when the query fails, or when one row cannot be
    turned into a record), or one record for every row the query returned;
    never a part of the rows, and never cut to [limit] locally. *)
Theorem history_reads_all_or_nothing (self : Self) (t : Trace) :
  (forall limit model_name,
     exists history,
       fst (get_generation_history self limit model_name t) = Ok history
       /\ (history = []
           \/ exists table_id job,
                get_full_table_id (config self) "generated_content" = Ok table_id
                /\ query (client self) t (generation_history_query table_id limit model_name)
                   = Ok job
                /\ collect generation_record (job_rows job) [] = Ok history
                /\ List.length history = List.length (job_rows job)))
  /\ (forall limit model_name content_type,
        exists history,
          fst (get_embedding_history self limit model_name content_type t) = Ok history
          /\ (history = []
              \/ exists table_id job,
                   get_full_table_id (config self) "embeddings" = Ok table_id
                   /\ query (client self) t
                        (embedding_history_query table_id limit model_name content_type)
                      = Ok job
                   /\ collect embedding_record (job_rows job) [] = Ok history
                   /\ List.length history = List.length (job_rows job))).
Proof.
  split.
  - intros limit model_name.
    apply (read_all_or_nothing self "generated_content"
             (fun table_id => generation_history_query table_id limit model_name)
             generation_record t).
  - intros limit model_name content_type.
    apply (read_all_or_nothing self "embeddings"
             (fun table_id => embedding_history_query table_id limit model_name content_type)
             embedding_record t).
Qed.

Lemma has_column (row : Dict) (name : string) :
  dict_has row name = true -> exists v, dict_get row name = Some v.
Proof. unfold dict_has. destruct (dict_get row name) as [v |]; [eauto | discriminate]. Qed.

Lemma timestamp_isoformat (v : PyVal) :
  timestamp_like v = true -> exists iso, EmbeddingGenerator.isoformat_or_none v = Ok iso.
Proof. destruct v; try discriminate; intros _; eexists; reflexivity. Qed.

Local Ltac column H :=
  let v := fresh "v" in
  let Hv := fresh "Hv" in
  apply andb_prop in H as [Hv H]; apply has_column in Hv as [v Hv].

Local Ltac same_columns :=
  let k := fresh "k" in
  let Hin := fresh "Hin" in
  intros k Hin; simpl in Hin;
  repeat (destruct Hin as [<- | Hin]; [simpl; congruence |]);
  contradiction.

(** A well-formed row of the generation table becomes a record that
    carries its columns. *)
Lemma generation_record_ok (row : Dict) :
  generation_row row = true ->
  exists d,
    generation_record row = Ok (VDict d)
    /\ forall k, In k ["id"; "content_type"; "input_data"; "generated_content";
                       "model_name"; "model_parameters"; "status"] ->
         dict_get d k = dict_get row k.
Proof.
  unfold generation_row, has_columns. intros H.
  apply andb_prop in H as [H Hts]. simpl in H.
  do 8 column H.
  unfold dict_get_default in Hts. rewrite Hv6 in Hts.
  apply timestamp_isoformat in Hts as [iso Hiso].
  unfold generation_record, EmbeddingGenerator.row_attr.
  rewrite Hv, Hv0, Hv1, Hv2, Hv3, Hv4, Hv5, Hv6. simpl. rewrite Hiso. simpl.
  eexists. split; [reflexivity |]. same_columns.
Qed.

Lemma embedding_record_ok (row : Dict) :
  embedding_row row = true ->
  exists d,
    embedding_record row = Ok (VDict d)
    /\ forall k, In k ["id"; "content_type"; "content_hash"; "embedding_vector";
                       "model_name"; "dimensions"; "metadata"] ->
         dict_get d k = dict_get row k.
Proof.
  unfold embedding_row, has_columns. intros H.
  apply andb_prop in H as [H Hts2]. apply andb_prop in H as [H Hts1]. simpl in H.
  do 9 column H.
  unfold dict_get_default in Hts1, Hts2. rewrite Hv6 in Hts1. rewrite Hv7 in Hts2.
  apply timestamp_isoformat in Hts1 as [iso1 Hiso1].
  apply timestamp_isoformat in Hts2 as [iso2 Hiso2].
  unfold embedding_record, EmbeddingGenerator.row_attr.
  rewrite Hv, Hv0, Hv1, Hv2, Hv3, Hv4, Hv5, Hv6, Hv7. simpl.
  rewrite Hiso1. simpl. rewrite Hiso2. simpl.
  eexists. split; [reflexivity |]. same_columns.
Qed.

Lemma read_well_formed (self : Self) (table table_id : string) (sql : string -> string)
    (shape : Dict -> Result PyVal) (t : Trace) (job : QueryJob) (P : Dict -> PyVal -> Prop) :
  get_full_table_id (config self) table = Ok table_id ->
  query (client self) t (sql table_id) = Ok job ->
  Forall (fun row => exists v, shape row = Ok v /\ P row v) (job_rows job) ->
  exists history,
    fst (try_except
           (table_id <- lift (get_full_table_id (config self) table) ;;
            query_job <- call_query self (sql table_id) ;;
            lift (collect shape (job_rows query_job) []))
           (fun _ => ret []) t) = Ok history
    /\ Forall2 P (job_rows job) history.
Proof.
  intros Hid Hq Hrows.
  unfold try_except, bind, lift, call_query, ret. cbv beta iota zeta.
  rewrite Hid. cbv beta iota zeta. rewrite Hq. cbv beta iota zeta.
  destruct (collect_all shape (job_rows job) []) as (l & Hl & Hall).
  { eapply Forall_impl; [| exact Hrows]. intros row (v & Hv & _). eauto. }
  rewrite Hl. exists l. split; [reflexivity |].
  clear Hl. induction Hall as [| row v rows l Hv Hall IH]; [constructor |].
  inversion Hrows as [| ? ? (v' & Hv' & HP) Hrest]; subst.
  constructor; [| now apply IH].
  rewrite Hv in Hv'. now injection Hv' as <-.
Qed.

(** X9.  When the query returns rows that all have the selected columns,
    with timestamps that are datetimes or NULL, a history read returns one
    record per row, in the order of the rows, and each record carries the
    row's identifier and its other plain columns unchanged. *)
Theorem history_reads_keep_rows (self : Self) (t : Trace) (table_id : string)
    (job : QueryJob) :
  (forall limit model_name,
     get_full_table_id (config self) "generated_content" = Ok table_id ->
     query (client self) t (generation_history_query table_id limit model_name) = Ok job ->
     forallb generation_row (job_rows job) = true ->
     exists history,
       fst (get_generation_history self limit model_name t) = Ok history
       /\ Forall2 (carries ["id"; "content_type"; "input_data"; "generated_content";
                            "model_name"; "model_parameters"; "status"])
            (job_rows job) history)
  /\ (forall limit model_name content_type,
        get_full_table_id (config self) "embeddings" = Ok table_id ->
        query (client self) t
          (embedding_history_query table_id limit model_name content_type) = Ok job ->
        forallb embedding_row (job_rows job) = true ->
        exists history,
          fst (get_embedding_history self limit model_name content_type t) = Ok history
          /\ Forall2 (carries ["id"; "content_type"; "content_hash"; "embedding_vector";
                               "model_name"; "dimensions"; "metadata"])
               (job_rows job) history).
Proof.
  split.
  - intros limit model_name Hid Hq Hrows.
    apply (read_well_formed self "generated_content" table_id
             (fun table_id => generation_history_query table_id limit model_name)
             generation_record t job _ Hid Hq).
    apply Forall_forall. intros row Hin.
    rewrite forallb_forall in Hrows.
    destruct (generation_record_ok row (Hrows row Hin)) as (d & Hd & Hk).
    exists (VDict d). split; [exact Hd |]. exists d. auto.
  - intros limit model_name content_type Hid Hq Hrows.
    apply (read_well_formed self "embeddings" table_id
             (fun table_id => embedding_history_query table_id limit model_name content_type)
             embedding_record t job _ Hid Hq).
    apply Forall_forall. intros row Hin.
    rewrite forallb_forall in Hrows.
    destruct (embedding_record_ok row (Hrows row Hin)) as (d & Hd & Hk).
    exists (VDict d). split; [exact Hd |]. exists d. auto.
Qed.

(** Two rows of the generation table, and one of the embeddings table. *)
Lemma history_reads_keep_rows_witness :
  (exists history,
     fst (get_generation_history history_table 100%Z None []) = Ok history
     /\ Forall2 (carries ["id"; "content_type"; "input_data"; "generated_content";
                          "model_name"; "model_parameters"; "status"])
          [history_row "g1"; history_row "g2"] history)
  /\ (exists history,
        fst (get_embedding_history Examples.stale_row 100%Z (Some "text-embedding-001") None [])
        = Ok history
        /\ List.length history = 1).
Proof.
  split.
  - apply (proj1 (history_reads_keep_rows history_table [] "proj.ds.generated_content"
                    (Examples.job [history_row "g1"; history_row "g2"])) 100%Z None);
      reflexivity.
  - destruct (proj2 (history_reads_keep_rows Examples.stale_row [] "proj.ds.embeddings"
                       (Examples.job (job_rows (Examples.job
                          [[("id", VStr "e1"); ("content_type", VStr "text");
                            ("content_hash", VStr "abc");
                            ("embedding_vector", VList [VFloat 0.5; VFloat 0.5]);
                            ("model_name", VStr "text-embedding-001");
                            ("dimensions", VInt 5); ("metadata", VDict []);
                            ("created_at", VNone); ("updated_at", VNone)]]))))
                 100%Z (Some "text-embedding-001") None eq_refl eq_refl eq_refl)
      as (history & Hread & Hrows).
    exists history. split; [exact Hread |].
    apply Forall2_length in Hrows. now rewrite <- Hrows.
Defined.

End HistoryReads.

(** ** Vector search: filters and results *)

Module SearchFacts.
Import Py Eff Spec More VectorSearch TraceFacts.

Lemma dict_remove_has (d : Dict) (k : string) : dict_has (dict_remove d k) k = false.
Proof.
  unfold dict_has. induction d as [| [k' v] d IH]; simpl; [reflexivity |].
  destruct (String.eqb k' k) eqn:Hk; [exact IH |].
  simpl. now rewrite Hk.
Qed.

Lemma dict_remove_other (d : Dict) (k k' : string) :
  k' <> k -> dict_get (dict_remove d k) k' = dict_get d k'.
Proof.
  intros Hne. induction d as [| [k0 v] d IH]; simpl; [reflexivity |].
  destruct (String.eqb k0 k) eqn:Hk.
  - apply String.eqb_eq in Hk. subst k0.
    destruct (String.eqb k k') eqn:Hk'; [| exact IH].
    apply String.eqb_eq in Hk'. congruence.
  - simpl. now rewrite IH.
Qed.

(** X10.  [_process_search_results] answers with one entry per row, in the
    order of the rows.  An entry holds the row's [similarity_score]
    ([None] when the row has none) and, under [data], every other column
    of the row unchanged; [data] has no [similarity_score] left. *)
Theorem process_search_results_split (results : list Dict) (embedding_column : string) :
  let processed := _process_search_results results embedding_column in
  List.length processed = List.length results
  /\ forall j row, nth_error results j = Some row ->
       exists data,
         nth_error processed j
         = Some (VDict [("similarity_score", dict_get_default row "similarity_score" VNone);
                        ("data", VDict data)])
         /\ dict_has data "similarity_score" = false
         /\ forall k, k <> "similarity_score" -> dict_get data k = dict_get row k.
Proof.
  unfold _process_search_results. split; [apply length_map |].
  intros j row Hrow.
  exists (dict_remove row "similarity_score").
  split; [| split].
  - rewrite nth_error_map, Hrow. reflexivity.
  - apply dict_remove_has.
  - intros k Hk. now apply dict_remove_other.
Qed.

Section WithRuntime.
Context {RT : Runtime}.

(** X11.  A search that returns lists every row the warehouse answered
    with, in order, and [total_results] is their number: the result is
    never cut to [top_k] locally.  This holds for [search_similar] and for
    [search_with_filter]. *)
Theorem search_lists_every_row (self : Self) (t : Trace) (v : PyVal) :
  (forall query_embedding table_id embedding_column top_k distance_type kwargs,
     fst (search_similar self query_embedding table_id embedding_column top_k
            distance_type kwargs t) = Ok v ->
     exists job,
       query (client self) (record t EvUuid4)
         (_build_vector_search_query query_embedding table_id embedding_column top_k
            distance_type kwargs) = Ok job
       /\ lists_rows v (job_rows job) embedding_column)
  /\ (forall query_embedding table_id embedding_column filter_conditions top_k
             distance_type kwargs,
        fst (search_with_filter self query_embedding table_id embedding_column
               filter_conditions top_k distance_type kwargs t) = Ok v ->
        exists sql job,
          _build_filtered_vector_search_query query_embedding table_id embedding_column
            filter_conditions top_k distance_type kwargs = Ok sql
          /\ query (client self) (record t EvUuid4) sql = Ok job
          /\ lists_rows v (job_rows job) embedding_column).
Proof.
  split.
  - intros query_embedding table_id embedding_column top_k distance_type kwargs H.
    unfold search_similar, try_except, new_id in H.
    unfold bind, call_uuid4_hex, call_query, ret, raise in H.
    cbv beta iota zeta in H.
    destruct (query (client self) (record t EvUuid4) _) as [job | e] eqn:Hq;
      [| discriminate H].
    exists job. split; [first [exact Hq | reflexivity] |].
    cbv beta iota zeta in H.
    destruct (job_rows job) as [| row rows] eqn:Hrows; cbv beta iota zeta in H.
    + cbn [fst] in H. injection H as <-. eexists. split; [reflexivity |]. split; reflexivity.
    + destruct (dict_has kwargs "search_id" || dict_has kwargs "results_count");
        [discriminate H |].
      cbv beta iota zeta in H.
      destruct (_store_search _ _ _ _ _ _ _ _ _ _) as [[[] | e] t']; [| discriminate H].
      cbn [fst] in H. injection H as <-. eexists. split; [reflexivity |].
      unfold _process_search_results. rewrite length_map. split; reflexivity.
  - intros query_embedding table_id embedding_column filter_conditions top_k distance_type
           kwargs H.
    unfold search_with_filter, try_except, new_id in H.
    unfold bind, call_uuid4_hex, call_query, ret, raise, lift in H.
    cbv beta iota zeta in H.
    destruct (_build_filtered_vector_search_query _ _ _ _ _ _ _) as [sql | e];
      [| discriminate H].
    cbv beta iota zeta in H.
    destruct (query (client self) (record t EvUuid4) sql) as [job | e] eqn:Hq;
      [| discriminate H].
    exists sql, job. split; [reflexivity |]. split; [exact Hq |].
    cbv beta iota zeta in H.
    destruct (job_rows job) as [| row rows] eqn:Hrows; cbv beta iota zeta in H.
    + cbn [fst] in H. injection H as <-. eexists. split; [reflexivity |]. split; reflexivity.
    + destruct (dict_has kwargs "search_id" || dict_has kwargs "results_count");
        [discriminate H |].
      cbv beta iota zeta in H.
      destruct (_store_search _ _ _ _ _ _ _ _ _ _) as [[[] | e] t']; [| discriminate H].
      cbn [fst] in H. injection H as <-. eexists. split; [reflexivity |].
      unfold _process_search_results. rewrite length_map. split; reflexivity.
Qed.

Lemma where_conditions_raise (filter_conditions : Dict) :
  forall acc e,
    where_conditions filter_conditions acc = Raise e
    <-> e = IndexError "list index out of range"
        /\ exists column, In (column, VList []) filter_conditions.
Proof.
  induction filter_conditions as [| [column value] rest IH]; intros acc e; simpl.
  - split; [discriminate | intros (_ & _ & [])].
  - destruct (where_condition column value) as [cs | e'] eqn:Hc.
    + rewrite IH. split; intros (He & column' & Hin); (split; [exact He |]).
      * exists column'. now right.
      * destruct Hin as [Heq | Hin]; [| eauto].
        injection Heq as -> ->. discriminate Hc.
    + destruct value as [| | | | | | [| first l] |]; try discriminate Hc.
      injection Hc as <-.
      split.
      * intros H. injection H as <-. split; [reflexivity |]. exists column. now left.
      * now intros (-> & _).
Qed.

(** X12.  The filtered query builder fails in one case only: a filter
    whose value is an empty list makes it raise [IndexError] (from
    [value[0]]).  [search_with_filter] then raises that error to its
    caller before any query is sent: the only call made is the one that
    draws the search id. *)
Theorem empty_list_filter_raises (query_embedding : list PyVal)
    (table_id embedding_column : string) (filter_conditions : Dict) (top_k : Z)
    (distance_type : string) (kwargs : Dict) :
  (forall e,
     _build_filtered_vector_search_query query_embedding table_id embedding_column
       filter_conditions top_k distance_type kwargs = Raise e
     <-> e = IndexError "list index out of range"
         /\ exists column, In (column, VList []) filter_conditions)
  /\ (forall self t column,
        In (column, VList []) filter_conditions ->
        search_with_filter self query_embedding table_id embedding_column
          filter_conditions top_k distance_type kwargs t
        = (Raise (IndexError "list index out of range"), record t EvUuid4)).
Proof.
  assert (Hbuild : forall e,
            _build_filtered_vector_search_query query_embedding table_id embedding_column
              filter_conditions top_k distance_type kwargs = Raise e
            <-> e = IndexError "list index out of range"
                /\ exists column, In (column, VList []) filter_conditions).
  { intros e. rewrite <- (where_conditions_raise filter_conditions [] e).
    unfold _build_filtered_vector_search_query.
    destruct (where_conditions filter_conditions []) as [conds | e'].
    - split; discriminate.
    - split; intros H; injection H as ->; reflexivity. }
  split; [exact Hbuild |].
  intros self t column Hin.
  assert (Hraise : _build_filtered_vector_search_query query_embedding table_id
                     embedding_column filter_conditions top_k distance_type kwargs
                   = Raise (IndexError "list index out of range")).
  { apply Hbuild. split; [reflexivity | eauto]. }
  unfold search_with_filter, try_except, new_id.
  unfold bind, call_uuid4_hex, ret, raise, lift. cbv beta iota zeta.
  rewrite Hraise. reflexivity.
Qed.

Lemma where_conditions_supported (filter_conditions : Dict) :
  forall acc,
    where_conditions filter_conditions acc
    = where_conditions (filter (fun kv => filterable (snd kv)) filter_conditions) acc.
Proof.
  induction filter_conditions as [| [column value] rest IH]; intros acc; [reflexivity |].
  cbn [filter snd]. destruct (filterable value) eqn:Hf.
  - cbn [where_conditions]. destruct (where_condition column value); [apply IH | reflexivity].
  - cbn [where_conditions].
    assert (Hc : where_condition column value = Ok []) by (destruct value; try discriminate Hf; reflexivity).
    rewrite Hc, app_nil_r. apply IH.
Qed.

(** X13.  Filter values that are neither a string, a number, a boolean
    nor a list are left out of the query without notice: the builder
    gives the same outcome as for the filter map without those entries.
    The extra keyword options have no effect on the query either. *)
Theorem filter_builder_ignores_unsupported (query_embedding : list PyVal)
    (table_id embedding_column : string) (filter_conditions : Dict) (top_k : Z)
    (distance_type : string) (kwargs kwargs' : Dict) :
  _build_filtered_vector_search_query query_embedding table_id embedding_column
    filter_conditions top_k distance_type kwargs
  = _build_filtered_vector_search_query query_embedding table_id embedding_column
      (filter (fun kv => filterable (snd kv)) filter_conditions) top_k distance_type kwargs'.
Proof.
  unfold _build_filtered_vector_search_query.
  now rewrite where_conditions_supported.
Qed.

End WithRuntime.

(** Three rows come back for [top_k = 2]: all three are listed. *)
Lemma search_lists_every_row_witness :
  exists v job,
    fst (search_similar (RT := Examples.runtime) search_rows [VFloat 0.5]
           "proj.ds.embeddings" "embedding_vector" 2%Z "cosine" [] []) = Ok v
    /\ List.length (job_rows job) = 3
    /\ lists_rows v (job_rows job) "embedding_vector".
Proof.
  eexists.
  destruct (proj1 (search_lists_every_row (RT := Examples.runtime) search_rows [] _)
              [VFloat 0.5] "proj.ds.embeddings" "embedding_vector" 2%Z "cosine" [] eq_refl)
    as (job & Hq & Hrows).
  exists job. split; [reflexivity |]. split; [| exact Hrows].
  vm_compute in Hq. injection Hq as <-. reflexivity.
Defined.

(** A filter with an empty list of tags. *)
Lemma empty_list_filter_raises_witness :
  search_with_filter (RT := Examples.runtime) search_rows [VFloat 0.5]
    "proj.ds.embeddings" "embedding_vector"
    [("category", VStr "doc"); ("tag", VList [])] 10%Z "cosine" [] []
  = (Raise (IndexError "list index out of range"), [EvUuid4]).
Proof.
  apply (proj2 (empty_list_filter_raises (RT := Examples.runtime) [VFloat 0.5]
                  "proj.ds.embeddings" "embedding_vector"
                  [("category", VStr "doc"); ("tag", VList [])] 10%Z "cosine" [])
           search_rows [] "tag").
  right. left. reflexivity.
Defined.

End SearchFacts.

(** ** The compliance report *)

Module ComplianceReport.
Import Py ContentGenerator Spec More.

Section WithRuntime.
Context {RT : Runtime}.

Lemma flag_agrees_missing (c : Compliance) (field : PyVal) :
  flag_agrees {| is_compliant := false;
                 missing_fields := (missing_fields c ++ [field])%list;
                 extra_fields := extra_fields c;
                 type_mismatches := type_mismatches c |}.
Proof.
  unfold flag_agrees. simpl. split; [discriminate |].
  intros [H _]. now destruct (missing_fields c).
Qed.

Lemma flag_agrees_mismatch (c : Compliance) (message : string) :
  flag_agrees {| is_compliant := false;
                 missing_fields := missing_fields c;
                 extra_fields := extra_fields c;
                 type_mismatches := (type_mismatches c ++ [message])%list |}.
Proof.
  unfold flag_agrees. simpl. split; [discriminate |].
  intros [_ H]. now destruct (type_mismatches c).
Qed.

Lemma check_required_flag (content : Dict) (required : list PyVal) :
  forall c c', flag_agrees c -> check_required content required c = Ok c' -> flag_agrees c'.
Proof.
  induction required as [| field rest IH]; intros c c' Hc H; simpl in H.
  - now injection H as <-.
  - destruct (key_in_dict field content) as [[|] | e]; simpl in H; try discriminate.
    + eapply IH; eauto.
    + eapply IH; [| exact H]. apply flag_agrees_missing.
Qed.

Lemma check_extra_flag (properties : PyVal) (fields : list string) :
  forall c c', flag_agrees c -> check_extra properties fields c = Ok c' -> flag_agrees c'.
Proof.
  induction fields as [| field rest IH]; intros c c' Hc H; simpl in H.
  - now injection H as <-.
  - destruct (str_in field properties) as [[|] | e]; simpl in H; try discriminate.
    + eapply IH; eauto.
    + eapply IH; [| exact H]. exact Hc.
Qed.

Lemma check_types_flag (content props : Dict) :
  forall c c', flag_agrees c -> check_types content props c = Ok c' -> flag_agrees c'.
Proof.
  induction props as [| [field field_schema] rest IH]; intros c c' Hc H; simpl in H.
  - now injection H as <-.
  - destruct (dict_get content field) as [value |]; [| eapply IH; eauto].
    destruct (py_get field_schema "type" VNone) as [expected | e]; simpl in H;
      [| discriminate].
    destruct (truthy expected); [| eapply IH; eauto].
    destruct (mismatch expected (type_name value)); [| eapply IH; eauto].
    eapply IH; [| exact H]. apply flag_agrees_mismatch.
Qed.

(** X14.  In every report that [_validate_schema_compliance] returns,
    [is_compliant] is true exactly when [missing_fields] and
    [type_mismatches] are both empty.  Fields the schema does not declare
    are listed under [extra_fields] and never lower the flag. *)
Theorem compliance_flag_agrees (content schema : Dict) (report : Compliance) :
  _validate_schema_compliance content schema = Ok report ->
  is_compliant report = true
  <-> missing_fields report = [] /\ type_mismatches report = [].
Proof.
  intros H. change (flag_agrees report).
  unfold _validate_schema_compliance in H.
  set (c0 := {| is_compliant := true; missing_fields := []; extra_fields := [];
                type_mismatches := [] |}) in H.
  assert (H0 : flag_agrees c0) by (unfold flag_agrees; simpl; tauto).
  destruct (match dict_get schema "required" with
            | Some required =>
                rbind (py_iter required) (fun fields => check_required content fields c0)
            | None => Ok c0
            end) as [c1 | e] eqn:H1; [| discriminate H].
  assert (Hc1 : flag_agrees c1).
  { destruct (dict_get schema "required") as [required |]; [| now injection H1 as <-].
    destruct (py_iter required) as [fields | e]; [| discriminate H1].
    simpl in H1. eapply check_required_flag; eauto. }
  simpl in H.
  destruct (match dict_get schema "properties" with
            | Some properties => check_extra properties (dict_keys content) c1
            | None => Ok c1
            end) as [c2 | e] eqn:H2; [| discriminate H].
  assert (Hc2 : flag_agrees c2).
  { destruct (dict_get schema "properties") as [properties |]; [| now injection H2 as <-].
    eapply check_extra_flag; eauto. }
  simpl in H.
  destruct (dict_get schema "properties") as [properties |]; [| now injection H as <-].
  destruct (py_items properties) as [items | e]; [| discriminate H].
  simpl in H. eapply check_types_flag; eauto.
Qed.

Lemma check_required_exact (content : Dict) (required : list PyVal) :
  all_strings required ->
  forall c, exists c',
    check_required content required c = Ok c'
    /\ missing_fields c' = (missing_fields c ++ filter (absent_from content) required)%list
    /\ extra_fields c' = extra_fields c.
Proof.
  induction 1 as [| x required [s ->] _ IH]; intros c; simpl.
  - exists c. now rewrite app_nil_r.
  - destruct (dict_has content s); simpl.
    + apply IH.
    + destruct (IH {| is_compliant := false;
                      missing_fields := (missing_fields c ++ [VStr s])%list;
                      extra_fields := extra_fields c;
                      type_mismatches := type_mismatches c |})
        as (c' & Hc' & Hm & He).
      exists c'. simpl in Hm, He. rewrite <- app_assoc in Hm. auto.
Qed.

Lemma check_extra_exact (props : Dict) (fields : list string) :
  forall c, exists c',
    check_extra (VDict props) fields c = Ok c'
    /\ missing_fields c' = missing_fields c
    /\ extra_fields c' = (extra_fields c ++ filter (undeclared_in props) fields)%list.
Proof.
  induction fields as [| field fields IH]; intros c; simpl.
  - exists c. now rewrite app_nil_r.
  - unfold undeclared_in at 1. destruct (dict_has props field); simpl.
    + apply IH.
    + destruct (IH {| is_compliant := is_compliant c;
                      missing_fields := missing_fields c;
                      extra_fields := (extra_fields c ++ [field])%list;
                      type_mismatches := type_mismatches c |})
        as (c' & Hc' & Hm & He).
      exists c'. simpl in Hm, He. rewrite <- app_assoc in He. auto.
Qed.

Lemma check_types_keeps (content props : Dict) :
  forall c c', check_types content props c = Ok c' ->
    missing_fields c' = missing_fields c /\ extra_fields c' = extra_fields c.
Proof.
  induction props as [| [field field_schema] rest IH]; intros c c' H; simpl in H.
  - now injection H as <-.
  - destruct (dict_get content field) as [value |]; [| now apply IH].
    destruct (py_get field_schema "type" VNone) as [expected | e]; simpl in H;
      [| discriminate].
    destruct (truthy expected); [| now apply IH].
    destruct (mismatch expected (type_name value)); [| now apply IH].
    apply IH in H. exact H.
Qed.

(** X15.  For a schema whose [required] is a list of names and whose
    [properties] maps names to dicts, the check returns a report (it does
    not raise) in which [missing_fields] are the required names that the
    content lacks, in the order of the schema, and [extra_fields] are the
    content's keys that [properties] does not declare, in the order of the
    content. *)
Theorem missing_and_extra_fields (content schema : Dict) (required : list PyVal)
    (props : Dict) :
  dict_get schema "required" = Some (VList required) ->
  all_strings required ->
  dict_get schema "properties" = Some (VDict props) ->
  all_dicts props ->
  exists report,
    _validate_schema_compliance content schema = Ok report
    /\ missing_fields report = filter (absent_from content) required
    /\ extra_fields report = filter (undeclared_in props) (dict_keys content).
Proof.
  intros Hreq Hstrings Hprops Hdicts.
  unfold _validate_schema_compliance. rewrite Hreq, Hprops. simpl.
  destruct (check_required_exact content required Hstrings
              {| is_compliant := true; missing_fields := []; extra_fields := [];
                 type_mismatches := [] |})
    as (c1 & -> & Hm1 & He1).
  simpl.
  destruct (check_extra_exact props (dict_keys content) c1) as (c2 & -> & Hm2 & He2).
  simpl.
  destruct (SchemaCompliance.check_types_ok content props Hdicts c2)
    as (c3 & Hc3 & _).
  rewrite Hc3. exists c3. split; [reflexivity |].
  apply check_types_keeps in Hc3 as [Hm3 He3].
  rewrite Hm3, Hm2, Hm1, He3, He2, He1. split; reflexivity.
Qed.

End WithRuntime.

(** The report for a content with an undeclared key and a wrong type. *)
Lemma compliance_flag_agrees_witness :
  let report := {| is_compliant := false; missing_fields := []; extra_fields := ["b"];
                   type_mismatches := ["a: expected string, got int"] |} in
  _validate_schema_compliance (RT := Examples.runtime)
    [("a", VInt 5); ("b", VInt 6)] (schema_of "string") = Ok report
  /\ (is_compliant report = true
      <-> missing_fields report = [] /\ type_mismatches report = []).
Proof.
  intros report. split; [reflexivity |].
  apply (compliance_flag_agrees (RT := Examples.runtime)
           [("a", VInt 5); ("b", VInt 6)] (schema_of "string") report).
  reflexivity.
Defined.

(** A content that lacks the required [a] and brings an undeclared [b]. *)
Lemma missing_and_extra_fields_witness :
  exists report,
    _validate_schema_compliance (RT := Examples.runtime) [("b", VInt 6)] (schema_of "string")
    = Ok report
    /\ missing_fields report = [VStr "a"]
    /\ extra_fields report = ["b"].
Proof.
  apply (missing_and_extra_fields (RT := Examples.runtime) [("b", VInt 6)]
           (schema_of "string") [VStr "a"] [("a", VDict [("type", VStr "string")])]).
  - reflexivity.
  - repeat constructor. now exists "a".
  - reflexivity.
  - repeat constructor. now eexists.
Defined.

End ComplianceReport.

(** ** The connection provider *)

Module ConnectionFacts.
Import Py Connection More.

Section WithCloud.
Variable cloud : Cloud.

(** A client that was returned is held, and given back from then on. *)
Lemma client_held (self self' : BigQueryConfig) (log log' : Log) (handle : string) :
  get_client cloud self log = (Ok handle, self', log') ->
  _client self' = Some handle
  /\ forall later, get_client cloud self' later = (Ok handle, self', later).
Proof.
  unfold get_client, get_credentials.
  destruct (_client self) as [cached |] eqn:Hcached.
  - intros H. injection H as <- <- <-. split; [exact Hcached |].
    intros later. now rewrite Hcached.
  - destruct (auth_default cloud log) as [credentials | e]; [| discriminate].
    cbn [set_credentials project_id location].
    destruct (bigquery_client cloud _ _ _ _) as [handle' | e]; intros H;
      [| discriminate H].
    injection H as <- <- <-. split; [reflexivity | intros later; reflexivity].
Qed.

(** X16.  [get_client] builds the client once.  After a call that
    returned, the object holds the client, and every later call gives the
    same client back without asking for credentials or constructing
    anything.  A call that raised leaves the object without a client, so
    the next call tries again.  One call makes at most two calls to the
    Google libraries. *)
Theorem get_client_builds_once (self self' : BigQueryConfig) (log log' : Log)
    (r : Result string) :
  get_client cloud self log = (r, self', log') ->
  (forall handle, r = Ok handle ->
     _client self' = Some handle
     /\ forall later, get_client cloud self' later = (Ok handle, self', later))
  /\ (forall e, r = Raise e -> _client self = None /\ _client self' = None)
  /\ List.length log <= List.length log' <= List.length log + 2
  /\ project_id self' = project_id self
  /\ location self' = location self
  /\ dataset_id self' = dataset_id self.
Proof.
  unfold get_client, get_credentials.
  destruct (_client self) as [cached |] eqn:Hcached.
  - intros H. injection H as <- <- <-.
    split; [| split; [| split; [lia | auto]]].
    + intros handle H. injection H as <-. split; [exact Hcached |].
      intros later. unfold get_client. now rewrite Hcached.
    + discriminate.
  - destruct (auth_default cloud log) as [credentials | e].
    + cbn [set_credentials project_id location].
      destruct (bigquery_client cloud _ _ _ _) as [handle | e]; intros H;
        injection H as <- <- <-; unfold logged; rewrite ?length_app; simpl.
      * split; [| split; [| split; [lia | auto]]].
        -- intros handle' H. injection H as <-. split; [reflexivity |].
           intros later. reflexivity.
        -- discriminate.
      * split; [| split; [| split; [lia | auto]]].
        -- discriminate.
        -- intros e' _. auto.
    + intros H. injection H as <- <- <-. unfold logged. rewrite length_app. simpl.
      split; [| split; [| split; [lia | auto]]].
      * discriminate.
      * intros e' _. auto.
Qed.

(** X17.  [close_connection] forgets the client only when closing it
    succeeded: the next [get_client] then builds a new one.  When [close]
    raises, the object still holds the client, and on an object without a
    client nothing is called. *)
Theorem close_connection_outcomes (self : BigQueryConfig) (log : Log) :
  match _client self with
  | None => close_connection cloud self log = (Ok tt, self, log)
  | Some handle =>
      match client_close cloud log handle with
      | Ok _ =>
          exists self',
            close_connection cloud self log
            = (Ok tt, self', logged log (CallClose handle))
            /\ _client self' = None
            /\ forall later,
                 snd (get_client cloud self' later)
                 = match auth_default cloud later with
                   | Ok credentials =>
                       logged (logged later CallDefault)
                         (CallClient (project_id self) credentials (location self))
                   | Raise _ => logged later CallDefault
                   end
      | Raise e =>
          close_connection cloud self log = (Raise e, self, logged log (CallClose handle))
      end
  end.
Proof.
  unfold close_connection.
  destruct (_client self) as [handle |]; [| reflexivity].
  destruct (client_close cloud log handle) as [[] | e]; [| reflexivity].
  exists (set_client self None). split; [reflexivity |]. split; [reflexivity |].
  intros later. unfold get_client, get_credentials. cbn [set_client _client].
  destruct (auth_default cloud later) as [credentials | e]; [| reflexivity].
  cbn [set_credentials project_id location].
  destruct (bigquery_client cloud _ _ _ _); reflexivity.
Qed.

End WithCloud.

(** The first call builds the client, the second finds it. *)
Lemma get_client_builds_once_witness :
  exists self' log',
    get_client good_cloud
      {| project_id := "proj"; location := "US"; dataset_id := "ds";
         _client := None; _credentials := None |} [] = (Ok "client:proj", self', log')
    /\ log' = [CallDefault; CallClient "proj" "adc" "US"]
    /\ _client self' = Some "client:proj"
    /\ get_client good_cloud self' log' = (Ok "client:proj", self', log').
Proof.
  eexists _, _. split; [reflexivity |]. split; [reflexivity |].
  destruct (get_client_builds_once good_cloud _ _ _ _ _
              (eq_refl : get_client good_cloud
                           {| project_id := "proj"; location := "US"; dataset_id := "ds";
                              _client := None; _credentials := None |} [] = _))
    as (Hok & _).
  destruct (Hok "client:proj" eq_refl) as [Hheld Hlater].
  split; [exact Hheld | apply Hlater].
Defined.

End ConnectionFacts.

(** ** The health endpoint *)

Module HealthFacts.
Import Py Connection Health More.

Lemma nonempty_iff (s : string) : nonempty s = true <-> s <> EmptyString.
Proof.
  unfold nonempty. destruct (String.eqb_spec s EmptyString) as [-> | Hne]; simpl.
  - split; [discriminate | congruence].
  - tauto.
Qed.

Lemma missing_field_none (config : AppConfig) :
  missing_field config = None
  <-> app_project_id config <> EmptyString
      /\ app_bucket_name config <> EmptyString
      /\ app_secret_key config <> EmptyString.
Proof.
  unfold missing_field. rewrite <- !nonempty_iff.
  destruct (nonempty (app_project_id config)), (nonempty (app_bucket_name config)),
    (nonempty (app_secret_key config)); simpl;
    (split; [intros H; try discriminate H; auto | intros (H1 & H2 & H3); congruence]).
Qed.

(** What the [try] block does, case by case. *)
Lemma config_body_run (host : Host) (out : Out) :
  validate_config_body host out
  = match get_config host with
    | Raise e => (Raise e, out)
    | Ok config =>
        match stdout_write host out (first_line config) with
        | Ok _ => (Ok (match missing_field config with None => true | Some _ => false end),
                   (out ++ [first_line config])%list)
        | Raise e => (Raise e, (out ++ [first_line config])%list)
        end
    end.
Proof.
  unfold validate_config_body, first_line, print.
  destruct (get_config host) as [config | e]; [| reflexivity].
  destruct (missing_field config) as [field |];
    destruct (stdout_write host out _) as [[] | e]; reflexivity.
Qed.

Lemma body_fails_iff (host : Host) (out out1 : Out) (e : PyExc) :
  validate_config_body host out = (Raise e, out1) <-> try_fails host out e out1.
Proof.
  rewrite config_body_run. unfold try_fails.
  destruct (get_config host) as [config | e0].
  - destruct (stdout_write host out (first_line config)) as [[] | e0] eqn:Hw.
    + split; [discriminate |].
      intros [[H _] | (c & Hc & H & _)]; [discriminate H |].
      injection Hc as <-. rewrite Hw in H. discriminate H.
    + split.
      * intros H. injection H as <- <-. right. exists config. auto.
      * intros [[H _] | (c & Hc & H & ->)]; [discriminate H |].
        injection Hc as <-. rewrite Hw in H. now injection H as <-.
  - split.
    + intros H. injection H as <- <-. now left.
    + intros [[H ->] | (c & Hc & _)]; [now injection H as <- | discriminate Hc].
Qed.

(** [validate_config] returns [True] exactly when the settings load with
    the three fields set and the success line can be printed. *)
Local Ltac handler_print :=
  match goal with
  | |- context [fst (match ?x with _ => _ end)] => destruct x as [[] | ?]
  end; cbn [fst]; discriminate.

Lemma validate_config_true_iff (host : Host) (out : Out) :
  fst (validate_config host out) = Ok true
  <-> exists config,
        get_config host = Ok config
        /\ app_project_id config <> EmptyString
        /\ app_bucket_name config <> EmptyString
        /\ app_secret_key config <> EmptyString
        /\ stdout_write host out success_line = Ok tt.
Proof.
  unfold validate_config. rewrite config_body_run.
  destruct (get_config host) as [config | e].
  - unfold first_line.
    destruct (missing_field config) as [field |] eqn:Hm.
    + split.
      * destruct (stdout_write host out _) as [[] | e]; cbn [fst]; [discriminate |].
        unfold print. handler_print.
      * intros (c & Hc & H1 & H2 & H3 & _). injection Hc as <-.
        assert (Hnone : missing_field config = None) by (apply missing_field_none; auto).
        congruence.
    + apply missing_field_none in Hm as (H1 & H2 & H3).
      destruct (stdout_write host out success_line) as [[] | e] eqn:Hw; cbn [fst].
      * split; [intros _; exists config; auto | reflexivity].
      * split.
        -- unfold print. handler_print.
        -- intros (c & _ & _ & _ & _ & H). discriminate H.
  - split.
    + unfold print. handler_print.
    + intros (c & Hc & _). discriminate Hc.
Qed.

(** [validate_config] raises exactly when its [try] block fails and the
    line of the [except] clause cannot be printed either. *)
Lemma validate_config_raises_iff (host : Host) (out : Out) :
  (exists e', fst (validate_config host out) = Raise e')
  <-> exists e e' out1,
        try_fails host out e out1
        /\ stdout_write host out1 ("ERROR: Configuration validation failed: " ++ exc_str e)
           = Raise e'.
Proof.
  unfold validate_config, print.
  destruct (validate_config_body host out) as [[valid | e] out1] eqn:Hbody.
  - split; [intros [e' H]; discriminate H |].
    intros (e & e' & out2 & Hfail & _).
    apply body_fails_iff in Hfail. rewrite Hbody in Hfail. discriminate Hfail.
  - pose proof (proj1 (body_fails_iff host out out1 e) Hbody) as Hfail.
    destruct (stdout_write host out1 _) as [[] | e'] eqn:Hw; cbn [fst].
    + split; [intros [e' H]; discriminate H |].
      intros (e0 & e' & out2 & Hfail0 & Hw0).
      apply body_fails_iff in Hfail0. rewrite Hbody in Hfail0.
      injection Hfail0 as <- <-. rewrite Hw in Hw0. discriminate Hw0.
    + split; [intros _; exists e, e', out1; auto | intros _; eauto].
Qed.

Lemma init_ok_iff (getenv : string -> option string) (c : BigQueryConfig) :
  init getenv None None = Ok c
  <-> exists project,
        getenv "GOOGLE_CLOUD_PROJECT" = Some project
        /\ project <> EmptyString
        /\ c = {| project_id := project;
                  location := getenv_default getenv "BIGQUERY_LOCATION" "US";
                  dataset_id := getenv_default getenv "BIGQUERY_DATASET_ID"
                                  "bigquery_ai_hackathon";
                  _client := None; _credentials := None |}.
Proof.
  unfold init, or_else.
  destruct (getenv "GOOGLE_CLOUD_PROJECT") as [project |].
  - destruct (String.eqb_spec project EmptyString) as [-> | Hne].
    + split; [discriminate | intros (p & Hp & Hne & _); congruence].
    + split.
      * intros H. injection H as <-. exists project. auto.
      * intros (p & Hp & _ & ->). now injection Hp as <-.
  - split; [discriminate | intros (p & Hp & _); discriminate].
Qed.

(** On a process without a configuration yet, the probe succeeds exactly
    when the project is named, credentials are found, the client is
    constructed and one dataset can be listed. *)
Lemma first_probe_iff (cloud : Cloud) (getenv : string -> option string) (log : Log) :
  let location := getenv_default getenv "BIGQUERY_LOCATION" "US" in
  fst (fst (validate_bigquery_setup cloud getenv None log)) = true
  <-> exists project credentials handle,
        getenv "GOOGLE_CLOUD_PROJECT" = Some project
        /\ project <> EmptyString
        /\ auth_default cloud log = Ok credentials
        /\ bigquery_client cloud (logged log CallDefault) project credentials location
           = Ok handle
        /\ client_list_datasets cloud
             (logged (logged log CallDefault) (CallClient project credentials location))
             handle = Ok tt.
Proof.
  intros location.
  unfold validate_bigquery_setup, get_bigquery_config.
  destruct (init getenv None None) as [c | e] eqn:Hinit.
  - apply init_ok_iff in Hinit as (project & Hp & Hne & ->).
    unfold validate_connection, get_client, get_credentials.
    cbn [_client]. fold location.
    destruct (auth_default cloud log) as [credentials | e] eqn:Hauth;
      cbv beta iota zeta;
      cbn [_client set_credentials set_client project_id Connection.location].
    + destruct (bigquery_client cloud (logged log CallDefault) project credentials location)
        as [handle | e] eqn:Hclient; cbv beta iota zeta.
      * destruct (client_list_datasets cloud
                    (logged (logged log CallDefault)
                       (CallClient project credentials location)) handle)
          as [[] | e] eqn:Hlist; cbn [fst].
        -- split; [intros _; exists project, credentials, handle; auto | reflexivity].
        -- split; [discriminate |].
           intros (p & cr & h & Hp' & _ & Hcr & Hh & Hl).
           rewrite Hp in Hp'. injection Hp' as <-. injection Hcr as <-.
           rewrite Hclient in Hh. injection Hh as <-. rewrite Hlist in Hl.
           discriminate Hl.
      * cbn [fst]. split; [discriminate |].
        intros (p & cr & h & Hp' & _ & Hcr & Hh & _).
        rewrite Hp in Hp'. injection Hp' as <-. injection Hcr as <-.
        rewrite Hclient in Hh. discriminate Hh.
    + cbn [fst]. split; [discriminate |].
      intros (p & cr & h & _ & _ & Hcr & _). discriminate Hcr.
  - cbn [fst]. split; [discriminate |].
    intros (p & cr & h & Hp & Hne & _).
    assert (Hok : exists c, init getenv None None = Ok c).
    { eexists. apply init_ok_iff. exists p. auto. }
    destruct Hok as [c Hc]. rewrite Hinit in Hc. discriminate Hc.
Qed.

(** X18.  [GET /health] on a process that has not built its BigQuery
    configuration yet.
    - It answers with status [healthy] exactly when all of this holds: the
      settings load with non-empty [project_id], [bucket_name] and
      [secret_key]; the success line of [validate_config] can be printed;
      [GOOGLE_CLOUD_PROJECT] is set and not empty; default credentials are
      found; the client is constructed; and listing one dataset succeeds.
    - It answers [HTTPException] 500 exactly when the [try] block of
      [validate_config] fails (the settings do not load, or its line cannot
      be printed) and the line of the [except] clause cannot be printed
      either; BigQuery is then not probed at all.
    - Every other answer has status [unhealthy]. *)
Theorem health_status_first_check (host : Host) (log : Log) (out : Out) :
  let run := health_check host None log out in
  let location := getenv_default (getenv host) "BIGQUERY_LOCATION" "US" in
  ((exists response, outcome_of run = Answer response /\ status response = "healthy")
   <-> (exists config,
          get_config host = Ok config
          /\ app_project_id config <> EmptyString
          /\ app_bucket_name config <> EmptyString
          /\ app_secret_key config <> EmptyString
          /\ stdout_write host out success_line = Ok tt)
       /\ exists project credentials handle,
            getenv host "GOOGLE_CLOUD_PROJECT" = Some project
            /\ project <> EmptyString
            /\ auth_default (cloud host) log = Ok credentials
            /\ bigquery_client (cloud host) (logged log CallDefault) project credentials
                 location = Ok handle
            /\ client_list_datasets (cloud host)
                 (logged (logged log CallDefault) (CallClient project credentials location))
                 handle = Ok tt)
  /\ (outcome_of run = HTTPException 500 "Health check failed"
      <-> exists e e' out1,
            try_fails host out e out1
            /\ stdout_write host out1
                 ("ERROR: Configuration validation failed: " ++ exc_str e) = Raise e')
  /\ (outcome_of run = HTTPException 500 "Health check failed" ->
      global_of run = None /\ log_of run = log)
  /\ (forall response, outcome_of run = Answer response ->
        status response = "healthy" \/ status response = "unhealthy").
Proof.
  intros run location. subst run location.
  rewrite <- validate_config_true_iff, <- validate_config_raises_iff.
  pose proof (first_probe_iff (cloud host) (getenv host) log) as Hprobe.
  cbv zeta in Hprobe. rewrite <- Hprobe. clear Hprobe.
  unfold health_check, outcome_of, global_of, log_of.
  destruct (validate_config host out) as [[valid | e] out1]; cbn [fst snd].
  - destruct (validate_bigquery_setup (cloud host) (getenv host) None log)
      as [[probe g] log1]; cbn [fst snd].
    split; [| split; [| split]].
    + destruct valid, probe; cbn [andb String.eqb status]; simpl;
        (split;
         [ intros (response & Hr & Hs); injection Hr as <-; cbn [status] in Hs;
           try discriminate Hs; auto
         | intros [Hv Hp]; try discriminate Hv; try discriminate Hp;
           eexists; split; reflexivity ]).
    + split; [discriminate | intros [e' H]; discriminate H].
    + discriminate.
    + intros response H. injection H as <-. cbn [status].
      destruct (valid && _); auto.
  - split; [| split; [| split]].
    + split; [intros (response & Hr & _); discriminate Hr | intros [Hv _]; discriminate Hv].
    + split; [intros _; eauto | reflexivity].
    + auto.
    + intros response H. discriminate H.
Qed.

(** X19.  Health checks share the client.  After a check that found
    BigQuery healthy, the configuration is kept with its client.  A later
    check, on any host with the same Google libraries, leaves that
    configuration in place and makes one outside call only, listing a
    dataset on that client; it makes none when it answers 500 because
    [validate_config] raised.  The credentials are not asked for again and
    no client is constructed. *)
Theorem health_checks_share_client (host : Host) (g g' : Global) (log log' : Log)
    (out out' : Out) (response : HealthResponse) :
  health_check host g log out = (Answer response, g', log', out') ->
  bigquery_status response = "healthy" ->
  exists config handle,
    g' = Some config
    /\ _client config = Some handle
    /\ forall host' later out2,
         cloud host' = cloud host ->
         let run := health_check host' g' later out2 in
         global_of run = g'
         /\ log_of run = match fst (validate_config host' out2) with
                         | Ok _ => logged later (CallListDatasets handle)
                         | Raise _ => later
                         end.
Proof.
  unfold health_check at 1.
  destruct (validate_config host out) as [[valid | e] out1]; [| discriminate].
  unfold validate_bigquery_setup.
  destruct (get_bigquery_config (getenv host) g) as [[c | e] g0];
    [| intros H; injection H as <- <- <- <-; discriminate].
  unfold validate_connection.
  destruct (get_client (cloud host) c log) as [[[handle | e] c'] log0] eqn:Hget;
    [| intros H; injection H as <- <- <- <-; discriminate].
  destruct (ConnectionFacts.client_held (cloud host) _ _ _ _ _ Hget) as [Hheld Hlater].
  destruct (client_list_datasets (cloud host) log0 handle);
    intros H; injection H as <- <- <- <-; [intros _ | discriminate].
  exists c', handle. split; [reflexivity |]. split; [exact Hheld |].
  intros host' later out2 Hcloud.
  unfold health_check, global_of, log_of.
  destruct (validate_config host' out2) as [[valid' | e] out3]; cbn [fst snd];
    [| split; reflexivity].
  unfold validate_bigquery_setup, validate_connection, get_bigquery_config.
  rewrite Hcloud, Hlater.
  destruct (client_list_datasets (cloud host) later handle); split; reflexivity.
Qed.

(** A valid configuration behind a standard output that cannot take the
    success line is reported unhealthy, and behind a closed one the answer
    is 500 with no call made. *)
Lemma health_status_first_check_witness :
  (exists response,
     outcome_of (health_check good_host None [] []) = Answer response
     /\ status response = "healthy")
  /\ outcome_of (health_check closed_host None [] [])
     = HTTPException 500 "Health check failed"
  /\ log_of (health_check closed_host None [] []) = []
  /\ exists response,
       outcome_of (health_check ascii_host None [] []) = Answer response
       /\ status response = "unhealthy"
       /\ bigquery_status response = "healthy".
Proof.
  split; [| split; [| split]].
  - apply (proj1 (health_status_first_check good_host [] [])). split.
    + eexists. repeat split; try reflexivity; discriminate.
    + exists "proj", "adc", "client:proj". repeat split; try reflexivity. discriminate.
  - apply (proj1 (proj2 (health_status_first_check closed_host [] []))).
    eexists _, _, _. split; [| reflexivity].
    right. eexists. split; [reflexivity |]. split; reflexivity.
  - apply (proj1 (proj2 (proj2 (health_status_first_check closed_host [] [])))).
    reflexivity.
  - eexists. split; [reflexivity |]. split; reflexivity.
Defined.

(** A host on which everything works, checked again on the same host and
    on one whose standard output has been closed. *)
Lemma health_checks_share_client_witness :
  exists config,
    global_of (health_check good_host None [] []) = Some config
    /\ log_of (health_check good_host None [] [])
       = [CallDefault; CallClient "proj" "adc" "US"; CallListDatasets "client:proj"]
    /\ log_of (health_check good_host (Some config) [] []) = [CallListDatasets "client:proj"]
    /\ log_of (health_check closed_host (Some config) [] []) = [].
Proof.
  destruct (health_checks_share_client good_host None
              (global_of (health_check good_host None [] []))
              [] (log_of (health_check good_host None [] []))
              [] (out_of (health_check good_host None [] []))
              _ eq_refl eq_refl)
    as (config & handle & Hg & Hheld & Hlater).
  exists config. split; [exact Hg |]. split; [reflexivity |].
  vm_compute in Hg. injection Hg as <-.
  vm_compute in Hheld. injection Hheld as <-.
  split.
  - exact (proj2 (Hlater good_host [] [] eq_refl)).
  - exact (proj2 (Hlater closed_host [] [] eq_refl)).
Defined.

End HealthFacts.

(** ** The temporary table of an inline forecast *)

Module ForecastTables.
Import Py Eff Spec More Quiet Forecaster TraceFacts.

Section WithRuntime.
Context {RT : Runtime}.

Lemma prologue_quiet_delete (self : Self) (data : list PyVal) (target time : string) :
  quiet is_delete (forecast_prologue self data target time).
Proof.
  unfold forecast_prologue, _create_temp_table.
  apply quiet_bind; [now apply quiet_new_id | intros forecast_id].
  apply quiet_bind; [| intros; apply quiet_ret].
  apply quiet_try_except; [| intros; apply quiet_raise].
  apply quiet_bind; [now apply quiet_uuid4 | intros hex].
  apply quiet_bind; [apply quiet_lift | intros project_id].
  apply quiet_bind; [apply quiet_lift | intros dataset_id].
  apply quiet_bind; [now apply quiet_create | intros []].
  apply quiet_bind; [now apply quiet_insert | intros errors].
  destruct (truthy (VList errors)); [apply quiet_raise | apply quiet_ret].
Qed.

(** A prologue that returned has created the table whose name it returns,
    and no other. *)
Lemma prologue_creates (self : Self) (data : list PyVal) (target time : string)
    (t t1 : Trace) (ids : string * string) :
  forecast_prologue self data target time t = (Ok ids, t1) ->
  exists schema,
    filter is_create t1 = (filter is_create t ++ [EvCreateTable (snd ids) schema])%list.
Proof.
  intros H.
  unfold forecast_prologue, new_id, _create_temp_table, try_except, bind, call_uuid4_hex,
    call_create_table, call_insert_rows_json, lift, ret, raise in H.
  split_run H. injection H as <- <-. eexists.
  rewrite !filter_record. cbn [is_create snd]. rewrite !app_nil_r. reflexivity.
Qed.

Local Ltac settle Hd1 Hc1 :=
  rewrite ?filter_record; cbn [is_delete is_create];
  rewrite ?app_nil_r, ?Hd1, ?Hc1, <- ?app_assoc; cbn [app];
  split; [auto | split; [first [discriminate | intros; reflexivity] | eexists; reflexivity]].

(** X20.  An inline forecast deletes only the temporary table it
    created.  When the table has been created and loaded, the run creates
    no other table and issues one deletion, of that table, or two when the
    failure comes after the first deletion; a run that returns issues
    exactly one.  When creating or loading the table fails, that error
    reaches the caller and nothing is deleted. *)
Theorem forecast_deletes_its_own_table (self : Self) (data : list PyVal)
    (target time : string) (h : Z) (model : string) (kwargs : Dict) (t : Trace) :
  let run := forecast self data target time h model kwargs t in
  match fst (forecast_prologue self data target time t) with
  | Ok ids =>
      let gone := EvDeleteTable (snd ids) in
      (filter is_delete (snd run) = (filter is_delete t ++ [gone])%list
       \/ filter is_delete (snd run) = (filter is_delete t ++ [gone; gone])%list)
      /\ (forall v, fst run = Ok v ->
            filter is_delete (snd run) = (filter is_delete t ++ [gone])%list)
      /\ exists schema,
           filter is_create (snd run)
           = (filter is_create t ++ [EvCreateTable (snd ids) schema])%list
  | Raise e =>
      fst run = Raise e /\ filter is_delete (snd run) = filter is_delete t
  end.
Proof.
  intros run. subst run.
  destruct (forecast self data target time h model kwargs t) as [r t'] eqn:H.
  destruct (forecast_prologue self data target time t) as [[ids | e] t1] eqn:H1;
    cbn [fst snd].
  2: { destruct (ForecastCleanup.forecast_unbound self data target time h model kwargs
                   t t1 e H1) as [Hrun _].
       rewrite Hrun in H. injection H as <- <-. split; [reflexivity |].
       pose proof (prologue_quiet_delete self data target time t) as Hn.
       now rewrite H1 in Hn. }
  assert (Hd1 : filter is_delete t1 = filter is_delete t).
  { pose proof (prologue_quiet_delete self data target time t) as Hn. now rewrite H1 in Hn. }
  destruct (prologue_creates self data target time t t1 ids H1) as [schema Hc1].
  unfold forecast, try_bind in H. fold (forecast_prologue self data target time) in H.
  rewrite H1 in H.
  unfold bind at 1 in H.
  destruct (dict_has kwargs "temp_table_id").
  - simpl in H. unfold bind in H. rewrite ForecastCleanup.cleanup_run in H. simpl in H.
    injection H as <- <-. settle Hd1 Hc1.
  - simpl in H. unfold bind at 1 in H. simpl in H.
    destruct (query (client self) t1 _) as [job | e].
    + destruct (job_rows job) as [| row0 rows].
      * simpl in H. unfold bind in H. rewrite ForecastCleanup.cleanup_run in H. simpl in H.
        injection H as <- <-. settle Hd1 Hc1.
      * unfold bind at 1 in H. rewrite ForecastCleanup.cleanup_run in H.
        unfold bind at 1 in H.
        match type of H with context [_store_forecast ?a ?b ?c ?d ?e ?f ?g ?h ?i ?tt] =>
          pose proof (ForecastCleanup.store_forecast_returns a b c d e f g h i tt) as Hs;
          pose proof (ForecastTable.store_forecast_quiet is_delete a b c d e f g h i
                        (fun _ _ => eq_refl) tt) as Hsd;
          pose proof (ForecastTable.store_forecast_quiet is_create a b c d e f g h i
                        (fun _ _ => eq_refl) tt) as Hsc;
          destruct (_store_forecast a b c d e f g h i tt) as [rs ts]
        end.
        cbn [fst snd] in Hs, Hsd, Hsc. subst rs.
        rewrite !filter_record in Hsd, Hsc. cbn [is_delete is_create] in Hsd, Hsc.
        repeat rewrite app_nil_r in Hsd. repeat rewrite app_nil_r in Hsc.
        rewrite Hd1 in Hsd. rewrite Hc1 in Hsc.
        unfold bind, lift, ret in H.
        destruct (py_get _ _ _) as [fv | e]; simpl in H.
        -- destruct (py_len fv) as [n | e]; simpl in H.
           ++ injection H as <- <-. rewrite Hsd, Hsc.
              split; [auto | split; [reflexivity | eexists; reflexivity]].
           ++ rewrite ForecastCleanup.cleanup_run in H. injection H as <- <-.
              rewrite !filter_record, Hsd, Hsc. cbn [is_delete is_create].
              rewrite app_nil_r, <- app_assoc. cbn [app].
              split; [auto | split; [discriminate | eexists; reflexivity]].
        -- rewrite ForecastCleanup.cleanup_run in H. injection H as <- <-.
           rewrite !filter_record, Hsd, Hsc. cbn [is_delete is_create].
           rewrite app_nil_r, <- app_assoc. cbn [app].
           split; [auto | split; [discriminate | eexists; reflexivity]].
    + simpl in H. unfold bind in H. rewrite ForecastCleanup.cleanup_run in H. simpl in H.
      injection H as <- <-. settle Hd1 Hc1.
Qed.

End WithRuntime.
End ForecastTables.

(** ** Extra keyword options in the generated queries *)

Module QueryOptions.
Import Py Eff More.

Section WithRuntime.
Context {RT : Runtime}.

Lemma fold_renderable (kwargs : Dict) :
  forall query : string,
    fold_left
      (fun query kv =>
         match TextGenerator.extra_param kv with
         | Some p => query ++ "," ++ nl ++ "                " ++ p
         | None => query
         end) kwargs query
    = fold_left
        (fun query kv =>
           match TextGenerator.extra_param kv with
           | Some p => query ++ "," ++ nl ++ "                " ++ p
           | None => query
           end) (filter renderable kwargs) query.
Proof.
  induction kwargs as [| kv kwargs IH]; intros query; [reflexivity |].
  cbn [filter fold_left]. unfold renderable at 1.
  destruct (TextGenerator.extra_param kv) as [p |] eqn:Hp.
  - cbn [fold_left]. rewrite Hp. apply IH.
  - apply IH.
Qed.

Lemma flat_map_renderable (kwargs : Dict) :
  flat_map (fun kv => match TextGenerator.extra_param kv with
                      | Some p => [p]
                      | None => []
                      end) (filter renderable kwargs)
  = flat_map (fun kv => match TextGenerator.extra_param kv with
                        | Some p => [p]
                        | None => []
                        end) kwargs.
Proof.
  induction kwargs as [| kv kwargs IH]; [reflexivity |].
  cbn [filter flat_map]. unfold renderable at 1.
  destruct (TextGenerator.extra_param kv) as [p |] eqn:Hp.
  - cbn [flat_map]. now rewrite Hp, IH.
  - exact IH.
Qed.

Lemma flat_map_none (kwargs : Dict) :
  filter renderable kwargs = [] ->
  flat_map (fun kv => match TextGenerator.extra_param kv with
                      | Some p => [p]
                      | None => []
                      end) kwargs = [].
Proof. intros H. now rewrite <- flat_map_renderable, H. Qed.

Lemma append_assoc (a b c : string) : ((a ++ b) ++ c = a ++ b ++ c)%string.
Proof. induction a as [| x a IH]; simpl; [reflexivity | now rewrite IH]. Qed.

(** X21.  Extra keyword options whose value is neither a number, a
    boolean nor a string are left out of the generated SQL.  The text
    query is the one built without them.  So is the embedding query as
    long as one option remains or none was given; when options were given
    and none remains, the embedding query carries an empty [STRUCT()]. *)
Theorem unsupported_options_left_out (kwargs : Dict) :
  (forall prompt model_name temperature max_tokens top_p top_k,
     TextGenerator._build_generate_text_query prompt model_name temperature max_tokens
       top_p top_k kwargs
     = TextGenerator._build_generate_text_query prompt model_name temperature max_tokens
         top_p top_k (filter renderable kwargs))
  /\ (forall content model_name,
        filter renderable kwargs <> [] ->
        EmbeddingGenerator._build_generate_embedding_query content model_name kwargs
        = EmbeddingGenerator._build_generate_embedding_query content model_name
            (filter renderable kwargs))
  /\ (forall content model_name,
        kwargs <> [] -> filter renderable kwargs = [] ->
        exists head,
          EmbeddingGenerator._build_generate_embedding_query content model_name []
          = head ++ ")"
          /\ EmbeddingGenerator._build_generate_embedding_query content model_name kwargs
             = head ++ ", STRUCT())").
Proof.
  split; [| split].
  - intros prompt model_name temperature max_tokens top_p top_k.
    unfold TextGenerator._build_generate_text_query. cbv zeta.
    now rewrite fold_renderable.
  - intros content model_name Hsome.
    unfold EmbeddingGenerator._build_generate_embedding_query. cbv zeta.
    rewrite flat_map_renderable.
    destruct kwargs as [| kv rest]; [reflexivity |].
    destruct (filter renderable (kv :: rest)); [contradiction | reflexivity].
  - intros content model_name Hgiven Hnone.
    unfold EmbeddingGenerator._build_generate_embedding_query. cbv zeta.
    eexists. split; [reflexivity |].
    destruct kwargs as [| kv rest]; [contradiction |].
    rewrite (flat_map_none _ Hnone). cbn [join String.concat].
    rewrite !append_assoc. reflexivity.
Qed.

End WithRuntime.

(** A list-valued option beside a number, and a list-valued option alone. *)
Lemma unsupported_options_left_out_witness :
  EmbeddingGenerator._build_generate_embedding_query (RT := Examples.runtime) "hello"
    "text-embedding-001" [("stop", VList []); ("dimensions", VInt 8)]
  = EmbeddingGenerator._build_generate_embedding_query (RT := Examples.runtime) "hello"
      "text-embedding-001" [("dimensions", VInt 8)]
  /\ exists head,
       EmbeddingGenerator._build_generate_embedding_query (RT := Examples.runtime) "hello"
         "text-embedding-001" [("stop", VList [])] = head ++ ", STRUCT())".
Proof.
  split.
  - apply (proj1 (proj2 (unsupported_options_left_out (RT := Examples.runtime)
                           [("stop", VList []); ("dimensions", VInt 8)]))).
    discriminate.
  - destruct (proj2 (proj2 (unsupported_options_left_out (RT := Examples.runtime)
                              [("stop", VList [])])) "hello" "text-embedding-001")
      as (head & _ & Hhead); [discriminate | reflexivity |].
    exists head. exact Hhead.
Defined.

End QueryOptions.

(** ** ObjectRef analysis and metadata reads *)

Module ObjectRefReads.
Import Py Eff Spec More Quiet TraceFacts ObjectRefAnalysis.

Section WithRuntime.
Context {RT : Runtime}.

Lemma analysis_shape (self : Self) (object_ref analysis_prompt model_name : string)
    (kwargs : Dict) (t : Trace) (v : PyVal) :
  fst (analyze_with_object_ref self object_ref analysis_prompt model_name kwargs t) = Ok v ->
  analysis_success_shape v = true.
Proof.
  intros H.
  unfold analyze_with_object_ref, try_except, new_id in H.
  unfold bind, call_uuid4_hex, call_query, lift, ret, raise in H.
  cbv beta iota zeta in H.
  destruct (query (client self) _ _) as [job | e]; [| discriminate H].
  cbv beta iota zeta in H.
  destruct (job_rows job) as [| row0 rows]; [discriminate H |].
  cbv beta iota zeta in H.
  destruct (dict_has kwargs "analysis_id" || dict_has kwargs "analysis_result");
    [discriminate H |].
  cbv beta iota zeta in H.
  destruct (_store_analysis _ _ _ _ _ _ _ _) as [[[] | e] t']; [| discriminate H].
  destruct (py_len _) as [n | e]; [| discriminate H].
  cbn [fst] in H. injection H as <-. reflexivity.
Qed.

Lemma analysis_shape_untagged (v : PyVal) :
  analysis_success_shape v = true -> error_tagged v = false.
Proof.
  unfold analysis_success_shape, error_tagged. intros H.
  apply andb_prop in H as [_ H]. apply negb_true_iff in H. now rewrite H.
Qed.

Lemma analysis_shape_no_error (v : PyVal) :
  analysis_success_shape v = true -> Main.no_error v = true.
Proof.
  unfold analysis_success_shape, has_key, Main.no_error. intros H.
  apply andb_prop in H as [_ H]. destruct v; auto.
Qed.

Lemma analysis_kw_shape (self : Self) (object_ref analysis_prompt model_name : string)
    (kwargs : Dict) (t : Trace) (v : PyVal) :
  fst (analyze_with_object_ref_kw self object_ref analysis_prompt model_name kwargs t)
  = Ok v ->
  analysis_success_shape v = true.
Proof.
  unfold analyze_with_object_ref_kw.
  destruct (dict_has kwargs "object_ref"); [discriminate |].
  apply analysis_shape.
Qed.

Lemma keyword_collision_entries (failed : PyExc -> string -> PyVal) (e : PyExc)
    (object_refs : list string) :
  forall t, entries failed object_refs (outcomes (fun _ => raise e) object_refs t)
            = map (failed e) object_refs.
Proof.
  induction object_refs as [| x rest IH]; intros t; simpl; [reflexivity |].
  now rewrite IH.
Qed.

Lemma keyword_collision_run (body : string -> M PyVal) (object_refs : list string) :
  (forall x t, snd (body x t) = t) ->
  forall acc t, snd (for_append body object_refs acc t) = t.
Proof.
  intros Hbody. induction object_refs as [| x rest IH]; intros acc t; simpl; [reflexivity |].
  unfold bind. specialize (Hbody x t).
  destruct (body x t) as [[v | e] t']; simpl in Hbody; subst t'; [apply IH | reflexivity].
Qed.

(** X22.  [batch_analyze_with_object_refs] never raises, whatever number
    of its analyses fail.  It returns one entry per object reference in
    input order: the record the analysis call returned, or the record with
    [error] and [status] [failed] for the exception it raised; the failed
    entries are as many as the calls that raised.  An extra option named
    [object_ref] makes every call a [TypeError]: every entry is then a
    failed record and the warehouse is never called. *)
Theorem batch_analysis_total (self : Self) (object_refs : list string)
    (analysis_prompt model_name : string) (kwargs : Dict) (t : Trace) :
  let os := outcomes (fun object_ref =>
                        analyze_with_object_ref_kw self object_ref analysis_prompt
                          model_name kwargs)
              object_refs t in
  let run := batch_analyze_with_object_refs self object_refs analysis_prompt model_name
               kwargs t in
  (exists results,
     fst run = Ok results
     /\ List.length results = List.length object_refs
     /\ (forall j x o, nth_error object_refs j = Some x -> nth_error os j = Some o ->
           nth_error results j = Some (entry failed_record x o))
     /\ List.length (filter error_tagged results) = List.length (filter raised os)
     /\ List.length (filter analysis_success_shape results)
        = List.length (filter is_ok os))
  /\ (dict_has kwargs "object_ref" = true ->
      exists message,
        run = (Ok (map (failed_record (TypeError message)) object_refs), t))
  /\ (dict_has kwargs "object_ref" = false ->
      os = outcomes (fun object_ref =>
                       analyze_with_object_ref self object_ref analysis_prompt model_name
                         kwargs)
             object_refs t).
Proof.
  intros os run.
  set (call := fun object_ref =>
                 analyze_with_object_ref_kw self object_ref analysis_prompt model_name
                   kwargs).
  assert (Hrun : fst run = Ok (entries failed_record object_refs os)).
  { subst run. unfold batch_analyze_with_object_refs, try_except.
    pose proof (BatchIsolation.for_append_run call failed_record object_refs [] t) as Hrun.
    change (batch_item self analysis_prompt model_name kwargs)
      with (batch_body call failed_record).
    destruct (for_append (batch_body call failed_record) object_refs [] t) as [r t'].
    cbn [fst] in Hrun. subst r. cbv beta iota zeta. cbn [fst]. reflexivity. }
  split; [| split].
  - exists (entries failed_record object_refs os). split; [exact Hrun |].
    assert (Hshape : forall x t0 v, fst (call x t0) = Ok v -> analysis_success_shape v = true).
    { intros x t0 v.
      exact (analysis_kw_shape self x analysis_prompt model_name kwargs t0 v). }
    destruct (BatchTotals.census call failed_record analysis_success_shape Hshape
                (fun _ _ => eq_refl) (fun _ _ => eq_refl) analysis_shape_untagged
                (fun _ _ => eq_refl) analysis_shape_no_error object_refs t)
      as (Hlen & Htag & Hok & _).
    split; [exact Hlen |]. split; [| split; [exact Htag | exact Hok]].
    intros j x o. apply BatchTotals.position.
  - intros Hkw. eexists.
    assert (Hsnd : snd run = t).
    { subst run. unfold batch_analyze_with_object_refs, try_except.
      pose proof (keyword_collision_run
                    (batch_item self analysis_prompt model_name kwargs) object_refs) as Hquiet.
      match goal with
      | |- context [for_append ?b ?xs ?acc ?tt] =>
          specialize (Hquiet
                        ltac:(intros x t0; unfold batch_item, try_except,
                                analyze_with_object_ref_kw; rewrite Hkw; reflexivity)
                        acc tt);
          destruct (for_append b xs acc tt) as [[r | e] t']
      end; exact Hquiet. }
    destruct run as [r t']. cbn [fst snd] in Hrun, Hsnd. subst r t'.
    f_equal. f_equal. subst os.
    unfold analyze_with_object_ref_kw. rewrite Hkw.
    apply keyword_collision_entries.
  - intros Hkw. subst os. unfold analyze_with_object_ref_kw. now rewrite Hkw.
Qed.

(** X23.  The metadata read and the usage statistics never raise: a
    failure comes back as a dict.  With the configuration object that
    [get_bigquery_config()] returns, both answer with the error
    [{'error': "'BigQueryConfig' object is not subscriptable"}] before any
    query is sent, and an analysis writes no audit row. *)
Theorem metadata_reads_report_in_band (self : Self) (t : Trace) :
  (forall object_ref,
     exists d, fst (extract_metadata_from_object_ref self object_ref t) = Ok (VDict d))
  /\ (exists d, fst (get_object_ref_usage_stats self t) = Ok (VDict d))
  /\ (forall project_id location dataset_id,
        config self = BigQueryConfig project_id location dataset_id ->
        (forall object_ref,
           extract_metadata_from_object_ref self object_ref t
           = (Ok (error_dict not_subscriptable), t))
        /\ get_object_ref_usage_stats self t = (Ok (error_dict not_subscriptable), t)
        /\ forall object_ref analysis_prompt model_name kwargs,
             inserts (snd (analyze_with_object_ref self object_ref analysis_prompt
                             model_name kwargs t)) = inserts t).
Proof.
  split; [| split].
  - intros object_ref.
    unfold extract_metadata_from_object_ref, try_except, bind, lift, call_query, ret.
    destruct (_build_metadata_extraction_query self object_ref) as [sql | e];
      [| eexists; reflexivity].
    cbv beta iota zeta.
    destruct (query (client self) t sql) as [job | e]; [| eexists; reflexivity].
    destruct (job_rows job); eexists; reflexivity.
  - unfold get_object_ref_usage_stats, try_except, bind, lift, call_query, ret.
    destruct (config_getitem (config self) "project_id") as [project_id | e];
      [| eexists; reflexivity].
    cbv beta iota zeta.
    destruct (config_getitem (config self) "dataset_id") as [dataset_id | e];
      [| eexists; reflexivity].
    cbv beta iota zeta.
    destruct (query (client self) t _) as [job | e]; [| eexists; reflexivity].
    destruct (job_rows job) as [| row0 rows]; [eexists; reflexivity |].
    cbv beta iota zeta.
    destruct (query (client self) _ _) as [job' | e]; [| eexists; reflexivity].
    destruct (job_rows job'); eexists; reflexivity.
  - intros project_id location dataset_id Hconfig.
    split; [| split].
    + intros object_ref.
      unfold extract_metadata_from_object_ref, _build_metadata_extraction_query,
        try_except, bind, lift.
      rewrite Hconfig. reflexivity.
    + unfold get_object_ref_usage_stats, try_except, bind, lift.
      rewrite Hconfig. reflexivity.
    + intros object_ref analysis_prompt model_name kwargs.
      apply (quiet_length is_insert
               (analyze_with_object_ref self object_ref analysis_prompt model_name kwargs)).
      unfold analyze_with_object_ref. quiet_auto.
      intros t0. unfold _store_analysis, try_except, bind, lift.
      rewrite Hconfig. reflexivity.
Qed.

End WithRuntime.

(** Two references analysed with an option named [object_ref]. *)
Lemma batch_analysis_total_witness :
  exists message,
    batch_analyze_with_object_refs (RT := Examples.runtime) search_rows
      ["gs://bucket/a.png"; "gs://bucket/b.png"] "describe" "gemini-pro-vision"
      [("object_ref", VStr "gs://bucket/c.png")] []
    = (Ok [failed_record (TypeError message) "gs://bucket/a.png";
           failed_record (TypeError message) "gs://bucket/b.png"], []).
Proof.
  apply (proj1 (proj2 (batch_analysis_total (RT := Examples.runtime) search_rows
                         ["gs://bucket/a.png"; "gs://bucket/b.png"] "describe"
                         "gemini-pro-vision" [("object_ref", VStr "gs://bucket/c.png")] []))).
  reflexivity.
Defined.

(** The processor as the application builds it. *)
Lemma metadata_reads_report_in_band_witness :
  extract_metadata_from_object_ref (RT := Examples.runtime) search_rows "gs://bucket/a.png" []
  = (Ok (VDict [("error", VStr "'BigQueryConfig' object is not subscriptable")]), [])
  /\ get_object_ref_usage_stats (RT := Examples.runtime) search_rows []
     = (Ok (VDict [("error", VStr "'BigQueryConfig' object is not subscriptable")]), []).
Proof.
  destruct (proj2 (proj2 (metadata_reads_report_in_band (RT := Examples.runtime)
                            search_rows []))
              "proj" "US" "ds" eq_refl) as (Hread & Hstats & _).
  split; [apply Hread | exact Hstats].
Defined.

End ObjectRefReads.

(** ** Options of the forecast queries *)

Module ForecastOptions.
Import Py Eff Forecaster ForecastFromTable.

Section WithRuntime.
Context {RT : Runtime}.

(** X24.  The two forecast query builders read three options only,
    [seasonality], [trend] and [confidence_level]: option maps that agree
    on these give the same query, whatever else they hold.  For a table
    forecast an empty [where_clause] is the same as none. *)
Theorem forecast_query_options (kwargs kwargs' : Dict) :
  (forall k, In k ["seasonality"; "trend"; "confidence_level"] ->
     dict_get kwargs k = dict_get kwargs' k) ->
  (forall temp_table_id target_column time_column forecast_horizon model_name,
     _build_forecast_query temp_table_id target_column time_column forecast_horizon
       model_name kwargs
     = _build_forecast_query temp_table_id target_column time_column forecast_horizon
         model_name kwargs')
  /\ (forall table_id target_column time_column forecast_horizon model_name where_clause,
        _build_forecast_from_table_query table_id target_column time_column
          forecast_horizon model_name where_clause kwargs
        = _build_forecast_from_table_query table_id target_column time_column
            forecast_horizon model_name where_clause kwargs')
  /\ (forall table_id target_column time_column forecast_horizon model_name,
        _build_forecast_from_table_query table_id target_column time_column
          forecast_horizon model_name (Some EmptyString) kwargs
        = _build_forecast_from_table_query table_id target_column time_column
            forecast_horizon model_name None kwargs').
Proof.
  intros Hsame.
  assert (Hs : dict_get kwargs "seasonality" = dict_get kwargs' "seasonality")
    by (apply Hsame; simpl; auto).
  assert (Ht : dict_get kwargs "trend" = dict_get kwargs' "trend")
    by (apply Hsame; simpl; auto).
  assert (Hc : dict_get kwargs "confidence_level" = dict_get kwargs' "confidence_level")
    by (apply Hsame; simpl; auto).
  split; [| split].
  - intros. unfold _build_forecast_query. now rewrite Hs, Ht, Hc.
  - intros. unfold _build_forecast_from_table_query. now rewrite Hs, Ht, Hc.
  - intros. unfold _build_forecast_from_table_query. now rewrite Hs, Ht, Hc.
Qed.

End WithRuntime.

(** An option the builders do not know, beside one they do. *)
Lemma forecast_query_options_witness :
  _build_forecast_query (RT := Examples.runtime) "proj.ds.temp_forecast_0123abcd" "y" "t" 12
    "auto" [("seasonality", VInt 7); ("holidays", VStr "US")]
  = _build_forecast_query (RT := Examples.runtime) "proj.ds.temp_forecast_0123abcd" "y" "t" 12
      "auto" [("seasonality", VInt 7)].
Proof.
  destruct (forecast_query_options (RT := Examples.runtime)
              [("seasonality", VInt 7); ("holidays", VStr "US")]
              [("seasonality", VInt 7)]) as [Hquery _].
  - intros k [<- | [<- | [<- | []]]]; reflexivity.
  - apply Hquery.
Defined.

End ForecastOptions.
